(** * SatyaMatka: game window status, wager evaluation, bet placement and
      result settlement

    A shallow embedding of the game lifecycle and settlement code of the
    server ([server/routes/games.ts], [server/routes/results.ts],
    [server/models/Game.ts]) together with the properties the design
    document states about it.

    Conventions of the embedding:
    - a JavaScript string is a [string]; the code only handles digit and
      letter strings, so a character is one [ascii];
    - the number of minutes since midnight is a [nat]; the result of
      [Number(..)] on a time component is an [option nat] where [None] is
      [NaN];
    - an amount of money (a JavaScript number) is the rational [Q] that a
      finite IEEE double denotes, and every addition, subtraction,
      multiplication and division of the code rounds its result to the
      nearest double ([JS.add], [JS.sub], [JS.mul], [JS.div]), in the
      order the code computes;
    - a Mongo collection keyed by [_id] is a [gmap]; a document is a record;
    - a request handler is a function from the database and the request to
      a response and the database it leaves behind. *)

From Stdlib Require Import ZArith QArith Strings.String Strings.Ascii Bool Lia List.
From Stdlib Require Floats.
From stdpp Require Import gmap strings list fin_maps.

Local Open Scope string_scope.
Local Open Scope nat_scope.

(** ** JavaScript primitives used by the routes *)

Module JS.

(** [s.charAt(i)]: the one-character string at position [i], or the empty
    string out of range. *)
Definition charAt (i : nat) (s : string) : string :=
  match String.get i s with
  | Some c => String c ""
  | None => ""
  end.

(** [s.includes(sub)]: [sub] occurs in [s] as a substring. *)
Fixpoint includes (s sub : string) : bool :=
  String.prefix sub s ||
  match s with
  | "" => false
  | String _ s' => includes s' sub
  end.

(** [s.split("")]: the characters of [s], each as a string. *)
Fixpoint split_chars (s : string) : list string :=
  match s with
  | "" => []
  | String c s' => String c "" :: split_chars s'
  end.

(** [s.split(sep)] for a one-character separator. *)
Fixpoint split (sep : ascii) (s : string) : list string :=
  match s with
  | "" => [""]
  | String c s' =>
      if Ascii.eqb c sep then "" :: split sep s'
      else match split sep s' with
           | x :: xs => String c x :: xs
           | [] => [String c ""]
           end
  end.

(** [a < b] on strings: lexicographic on character codes. *)
Fixpoint str_lt (a b : string) : bool :=
  match a, b with
  | _, "" => false
  | "", String _ _ => true
  | String x a', String y b' =>
      (nat_of_ascii x <? nat_of_ascii y) || (Ascii.eqb x y && str_lt a' b')
  end.

(** [a >= b] on strings. *)
Definition str_ge (a b : string) : bool := negb (str_lt a b).

Definition digit_of (c : ascii) : option nat :=
  let n := nat_of_ascii c in
  if (48 <=? n) && (n <=? 57) then Some (n - 48) else None.

Definition is_digit (c : ascii) : bool :=
  match digit_of c with Some _ => true | None => false end.

Fixpoint digits_value (acc : nat) (s : string) : option nat :=
  match s with
  | "" => Some acc
  | String c s' =>
      match digit_of c with
      | Some d => digits_value (10 * acc + d) s'
      | None => None
      end
  end.

(** [Number(s)] on the strings the time fields can hold: a string of
    decimal digits is its value, the empty string is [0], and a string
    with any other character is [NaN] ([None]).  The schema of
    [Game.ts] only admits [H:mm] and [HH:mm] digit strings, so the signed,
    fractional and blank-padded forms [Number] also reads never reach
    it. *)
Definition Number (s : string) : option nat := digits_value 0 s.

(** Comparisons of numbers: any comparison with [NaN] is false. *)
Definition num_lt (a b : option nat) : bool :=
  match a, b with Some x, Some y => x <? y | _, _ => false end.
Definition num_ge (a b : option nat) : bool :=
  match a, b with Some x, Some y => y <=? x | _, _ => false end.
Definition num_gt (a b : option nat) : bool := num_lt b a.

Definition is_space (c : ascii) : bool :=
  let n := nat_of_ascii c in
  (n =? 32) || ((9 <=? n) && (n <=? 13)) || (n =? 160).

Fixpoint trimStart (s : string) : string :=
  match s with
  | "" => ""
  | String c s' => if is_space c then trimStart s' else s
  end.

Fixpoint trimEnd (s : string) : string :=
  match s with
  | "" => ""
  | String c s' =>
      match trimEnd s' with
      | "" => if is_space c then "" else String c ""
      | t => String c t
      end
  end.

(** [s.trim()] on the white space of one-byte characters: blank, tab, line
    feed, vertical tab, form feed, carriage return and no-break space. *)
Definition trim (s : string) : string := trimEnd (trimStart s).

(** Truthiness of a string: non-empty. *)
Definition truthy (s : string) : bool :=
  match s with "" => false | _ => true end.

(** [a || b] on strings. *)
Definition or_else (a b : string) : string := if truthy a then a else b.

(** *** Numbers

    A JavaScript number is a binary64 floating-point value.  An amount is
    modelled by the rational a finite binary64 value denotes, and every
    arithmetic operation rounds its exact result to the nearest binary64
    value, ties to the even significand.  An operand that is not a
    binary64 value stands for the nearest one, as a decimal literal or a
    number of a JSON body does.  Comparisons of finite values are those
    of the rationals.  [NaN], the infinities (a result beyond about
    1.8e308) and the sign of zero are not represented. *)

(** [2^k <= n / d]. *)
Definition atLeastPow2 (n : Z) (d : positive) (k : Z) : bool :=
  if (0 <=? k)%Z then (Zpos d * 2 ^ k <=? n)%Z else (Zpos d <=? n * 2 ^ (- k))%Z.

(** The [l] with [2^l <= n / d < 2^(l+1)], for positive [n]. *)
Definition floorLog2 (n : Z) (d : positive) : Z :=
  let l := (Z.log2 n - Z.log2 (Zpos d))%Z in
  if atLeastPow2 n d l then l else (l - 1)%Z.

(** [n / d] rounded to the nearest integer, a tie to the even one. *)
Definition roundHalfEven (n d : Z) : Z :=
  let q := (n / d)%Z in
  let r := (n mod d)%Z in
  match (2 * r ?= d)%Z with
  | Lt => q
  | Gt => (q + 1)%Z
  | Eq => if Z.even q then q else (q + 1)%Z
  end.

(** The binary64 value nearest to [x]: a significand of 53 bits, the
    smallest quantum being [2^-1074]. *)
Definition round64 (x : Q) : Q :=
  let n := Z.abs (Qnum x) in
  if (n =? 0)%Z then 0%Q
  else
    let e := Z.max (floorLog2 n (Qden x) - 52) (-1074) in
    let m := if (0 <=? e)%Z then roundHalfEven n (Zpos (Qden x) * 2 ^ e)
             else roundHalfEven (n * 2 ^ (- e)) (Zpos (Qden x)) in
    let v := if (0 <=? e)%Z then inject_Z (m * 2 ^ e)
             else Qred (Qmake m (Z.to_pos (2 ^ (- e)))) in
    if (Qnum x <? 0)%Z then Qopp v else v.

(** [a + b], [a - b], [a * b] and [a / b] on numbers. *)
Definition add (a b : Q) : Q := round64 (round64 a + round64 b).
Definition sub (a b : Q) : Q := round64 (round64 a - round64 b).
Definition mul (a b : Q) : Q := round64 (round64 a * round64 b).
Definition div (a b : Q) : Q := round64 (round64 a / round64 b).

(** [l.reduce((sum, x) => sum + x, init)]: the additions from left to
    right. *)
Definition sumFrom (init : Q) (l : list Q) : Q := fold_left add l init.

(** The rational a finite binary64 value of the kernel denotes, to compare
    the operations above with the kernel's own binary64 arithmetic. *)
Definition valueOf (f : PrimFloat.float) : Q :=
  match FloatOps.Prim2SF f with
  | SpecFloat.S754_finite s m e =>
      let v := if (0 <=? e)%Z then inject_Z (Zpos m * 2 ^ e)
               else Qred (Qmake (Zpos m) (Z.to_pos (2 ^ (- e)))) in
      if s then Qopp v else v
  | _ => 0%Q
  end.

End JS.

Arguments JS.round64 : simpl never.
Arguments JS.add : simpl never.
Arguments JS.sub : simpl never.
Arguments JS.mul : simpl never.
Arguments JS.div : simpl never.
Arguments JS.sumFrom : simpl never.

(** ** Data model ([server/models/Game.ts] and the documents the routes use) *)

Inductive GameType := jodi | haruf | crossing.

Inductive GameStatus := waiting | open | closed | result_declared.

#[global] Instance GameType_eq_dec : EqDecision GameType.
Proof. solve_decision. Defined.

#[global] Instance GameStatus_eq_dec : EqDecision GameStatus.
Proof. solve_decision. Defined.

(** The fields of [IGame] that the routes read or write; names, audit
    timestamps and admin references are left out. *)
Record Game := {
  gameName : string;
  gameType : GameType;
  isActive : bool;
  startTime : string;
  endTime : string;
  resultTime : string;
  minBet : Q;
  maxBet : Q;
  commission : Q;
  jodiPayout : Q;
  harufPayout : Q;
  crossingPayout : Q;
  declaredResult : option string;
  currentStatus : GameStatus;
  forcedStatus : option GameStatus
}.

(** ** Clock and window evaluation ([games.ts]) *)

Module Clock.
Import JS.

(** [timeToMinutes] of [getAllGames] and [placeBet]:
    [const [hours, minutes] = time.split(":").map(Number);
     return hours * 60 + minutes].  A missing component is [undefined]
    and makes the sum [NaN]. *)
Definition timeToMinutes (time : string) : option nat :=
  let parts := map Number (split ":" time) in
  match parts with
  | Some hours :: Some minutes :: _ => Some (hours * 60 + minutes)
  | _ => None
  end.

(** The body of the time computation of [getAllGames] (lines 44-85) and
    [placeBet] (lines 235-276) for an active game, on the four minute
    values. *)
Definition windowStatus
    (currentMinutes startMinutes endMinutes resultMinutes : option nat)
    : GameStatus :=
  let '(isGameOpen, isGameClosed, isResultTime) :=
    if num_gt endMinutes startMinutes then
      (num_ge currentMinutes startMinutes && num_lt currentMinutes endMinutes,
       num_ge currentMinutes endMinutes && num_lt currentMinutes resultMinutes,
       num_ge currentMinutes resultMinutes)
    else
      let isGameOpen :=
        num_ge currentMinutes startMinutes || num_lt currentMinutes endMinutes in
      if num_gt resultMinutes endMinutes then
        (isGameOpen,
         num_ge currentMinutes endMinutes && num_lt currentMinutes resultMinutes,
         num_ge currentMinutes resultMinutes && num_lt currentMinutes startMinutes)
      else
        (isGameOpen,
         (num_ge currentMinutes endMinutes && num_lt currentMinutes (Some 1440))
         || (num_ge currentMinutes (Some 0) && num_lt currentMinutes resultMinutes),
         num_ge currentMinutes resultMinutes && num_lt currentMinutes startMinutes)
  in
  if isGameOpen then open
  else if isGameClosed then closed
  else if isResultTime then result_declared
  else waiting.

(** The status shown by [getAllGames] and checked by [placeBet] at the
    current time [currentTime] (an [HH:mm] string).  Both compute it for
    an active game only: [getAllGames] finds the games with [isActive]
    true and [placeBet] answers 404 for an inactive one, so the last
    branch of their status block, for an inactive game, never runs.
    [None]: the game is inactive and no status is computed.  For an active
    game a forced status wins, otherwise the window of the current
    time. *)
Definition currentStatusOf (game : Game) (currentTime : string)
    : option GameStatus :=
  if negb (isActive game) then None
  else
    Some match forcedStatus game with
         | Some forced => forced
         | None =>
             windowStatus (timeToMinutes currentTime)
                          (timeToMinutes (startTime game))
                          (timeToMinutes (endTime game))
                          (timeToMinutes (resultTime game))
         end.

(** The status [getGameById] answers with for the game it has found
    (lines 126-150).  [None]: the game is inactive and the handler answers
    404 "Game is not active" before it computes a status.  For an active
    game a forced status wins, otherwise the [HH:mm] strings are compared
    directly. *)
Definition getGameById_status (game : Game) (currentTime : string)
    : option GameStatus :=
  if negb (isActive game) then None
  else
    Some match forcedStatus game with
         | Some forced => forced
         | None =>
             if str_ge currentTime (startTime game)
                && str_lt currentTime (endTime game)
             then open
             else if str_ge currentTime (endTime game)
                     && str_lt currentTime (resultTime game)
             then closed
             else if str_ge currentTime (resultTime game) then result_declared
             else waiting
         end.

(** The current time as the handlers read it,
    [now.toTimeString().slice(0, 5)]: two digits, a colon, two digits. *)
Definition digit_char (d : nat) : ascii := ascii_of_nat (48 + d).

Definition pad2 (n : nat) : string :=
  String (digit_char (n / 10)) (String (digit_char (n mod 10)) "").

Definition hhmm (h m : nat) : string :=
  String (digit_char (h / 10))
    (String (digit_char (h mod 10)) (String ":" (pad2 m))).

End Clock.

(** ** Documents *)

Inductive BetStatus := pending | won | lost | cancelled | refunded.

#[global] Instance BetStatus_eq_dec : EqDecision BetStatus.
Proof. solve_decision. Defined.

(** The type-specific part of [bet.betData]; an absent field and an empty
    string are both falsy for the code, and both are the empty string
    here. *)
Record BetData := {
  harufPosition : string;
  harufDigit : string
}.

(** A [Bet] document.  Its [_id] is its position in the collection.
    [legacyHarufPosition] and [crossingCombinations] are the top-level
    [bet.harufPosition] and [bet.crossingCombinations] that the first
    version of the results route reads; [isWinning], [resultDeclared] and
    [betDeclaredResult] are the marks the results route writes. *)
Record Bet := {
  betUserId : nat;
  betGameId : nat;
  betGameType : GameType;
  betType : GameType;
  betNumber : string;
  betAmount : Q;
  potentialWinning : Q;
  betData : BetData;
  legacyHarufPosition : string;
  crossingCombinations : option (list string);
  status : BetStatus;
  isWinner : option bool;
  winningAmount : option Q;
  actualPayout : option Q;
  deductionTransactionId : option nat;
  winningTransactionId : option nat;
  isWinning : option bool;
  resultDeclared : bool;
  betDeclaredResult : option string
}.

(** The balances of a [Wallet] document that the routes touch. *)
Record Wallet := {
  depositBalance : Q;
  winningBalance : Q;
  totalWinnings : Q;
  totalBets : Q
}.

(** The balances of a [User] document that the results route increments. *)
Record User := {
  userWinningBalance : Q;
  userTotalWinnings : Q
}.

Inductive TransactionType := tx_bet | tx_win.

(** A ledger [Transaction]; its [_id] is its position in the collection. *)
Record Transaction := {
  txUserId : nat;
  txType : TransactionType;
  txAmount : Q;
  txGameId : nat
}.

Record Distribution := {
  distTotalBets : nat;
  distTotalAmount : Q;
  distWinningBets : nat;
  distWinningAmount : Q
}.

Record BetDistribution := {
  distJodi : Distribution;
  distHaruf : Distribution;
  distCrossing : Distribution
}.

Inductive ResultStatus := result_pending | result_status_declared.

(** A [GameResult] document; [resultDate] is a time stamp in
    milliseconds.  The name of the game, the draw time, the declaring
    admin and the declaration time stamps are left out. *)
Record GameResult := {
  resGameId : nat;
  resultDate : Z;
  jodiResult : option string;
  harufResult : option string;
  crossingResult : option string;
  resTotalBets : nat;
  totalBetAmount : Q;
  totalWinningAmount : Q;
  platformCommission : Q;
  netProfit : Q;
  betDistribution : BetDistribution;
  resStatus : ResultStatus
}.

(** The database: the collections of the models the routes use. *)
Record Db := {
  games : gmap nat Game;
  gameResults : list GameResult;
  bets : list Bet;
  wallets : gmap nat Wallet;
  users : gmap nat User;
  transactions : list Transaction
}.

(** ** Updating documents and collections *)

Definition withBets (db : Db) (bs : list Bet) : Db :=
  {| games := games db; gameResults := gameResults db; bets := bs;
     wallets := wallets db; users := users db; transactions := transactions db |}.

Definition withWallets (db : Db) (ws : gmap nat Wallet) : Db :=
  {| games := games db; gameResults := gameResults db; bets := bets db;
     wallets := ws; users := users db; transactions := transactions db |}.

Definition withUsers (db : Db) (us : gmap nat User) : Db :=
  {| games := games db; gameResults := gameResults db; bets := bets db;
     wallets := wallets db; users := us; transactions := transactions db |}.

Definition withTransactions (db : Db) (ts : list Transaction) : Db :=
  {| games := games db; gameResults := gameResults db; bets := bets db;
     wallets := wallets db; users := users db; transactions := ts |}.

Definition withGames (db : Db) (gs : gmap nat Game) : Db :=
  {| games := gs; gameResults := gameResults db; bets := bets db;
     wallets := wallets db; users := users db; transactions := transactions db |}.

Definition withGameResults (db : Db) (rs : list GameResult) : Db :=
  {| games := games db; gameResults := rs; bets := bets db;
     wallets := wallets db; users := users db; transactions := transactions db |}.

(** The documents of a collection with their [_id], the first one being
    number [k]. *)
Fixpoint indexedFrom {A : Type} (k : nat) (l : list A) : list (nat * A) :=
  match l with
  | [] => []
  | x :: l' => (k, x) :: indexedFrom (S k) l'
  end.

Definition indexed {A : Type} (l : list A) : list (nat * A) := indexedFrom 0 l.

(** [Bet.find(query)]: the matching documents with their [_id], in
    collection order. *)
Definition findBets (query : Bet -> bool) (db : Db) : list (nat * Bet) :=
  List.filter (fun found => query (snd found)) (indexed (bets db)).

(** The settlement fields [declareResult] of [games.ts] assigns to a bet. *)
Definition markBet (bet : Bet) (st : BetStatus) (winner : bool)
    (amount : option Q) (winTx : option nat) : Bet :=
  {| betUserId := betUserId bet; betGameId := betGameId bet;
     betGameType := betGameType bet; betType := betType bet;
     betNumber := betNumber bet; betAmount := betAmount bet;
     potentialWinning := potentialWinning bet; betData := betData bet;
     legacyHarufPosition := legacyHarufPosition bet;
     crossingCombinations := crossingCombinations bet;
     status := st; isWinner := Some winner;
     winningAmount := match amount with Some a => Some a | None => winningAmount bet end;
     actualPayout := match amount with Some a => Some a | None => actualPayout bet end;
     deductionTransactionId := deductionTransactionId bet;
     winningTransactionId :=
       match winTx with Some t => Some t | None => winningTransactionId bet end;
     isWinning := isWinning bet; resultDeclared := resultDeclared bet;
     betDeclaredResult := betDeclaredResult bet |}.

(** The fields [processBetsForResult] of [results.ts] writes with
    [Bet.findByIdAndUpdate]. *)
Definition markResult (bet : Bet) (winning : bool) (declared : string) : Bet :=
  {| betUserId := betUserId bet; betGameId := betGameId bet;
     betGameType := betGameType bet; betType := betType bet;
     betNumber := betNumber bet; betAmount := betAmount bet;
     potentialWinning := potentialWinning bet; betData := betData bet;
     legacyHarufPosition := legacyHarufPosition bet;
     crossingCombinations := crossingCombinations bet;
     status := status bet; isWinner := isWinner bet;
     winningAmount := winningAmount bet; actualPayout := actualPayout bet;
     deductionTransactionId := deductionTransactionId bet;
     winningTransactionId := winningTransactionId bet;
     isWinning := Some winning; resultDeclared := true;
     betDeclaredResult := Some declared |}.

Definition creditWallet (wallet : Wallet) (amount : Q) : Wallet :=
  {| depositBalance := depositBalance wallet;
     winningBalance := JS.add (winningBalance wallet) amount;
     totalWinnings := JS.add (totalWinnings wallet) amount;
     totalBets := totalBets wallet |}.

Definition creditUser (amount : Q) (user : User) : User :=
  {| userWinningBalance := JS.add (userWinningBalance user) amount;
     userTotalWinnings := JS.add (userTotalWinnings user) amount |}.

Definition setGameStatus (game : Game) (st : GameStatus) (declared : option string)
    : Game :=
  {| gameName := gameName game; gameType := gameType game;
     isActive := isActive game; startTime := startTime game;
     endTime := endTime game; resultTime := resultTime game;
     minBet := minBet game; maxBet := maxBet game; commission := commission game;
     jodiPayout := jodiPayout game; harufPayout := harufPayout game;
     crossingPayout := crossingPayout game;
     declaredResult :=
       match declared with Some r => Some r | None => declaredResult game end;
     currentStatus := st; forcedStatus := forcedStatus game |}.

(** ** Wager evaluation *)

(** *** [games.ts], [declareResult], lines 853-916 *)

Module GamesWager.
Import JS.

(** [bet.betNumber === x] where [x] may be [undefined]. *)
Definition strict_eq (s : string) (x : option string) : bool :=
  match x with
  | Some w => String.eqb s w
  | None => false
  end.

(** The crossing case: exact match, or for a 2-character bet and a
    winning number of at least 2 characters, every bet character occurs
    in the winning number. *)
Definition crossingWinner (betNumber : string) (unifiedWinningNumber : option string)
    : bool :=
  let isWinner := strict_eq betNumber unifiedWinningNumber in
  match unifiedWinningNumber with
  | Some w =>
      if negb isWinner && truthy w && truthy betNumber then
        let winDigits := split_chars w in
        let betDigits := split_chars betNumber in
        if (2 <=? length winDigits) && (length betDigits =? 2) then
          forallb (fun digit => existsb (String.eqb digit) winDigits) betDigits
        else isWinner
      else isWinner
  | None => isWinner
  end.

(** The haruf case: [harufPosition] ["first"] compares with [charAt(0)],
    ["last"] with [charAt(1)], anything else asks whether the winning
    number includes the bet number. *)
Definition harufWinner (bet : Bet) (unifiedWinningNumber : option string) : bool :=
  if String.eqb (harufPosition (betData bet)) "first" then
    strict_eq (betNumber bet) (charAt 0 <$> unifiedWinningNumber)
  else if String.eqb (harufPosition (betData bet)) "last" then
    strict_eq (betNumber bet) (charAt 1 <$> unifiedWinningNumber)
  else
    match unifiedWinningNumber with
    | Some w => includes w (betNumber bet)
    | None => false
    end.

(** The [switch (bet.betType)] that sets [isWinner]. *)
Definition isWinnerOf (bet : Bet) (unifiedWinningNumber : option string) : bool :=
  match betType bet with
  | jodi => strict_eq (betNumber bet) unifiedWinningNumber
  | haruf => harufWinner bet unifiedWinningNumber
  | crossing => crossingWinner (betNumber bet) unifiedWinningNumber
  end.

End GamesWager.

(** *** [results.ts], first copy (lines 1-453): [checkBetWinning] on one
        declared string, lines 420-451 *)

Module ResultsA.
Import JS.

Definition checkBetWinning (bet : Bet) (declaredResult : string) : bool :=
  match betType bet with
  | jodi => String.eqb (betNumber bet) declaredResult
  | haruf =>
      if String.eqb (legacyHarufPosition bet) "first"
         || String.eqb (legacyHarufPosition bet) "start" then
        String.eqb (charAt 0 declaredResult) (betNumber bet)
      else if String.eqb (legacyHarufPosition bet) "last"
              || String.eqb (legacyHarufPosition bet) "end" then
        String.eqb (charAt (String.length declaredResult - 1) declaredResult)
                   (betNumber bet)
      else includes declaredResult (betNumber bet)
  | crossing =>
      match crossingCombinations bet with
      | Some combos => existsb (fun number => String.eqb number declaredResult) combos
      | None => String.eqb (betNumber bet) declaredResult
      end
  end.

(** What [processBetsForResult] returns. *)
Record Processed := {
  procTotalBets : nat;
  procWinningBets : nat;
  procLosingBets : nat;
  procTotalWinAmount : Q
}.

(** One iteration of the loop of [processBetsForResult] (lines 374-399). *)
Definition processBet (declaredResult : string) (st : Processed * Db)
    (found : nat * Bet) : Processed * Db :=
  let '(betId, bet) := found in
  let '(count, db) := st in
  let isWinning := checkBetWinning bet declaredResult in
  let db1 :=
    withBets db (alter (fun stored => markResult stored isWinning declaredResult)
                       betId (bets db)) in
  if isWinning then
    ({| procTotalBets := procTotalBets count;
        procWinningBets := S (procWinningBets count);
        procLosingBets := procLosingBets count;
        procTotalWinAmount := add (procTotalWinAmount count) (potentialWinning bet) |},
     withUsers db1 (alter (creditUser (potentialWinning bet)) (betUserId bet)
                          (users db1)))
  else
    ({| procTotalBets := procTotalBets count;
        procWinningBets := procWinningBets count;
        procLosingBets := S (procLosingBets count);
        procTotalWinAmount := procTotalWinAmount count |},
     db1).

(** [processBetsForResult] (lines 366-415): [Bet.find({ gameId })]. *)
Definition processBetsForResult (db : Db) (gameId : nat) (declaredResult : string)
    : Processed * Db :=
  let found := findBets (fun bet => betGameId bet =? gameId) db in
  fold_left (processBet declaredResult) found
    ({| procTotalBets := length found; procWinningBets := 0;
        procLosingBets := 0; procTotalWinAmount := 0 |}, db).

Record Request := {
  reqGameId : nat;
  reqDeclaredResult : string
}.

(** The answers of the handler: the processed bets, or
    - 400 "Declared result is required and must be a string",
    - 404 "Game not found",
    - 400 "Result already declared for this game",
    - 400 "Can only declare result for closed games". *)
Inductive Response :=
| Declared (processed : Processed)
| ResultRequired
| GameNotFound
| ResultAlreadyDeclared
| NotClosed.

Definition rejected (r : Response) : Prop :=
  match r with Declared _ => False | _ => True end.

(** What [Game.findById(gameId).select("name").lean()] returns: a plain
    object holding the selected field only, so that every other field
    reads as [undefined]. *)
Record LeanGame := {
  leanName : string;
  leanDeclaredResult : option string;
  leanCurrentStatus : option GameStatus
}.

Definition selectName (game : Game) : LeanGame :=
  {| leanName := gameName game; leanDeclaredResult := None;
     leanCurrentStatus := None |}.

(** [POST /declare/:gameId] (lines 18-103). *)
Definition declare (db : Db) (req : Request) : Response * Db :=
  if negb (truthy (reqDeclaredResult req)) then (ResultRequired, db)
  else
    match games db !! reqGameId req with
    | None => (GameNotFound, db)
    | Some stored =>
        let game := selectName stored in
        if match leanDeclaredResult game with
           | Some r => truthy r
           | None => false
           end
        then (ResultAlreadyDeclared, db)
        else if negb (bool_decide (leanCurrentStatus game = Some closed))
        then (NotClosed, db)
        else
          let declared := trim (reqDeclaredResult req) in
          let db1 :=
            withGames db (<[reqGameId req :=
                              setGameStatus stored result_declared (Some declared)]>
                            (games db)) in
          let '(processed, db2) :=
            processBetsForResult db1 (reqGameId req) declared in
          (Declared processed, db2)
    end.

End ResultsA.

(** *** [results.ts], second copy (lines 455-1125): [checkBetWinning] on
        the per-type results, lines 994-1076 *)

Module ResultsB.
Import JS.

Record DeclaredResults := {
  dr_jodi : string;
  dr_haruf : string;
  dr_crossing : string;
  dr_fallback : string
}.

(** [betNumber.match(/^([AB])(\d)$/i)]: the two captured groups. *)
Definition legacyMatch (betNumber : string) : option (ascii * ascii) :=
  match betNumber with
  | String a (String d "") =>
      if (Ascii.eqb a "A" || Ascii.eqb a "a" || Ascii.eqb a "B" || Ascii.eqb a "b")
         && is_digit d
      then Some (a, d) else None
  | _ => None
  end.

(** The pairs generated by the two nested loops over the digits. *)
Definition outcomes (digits : list string) : list string :=
  flat_map (fun i =>
    flat_map (fun j =>
      if i =? j then []
      else [String.append (nth i digits "") (nth j digits "")])
    (seq 0 (length digits)))
  (seq 0 (length digits)).

Definition harufWinning (bet : Bet) (harufRes : string) : bool :=
  if negb (truthy harufRes) || (String.length harufRes <? 1) then false
  else
    let firstDigit := charAt 0 harufRes in
    let lastDigit := charAt (String.length harufRes - 1) harufRes in
    let harufDigit0 := harufDigit (betData bet) in
    let harufPosition0 := harufPosition (betData bet) in
    let '(harufPosition1, harufDigit1) :=
      if negb (truthy harufDigit0) || negb (truthy harufPosition0) then
        match legacyMatch (betNumber bet) with
        | Some (a, d) =>
            (if Ascii.eqb a "A" || Ascii.eqb a "a" then "first" else "last",
             String d "")
        | None => (harufPosition0, harufDigit0)
        end
      else (harufPosition0, harufDigit0) in
    if truthy harufPosition1 && truthy harufDigit1 then
      if String.eqb harufPosition1 "first" || String.eqb harufPosition1 "andhar" then
        String.eqb harufDigit1 firstDigit
      else if String.eqb harufPosition1 "last" || String.eqb harufPosition1 "bahar" then
        String.eqb harufDigit1 lastDigit
      else false
    else false.

Definition checkBetWinning (bet : Bet) (declaredResults : DeclaredResults) : bool :=
  match betType bet with
  | jodi => String.eqb (betNumber bet) (dr_jodi declaredResults)
  | haruf => harufWinning bet (dr_haruf declaredResults)
  | crossing =>
      let digits := split_chars (dr_crossing declaredResults) in
      existsb (String.eqb (betNumber bet)) (outcomes digits)
  end.

Record Processed := {
  procTotalBets : nat;
  procWinningBets : nat;
  procLosingBets : nat;
  procTotalWinAmount : Q
}.

(** One iteration of the loop of [processBetsForResult] (lines 944-972). *)
Definition processBet (declaredResultObj : DeclaredResults) (st : Processed * Db)
    (found : nat * Bet) : Processed * Db :=
  let '(betId, bet) := found in
  let '(count, db) := st in
  let isWinning := checkBetWinning bet declaredResultObj in
  let db1 :=
    withBets db (alter (fun stored =>
                          markResult stored isWinning (dr_fallback declaredResultObj))
                       betId (bets db)) in
  if isWinning then
    ({| procTotalBets := procTotalBets count;
        procWinningBets := S (procWinningBets count);
        procLosingBets := procLosingBets count;
        procTotalWinAmount := add (procTotalWinAmount count) (potentialWinning bet) |},
     withUsers db1 (alter (creditUser (potentialWinning bet)) (betUserId bet)
                          (users db1)))
  else
    ({| procTotalBets := procTotalBets count;
        procWinningBets := procWinningBets count;
        procLosingBets := S (procLosingBets count);
        procTotalWinAmount := procTotalWinAmount count |},
     db1).

(** [processBetsForResult] (lines 928-988): [Bet.find({ gameId })]. *)
Definition processBetsForResult (db : Db) (gameId : nat)
    (declaredResultObj : DeclaredResults) : Processed * Db :=
  let found := findBets (fun bet => betGameId bet =? gameId) db in
  fold_left (processBet declaredResultObj) found
    ({| procTotalBets := length found; procWinningBets := 0;
        procLosingBets := 0; procTotalWinAmount := 0 |}, db).

(** The body of [POST /declare/:gameId]; an absent field is the empty
    string. *)
Record Request := {
  reqGameId : nat;
  reqDeclaredResult : string;
  reqJodiResult : string;
  reqHarufResult : string;
  reqCrossingResult : string
}.

(** The answers of the handler: the processed bets, or
    - 400 "No valid result provided ...",
    - 404 "Game not found",
    - 400 "Result already declared for this game",
    - 400 "Can only declare result for closed games",
    - 400 "No valid ... result provided". *)
Inductive Response :=
| Declared (processed : Processed)
| NoResultProvided
| GameNotFound
| ResultAlreadyDeclared
| NotClosed
| NoTypeResult.

Definition rejected (r : Response) : Prop :=
  match r with Declared _ => False | _ => True end.

Definition resultToUse (req : Request) : string :=
  or_else (reqJodiResult req)
    (or_else (reqHarufResult req)
       (or_else (reqCrossingResult req) (reqDeclaredResult req))).

(** [POST /declare/:gameId] (lines 478-617). *)
Definition declare (db : Db) (req : Request) : Response * Db :=
  if negb (truthy (resultToUse req)) then (NoResultProvided, db)
  else
    match games db !! reqGameId req with
    | None => (GameNotFound, db)
    | Some game =>
        if match declaredResult game with
           | Some r => truthy r
           | None => false
           end
        then (ResultAlreadyDeclared, db)
        else if negb (bool_decide (currentStatus game = closed))
        then (NotClosed, db)
        else
          let resultValue :=
            match gameType game with
            | jodi => or_else (reqJodiResult req) (resultToUse req)
            | haruf => or_else (reqHarufResult req) (resultToUse req)
            | crossing => or_else (reqCrossingResult req) (resultToUse req)
            end in
          if negb (truthy resultValue) then (NoTypeResult, db)
          else
            let resultStr := trim resultValue in
            let db1 :=
              withGames db (<[reqGameId req :=
                                setGameStatus game result_declared (Some resultStr)]>
                              (games db)) in
            let '(processed, db2) :=
              processBetsForResult db1 (reqGameId req)
                {| dr_jodi := reqJodiResult req;
                   dr_haruf := reqHarufResult req;
                   dr_crossing := reqCrossingResult req;
                   dr_fallback := trim (resultToUse req) |} in
            (Declared processed, db2)
    end.

End ResultsB.

(** ** Bet placement ([games.ts], [placeBet], lines 166-477) *)

Module Placement.
Import JS.

(** The body of a place-bet request.  An absent [gameId] is [None]; an
    absent [betType] or [betNumber] is the empty string and an absent
    [betAmount] is [0], which the presence test treats alike. *)
Record Request := {
  reqUserId : nat;
  reqGameId : option nat;
  reqBetType : string;
  reqBetNumber : string;
  reqBetAmount : Q;
  reqBetData : BetData
}.

(** The answers of [placeBet]: 201 with the receipt, or
    - 400 "All fields are required ...",
    - 400 "Bet amount must be greater than 0",
    - 404 "Game not found or inactive",
    - 400 "Betting is not started yet / closed / not available ...",
    - 400 "Bet amount must be between ...",
    - 400 of type [insufficient_balance] ("Insufficient wallet balance ..."),
    - 400 of type [validation_error] ("Invalid bet type"). *)
Inductive Response :=
| BetPlaced (betId transactionId : nat) (currentBalance potential : Q)
| MissingFields
| AmountNotPositive
| GameNotFoundOrInactive
| BettingNotOpen (gameStatus : GameStatus)
| AmountOutOfRange
| InsufficientBalance
| InvalidBetType.

Definition rejected (r : Response) : Prop :=
  match r with BetPlaced _ _ _ _ => False | _ => True end.

(** [a < b] on amounts. *)
Definition Qlt_bool (a b : Q) : bool := negb (Qle_bool b a).

(** The [switch (betType)] that picks the multiplier; [None] is the
    [default] branch, which throws. *)
Definition betTypeOf (betType : string) : option GameType :=
  if String.eqb betType "jodi" then Some jodi
  else if String.eqb betType "haruf" then Some haruf
  else if String.eqb betType "crossing" then Some crossing
  else None.

Definition multiplierOf (game : Game) (t : GameType) : Q :=
  match t with
  | jodi => jodiPayout game
  | haruf => harufPayout game
  | crossing => crossingPayout game
  end.

Section WithWalletDefaults.

(** The document [Wallet.create([{ userId }])] builds from the schema
    defaults of [models/Wallet.ts], which is not among the sources. *)
Variable newWallet : Wallet.

(** The callback of [session.withTransaction]: [inl] is a thrown error
    (the transaction is aborted), [inr] the committed database. *)
Definition placeBetTransaction (db : Db) (req : Request) (gameId : nat) (game : Game)
    : Response + (Response * Db) :=
  let wallet := default newWallet (wallets db !! reqUserId req) in
  if Qlt_bool (depositBalance wallet) (reqBetAmount req) then inl InsufficientBalance
  else
    match betTypeOf (reqBetType req) with
    | None => inl InvalidBetType
    | Some t =>
        let potential := mul (reqBetAmount req) (multiplierOf game t) in
        let transactionId := length (transactions db) in
        let transaction :=
          {| txUserId := reqUserId req; txType := tx_bet;
             txAmount := reqBetAmount req; txGameId := gameId |} in
        let betId := length (bets db) in
        let bet :=
          {| betUserId := reqUserId req; betGameId := gameId;
             betGameType := gameType game; betType := t;
             betNumber := reqBetNumber req; betAmount := reqBetAmount req;
             potentialWinning := potential; betData := reqBetData req;
             legacyHarufPosition := ""; crossingCombinations := None;
             status := pending; isWinner := None; winningAmount := None;
             actualPayout := None;
             deductionTransactionId := Some transactionId;
             winningTransactionId := None; isWinning := None;
             resultDeclared := false; betDeclaredResult := None |} in
        let wallet' :=
          {| depositBalance := sub (depositBalance wallet) (reqBetAmount req);
             winningBalance := winningBalance wallet;
             totalWinnings := totalWinnings wallet;
             totalBets := add (totalBets wallet) (reqBetAmount req) |} in
        inr (BetPlaced betId transactionId (depositBalance wallet') potential,
             {| games := games db; gameResults := gameResults db;
                bets := bets db ++ [bet];
                wallets := <[reqUserId req := wallet']> (wallets db);
                users := users db;
                transactions := transactions db ++ [transaction] |})
    end.

(** [placeBet] at the current time [currentTime].  A game that is not
    found and one that is inactive ([currentStatusOf] computes no status)
    get the same 404 answer. *)
Definition placeBet (currentTime : string) (db : Db) (req : Request)
    : Response * Db :=
  match reqGameId req with
  | None => (MissingFields, db)
  | Some gameId =>
      if negb (truthy (reqBetType req)) || negb (truthy (reqBetNumber req))
         || Qeq_bool (reqBetAmount req) 0
      then (MissingFields, db)
      else if Qle_bool (reqBetAmount req) 0 then (AmountNotPositive, db)
      else
        match games db !! gameId with
        | None => (GameNotFoundOrInactive, db)
        | Some game =>
            match Clock.currentStatusOf game currentTime with
            | None => (GameNotFoundOrInactive, db)
            | Some gameStatus =>
                if negb (bool_decide (gameStatus = open))
                then (BettingNotOpen gameStatus, db)
                else if Qlt_bool (reqBetAmount req) (minBet game)
                        || Qlt_bool (maxBet game) (reqBetAmount req)
                then (AmountOutOfRange, db)
                else
                  match placeBetTransaction db req gameId game with
                  | inl thrown => (thrown, db)
                  | inr committed => committed
                  end
            end
        end
  end.

End WithWalletDefaults.

(** The request passes every check [placeBet] makes before it opens the
    transaction: the fields are present, the amount is positive, the game
    exists and is active, betting is open at [currentTime], and the amount
    lies within the limits of the game. *)
Definition passesGuards (currentTime : string) (db : Db) (req : Request)
    (gameId : nat) (game : Game) : Prop :=
  reqGameId req = Some gameId
  /\ reqBetType req <> "" /\ reqBetNumber req <> ""
  /\ (0 < reqBetAmount req)%Q
  /\ games db !! gameId = Some game
  /\ isActive game = true
  /\ Clock.currentStatusOf game currentTime = Some open
  /\ (minBet game <= reqBetAmount req)%Q
  /\ (reqBetAmount req <= maxBet game)%Q.

End Placement.

(** ** Result declaration of the games route ([games.ts], [declareResult],
       lines 773-1038) *)

Module Settlement.
Import JS GamesWager.

(** [today] is [resultDate] (or the current date) at midnight, in
    milliseconds. *)
Record Request := {
  reqGameId : nat;
  reqJodiResult : option string;
  reqHarufResult : option string;
  reqCrossingResult : option string;
  reqToday : Z
}.

Record Summary := {
  sumGameResult : GameResult;
  winnersCount : nat;
  sumTotalWinningAmount : Q;
  sumNetProfit : Q;
  betsProcessed : nat
}.

(** The answers of [declareResult]: the summary, 404 "Game not found", or
    400 "Result already declared for today". *)
Inductive Response :=
| Declared (data : Summary)
| GameNotFound
| ResultAlreadyDeclared.

Definition rejected (r : Response) : Prop :=
  match r with Declared _ => False | _ => True end.

(** What the [for] loop carries from one bet to the next. *)
Record Loop := {
  loopDb : Db;
  loopTotalWinningAmount : Q;
  loopDistribution : BetDistribution
}.

Definition emptyDistribution : Distribution :=
  {| distTotalBets := 0; distTotalAmount := 0;
     distWinningBets := 0; distWinningAmount := 0 |}.

Definition updateDistribution (t : GameType) (f : Distribution -> Distribution)
    (d : BetDistribution) : BetDistribution :=
  match t with
  | jodi => {| distJodi := f (distJodi d); distHaruf := distHaruf d;
               distCrossing := distCrossing d |}
  | haruf => {| distJodi := distJodi d; distHaruf := f (distHaruf d);
                distCrossing := distCrossing d |}
  | crossing => {| distJodi := distJodi d; distHaruf := distHaruf d;
                   distCrossing := f (distCrossing d) |}
  end.

Definition countBet (amount : Q) (d : Distribution) : Distribution :=
  {| distTotalBets := S (distTotalBets d);
     distTotalAmount := add (distTotalAmount d) amount;
     distWinningBets := distWinningBets d;
     distWinningAmount := distWinningAmount d |}.

Definition countWin (amount : Q) (d : Distribution) : Distribution :=
  {| distTotalBets := distTotalBets d;
     distTotalAmount := distTotalAmount d;
     distWinningBets := S (distWinningBets d);
     distWinningAmount := add (distWinningAmount d) amount |}.

Definition unifiedWinningNumber (game : Game) (req : Request) : option string :=
  match gameType game with
  | jodi => reqJodiResult req
  | haruf => reqHarufResult req
  | crossing => reqCrossingResult req
  end.

(** One iteration of [for (const bet of bets)]. *)
Definition settleBet (game : Game) (req : Request) (st : Loop) (found : nat * Bet)
    : Loop :=
  let '(betId, bet) := found in
  let db := loopDb st in
  let dist := updateDistribution (betType bet) (countBet (betAmount bet))
                                 (loopDistribution st) in
  if isWinnerOf bet (unifiedWinningNumber game req) then
    let amount := potentialWinning bet in
    let total := add (loopTotalWinningAmount st) amount in
    let dist' := updateDistribution (betType bet) (countWin amount) dist in
    match wallets db !! betUserId bet with
    | Some wallet =>
        let transactionId := length (transactions db) in
        let transaction :=
          {| txUserId := betUserId bet; txType := tx_win; txAmount := amount;
             txGameId := reqGameId req |} in
        let db1 := withWallets db (<[betUserId bet := creditWallet wallet amount]>
                                     (wallets db)) in
        let db2 := withTransactions db1 (transactions db1 ++ [transaction]) in
        let bet' := markBet bet won true (Some amount) (Some transactionId) in
        {| loopDb := withBets db2 (<[betId := bet']> (bets db2));
           loopTotalWinningAmount := total; loopDistribution := dist' |}
    | None =>
        let bet' := markBet bet won true (Some amount) None in
        {| loopDb := withBets db (<[betId := bet']> (bets db));
           loopTotalWinningAmount := total; loopDistribution := dist' |}
    end
  else
    let bet' := markBet bet lost false None None in
    {| loopDb := withBets db (<[betId := bet']> (bets db));
       loopTotalWinningAmount := loopTotalWinningAmount st;
       loopDistribution := dist |}.

Definition day_ms : Z := 24 * 60 * 60 * 1000.

Definition sameDay (gameId : nat) (today : Z) (r : GameResult) : bool :=
  (resGameId r =? gameId) && (today <=? resultDate r)%Z
  && (resultDate r <? today + day_ms)%Z.

(** [GameResult.findOne(..)]: the first result of the game dated
    [today], with its position. *)
Definition findExistingResult (db : Db) (gameId : nat) (today : Z)
    : option (nat * GameResult) :=
  List.find (fun found => sameDay gameId today (snd found))
            (indexed (gameResults db)).

Definition isDeclared (r : GameResult) : bool :=
  match resStatus r with result_status_declared => true | result_pending => false end.

Definition pendingOf (gameId : nat) (bet : Bet) : bool :=
  (betGameId bet =? gameId) && bool_decide (status bet = pending).

(** [if (game.type === t && given) gameResult.field = given]. *)
Definition storeResult (isType : bool) (given old : option string) : option string :=
  match given with
  | Some r => if isType && truthy r then Some r else old
  | None => old
  end.

Definition emptyBetDistribution : BetDistribution :=
  {| distJodi := emptyDistribution; distHaruf := emptyDistribution;
     distCrossing := emptyDistribution |}.

(** [new GameResult({ gameId, .., resultDate: today, .. })]; the totals
    and the status are assigned before the document is saved. *)
Definition newGameResult (gameId : nat) (today : Z) : GameResult :=
  {| resGameId := gameId; resultDate := today;
     jodiResult := None; harufResult := None; crossingResult := None;
     resTotalBets := 0; totalBetAmount := 0; totalWinningAmount := 0;
     platformCommission := 0; netProfit := 0;
     betDistribution := emptyBetDistribution; resStatus := result_pending |}.

Definition declareResult (db : Db) (req : Request) : Response * Db :=
  let gameId := reqGameId req in
  match games db !! gameId with
  | None => (GameNotFound, db)
  | Some game =>
      let today := reqToday req in
      let existingResult := findExistingResult db gameId today in
      if match existingResult with
         | Some (_, r) => isDeclared r
         | None => false
         end
      then (ResultAlreadyDeclared, db)
      else
        let found := findBets (pendingOf gameId) db in
        let st := fold_left (settleBet game req) found
                    {| loopDb := db; loopTotalWinningAmount := 0;
                       loopDistribution := emptyBetDistribution |} in
        let total := fold_left (fun sum bet => add sum (betAmount bet))
                               (map snd found) 0%Q in
        let commissionTaken := mul total (div (commission game) 100) in
        let net := sub (sub total (loopTotalWinningAmount st)) commissionTaken in
        let base :=
          match existingResult with
          | Some (_, r) => r
          | None => newGameResult gameId today
          end in
        let gameResult :=
          {| resGameId := resGameId base; resultDate := resultDate base;
             jodiResult :=
               storeResult (bool_decide (gameType game = jodi))
                           (reqJodiResult req) (jodiResult base);
             harufResult :=
               storeResult (bool_decide (gameType game = haruf))
                           (reqHarufResult req) (harufResult base);
             crossingResult :=
               storeResult (bool_decide (gameType game = crossing))
                           (reqCrossingResult req) (crossingResult base);
             resTotalBets := length found;
             totalBetAmount := total;
             totalWinningAmount := loopTotalWinningAmount st;
             platformCommission := commissionTaken;
             netProfit := net;
             betDistribution := loopDistribution st;
             resStatus := result_status_declared |} in
        let db1 := loopDb st in
        let db2 :=
          withGameResults db1
            match existingResult with
            | Some (i, _) => <[i := gameResult]> (gameResults db1)
            | None => gameResults db1 ++ [gameResult]
            end in
        let db3 :=
          withGames db2 (<[gameId := setGameStatus game result_declared None]>
                           (games db2)) in
        let dist := loopDistribution st in
        (Declared
           {| sumGameResult := gameResult;
              winnersCount := distWinningBets (distJodi dist)
                              + distWinningBets (distHaruf dist)
                              + distWinningBets (distCrossing dist);
              sumTotalWinningAmount := loopTotalWinningAmount st;
              sumNetProfit := net;
              betsProcessed := length found |},
         db3)
  end.

(** What the loop stores for a bet: [tx] is the win transaction, if one
    was created. *)
Definition settled (win : option string) (tx : option nat) (bet : Bet) : Bet :=
  if isWinnerOf bet win then markBet bet won true (Some (potentialWinning bet)) tx
  else markBet bet lost false None None.

End Settlement.

(** ** The windows of the design document, on minutes *)

Module Windows.

(** In the betting window: [start <= current < end], or across midnight
    [current >= start] or [current < end]. *)
Definition inOpenWindow (c s e : nat) : Prop :=
  (s < e /\ s <= c < e) \/ (e <= s /\ (s <= c \/ c < e)).

(** In the closed window: [end <= current < result]; across midnight
    with the result not after the end on the clock, from the end to
    midnight or from midnight to the result. *)
Definition inClosedWindow (c s e r : nat) : Prop :=
  (s < e /\ e <= c < r)
  \/ (e <= s /\ e < r /\ e <= c < r)
  \/ (e <= s /\ r <= e /\ (e <= c < 1440 \/ c < r)).

(** In the result window: [current >= result], across midnight also
    [current < start]. *)
Definition inResultWindow (c s e r : nat) : Prop :=
  (s < e /\ r <= c) \/ (e <= s /\ r <= c < s).

End Windows.

(** ** The crossing rule of the design document *)

(** [b] is [digit[i] + digit[j]] for two distinct positions [i], [j] of the
    declared result [r]. *)
Definition pairOutcome (r b : string) : Prop :=
  exists (i j : nat) (di dj : ascii),
    i <> j /\ String.get i r = Some di /\ String.get j r = Some dj
    /\ b = String di (String dj "").

(** The character [x] occurs in [w]. *)
Definition occursIn (x : ascii) (w : string) : Prop :=
  exists i : nat, String.get i w = Some x.

(** ** Sample documents *)

Module Sample.

Definition noData : BetData := {| harufPosition := ""; harufDigit := "" |}.

Definition bet (user gameId : nat) (t : GameType) (number : string)
    (amount potential : Q) (data : BetData) (st : BetStatus) : Bet :=
  {| betUserId := user; betGameId := gameId; betGameType := t; betType := t;
     betNumber := number; betAmount := amount; potentialWinning := potential;
     betData := data; legacyHarufPosition := ""; crossingCombinations := None;
     status := st; isWinner := None; winningAmount := None; actualPayout := None;
     deductionTransactionId := None; winningTransactionId := None;
     isWinning := None; resultDeclared := false; betDeclaredResult := None |}.

Definition crossingBet (number : string) : Bet :=
  bet 1 1 crossing number 10 950 noData pending.

Definition harufBet (number : string) (data : BetData) : Bet :=
  bet 1 1 haruf number 10 90 data pending.

Definition results (j h c : string) : ResultsB.DeclaredResults :=
  {| ResultsB.dr_jodi := j; ResultsB.dr_haruf := h; ResultsB.dr_crossing := c;
     ResultsB.dr_fallback := JS.or_else j (JS.or_else h c) |}.

Definition game (t : GameType) (startT endT resultT : string)
    (st : GameStatus) (forced : option GameStatus) : Game :=
  {| gameName := "Delhi Bazar"; gameType := t; isActive := true;
     startTime := startT; endTime := endT; resultTime := resultT;
     minBet := 10; maxBet := 10000; commission := 5;
     jodiPayout := 95; harufPayout := 9; crossingPayout := 95;
     declaredResult := None; currentStatus := st; forcedStatus := forced |}.

(** Open from 08:00 to 23:00, result at half past midnight. *)
Definition lateResultGame : Game := game jodi "08:00" "23:00" "00:30" waiting None.

(** Open from 08:00 to 15:30, result at 16:00. *)
Definition dayGame : Game := game jodi "08:00" "15:30" "16:00" waiting None.

Definition wallet (deposit winning : Q) : Wallet :=
  {| depositBalance := deposit; winningBalance := winning;
     totalWinnings := winning; totalBets := 0 |}.

(** One jodi game open from 08:00 to 15:30, one user with 100 rupees. *)
Definition shop : Db :=
  {| games := {[ 1 := dayGame ]}; gameResults := []; bets := [];
     wallets := {[ 7 := wallet 100 0 ]}; users := ∅; transactions := [] |}.

Definition placeRequest (betTypeName number : string) (amount : Q)
    : Placement.Request :=
  {| Placement.reqUserId := 7; Placement.reqGameId := Some 1;
     Placement.reqBetType := betTypeName; Placement.reqBetNumber := number;
     Placement.reqBetAmount := amount; Placement.reqBetData := noData |}.


(** A closed jodi game with three pending bets on it; the user 9 has no
    wallet. *)
Definition closedGame : Game := game jodi "08:00" "15:30" "16:00" closed None.

Definition settleDb : Db :=
  {| games := {[ 1 := closedGame ]}; gameResults := [];
     bets := [bet 7 1 jodi "62" 10 950 noData pending;
              bet 8 1 jodi "63" 20 1900 noData pending;
              bet 9 1 jodi "62" 5 475 noData pending];
     wallets := {[ 7 := wallet 90 0; 8 := wallet 80 0 ]};
     users := ∅; transactions := [] |}.

(** The closed game with a single pending bet of 3 rupees; the commission
    of the game is 5 percent. *)
Definition threeRupeeDb : Db :=
  {| games := {[ 1 := closedGame ]}; gameResults := [];
     bets := [bet 7 1 jodi "62" 3 285 noData pending];
     wallets := {[ 7 := wallet 97 0 ]}; users := ∅; transactions := [] |}.

Definition declareRequest : Settlement.Request :=
  {| Settlement.reqGameId := 1; Settlement.reqJodiResult := Some "62";
     Settlement.reqHarufResult := None; Settlement.reqCrossingResult := None;
     Settlement.reqToday := 0 |}.

(** A game the admin has forced open, with one pending bet. *)
Definition forcedOpenGame : Game :=
  game jodi "08:00" "15:30" "16:00" open (Some open).

Definition openDb : Db :=
  {| games := {[ 1 := forcedOpenGame ]}; gameResults := [];
     bets := [bet 7 1 jodi "62" 10 950 noData pending];
     wallets := {[ 7 := wallet 90 0 ]}; users := ∅; transactions := [] |}.

(** A closed game whose only bet was settled as won in an earlier run and
    paid to the user 7. *)
Definition settledDb : Db :=
  {| games := {[ 1 := closedGame ]}; gameResults := [];
     bets := [bet 7 1 jodi "62" 10 950 noData won];
     wallets := ∅;
     users := {[ 7 := {| userWinningBalance := 950; userTotalWinnings := 950 |} ]};
     transactions := [] |}.

Definition resultsRequest : ResultsB.Request :=
  {| ResultsB.reqGameId := 1; ResultsB.reqDeclaredResult := "";
     ResultsB.reqJodiResult := "62"; ResultsB.reqHarufResult := "";
     ResultsB.reqCrossingResult := "" |}.

End Sample.

(** ** The time format of the schema ([models/Game.ts], lines 77-91) *)

Module Schema.
Import JS.

Definition between (lo hi : nat) (c : ascii) : bool :=
  (lo <=? nat_of_ascii c) && (nat_of_ascii c <=? hi).

(** [[0-5][0-9]] up to the end of the string. *)
Definition minutesPart (s : string) : bool :=
  match s with
  | String a (String b "") => between 48 53 a && between 48 57 b
  | _ => false
  end.

(** The [match] validator of [startTime], [endTime] and [resultTime]:
    [/^([0-1]?[0-9]|2[0-3]):[0-5][0-9]$/]. *)
Definition timeFormat (s : string) : bool :=
  match s with
  | String a (String b rest) =>
      if Ascii.eqb b ":" then between 48 57 a && minutesPart rest
      else
        match rest with
        | String c rest' =>
            Ascii.eqb c ":"
            && ((between 48 49 a && between 48 57 b)
                || (Ascii.eqb a "2" && between 48 51 b))
            && minutesPart rest'
        | "" => false
        end
  | _ => false
  end.

End Schema.

(** ** Administration of games ([games.ts]) *)

Module Admin.
Import JS.

(** [["waiting", "open", "closed", "result_declared"].includes(forceStatus)]
    and the status the string names. *)
Definition statusOfString (forceStatus : string) : option GameStatus :=
  if String.eqb forceStatus "waiting" then Some waiting
  else if String.eqb forceStatus "open" then Some open
  else if String.eqb forceStatus "closed" then Some closed
  else if String.eqb forceStatus "result_declared" then Some result_declared
  else None.

Definition setForcedStatus (game : Game) (st : GameStatus) : Game :=
  {| gameName := gameName game; gameType := gameType game;
     isActive := isActive game; startTime := startTime game;
     endTime := endTime game; resultTime := resultTime game;
     minBet := minBet game; maxBet := maxBet game; commission := commission game;
     jodiPayout := jodiPayout game; harufPayout := harufPayout game;
     crossingPayout := crossingPayout game;
     declaredResult := declaredResult game;
     currentStatus := currentStatus game; forcedStatus := Some st |}.

(** The answers of [forceGameStatus]: the updated game, 400 "Invalid
    status" or 404 "Game not found". *)
Inductive ForceResponse :=
| StatusForced (updatedGame : Game)
| InvalidStatus
| ForceGameNotFound.

(** [forceGameStatus] (lines 692-731). *)
Definition forceGameStatus (db : Db) (gameId : nat) (forceStatus : string)
    : ForceResponse * Db :=
  match statusOfString forceStatus with
  | None => (InvalidStatus, db)
  | Some st =>
      match games db !! gameId with
      | None => (ForceGameNotFound, db)
      | Some game =>
          let updatedGame := setForcedStatus game st in
          (StatusForced updatedGame,
           withGames db (<[gameId := updatedGame]> (games db)))
      end
  end.

(** The answers of [deleteGame]: success, 400 "Cannot delete game with
    ... pending bets" or 404 "Game not found". *)
Inductive DeleteResponse :=
| GameDeleted
| HasPendingBets (pendingBets : nat)
| DeleteGameNotFound.

(** [Bet.countDocuments({ gameId, status: "pending" })]. *)
Definition countPending (db : Db) (gameId : nat) : nat :=
  length (findBets (Settlement.pendingOf gameId) db).

(** [deleteGame] (lines 734-766). *)
Definition deleteGame (db : Db) (gameId : nat) : DeleteResponse * Db :=
  let pendingBets := countPending db gameId in
  if 0 <? pendingBets then (HasPendingBets pendingBets, db)
  else
    match games db !! gameId with
    | None => (DeleteGameNotFound, db)
    | Some _ => (GameDeleted, withGames db (delete gameId (games db)))
    end.

(** The [stats] of [getAdminGames] (lines 613-619), over the games found. *)
Record Stats := {
  statTotal : nat;
  statActive : nat;
  statJodi : nat;
  statHaruf : nat;
  statCrossing : nat
}.

Definition getAdminGames_stats (found : list Game) : Stats :=
  {| statTotal := length found;
     statActive := length (List.filter isActive found);
     statJodi := length (List.filter (fun g => bool_decide (gameType g = jodi)) found);
     statHaruf := length (List.filter (fun g => bool_decide (gameType g = haruf)) found);
     statCrossing :=
       length (List.filter (fun g => bool_decide (gameType g = crossing)) found) |}.

End Admin.

(** ** Updating a game ([games.ts], [updateGame], lines 635-689) *)

Module Update.
Import Placement.

(** The body of an update request, for bodies that hold at most the two
    limits and the activity flag, the limits as numbers. *)
Record Body := {
  bodyMinBet : option Q;
  bodyMaxBet : option Q;
  bodyIsActive : option bool
}.

(** The answers of [updateGame]: the updated game, 400 "Minimum bet cannot
    exceed 5000", 400 "Minimum bet cannot be greater than maximum bet",
    400 of a validation error, or 404 "Game not found". *)
Inductive Response :=
| GameUpdated (game : Game)
| MinBetTooHigh
| MinAboveMax
| ValidationFailed
| UpdateGameNotFound.

(** Truthiness of a number: not zero. *)
Definition nonZero (x : Q) : bool := negb (Qeq_bool x 0).

(** [findByIdAndUpdate(gameId, req.body, ..)]: the fields of the body
    replace those of the game. *)
Definition applyBody (body : Body) (game : Game) : Game :=
  {| gameName := gameName game; gameType := gameType game;
     isActive := default (isActive game) (bodyIsActive body);
     startTime := startTime game; endTime := endTime game;
     resultTime := resultTime game;
     minBet := default (minBet game) (bodyMinBet body);
     maxBet := default (maxBet game) (bodyMaxBet body);
     commission := commission game;
     jodiPayout := jodiPayout game; harufPayout := harufPayout game;
     crossingPayout := crossingPayout game;
     declaredResult := declaredResult game;
     currentStatus := currentStatus game; forcedStatus := forcedStatus game |}.

(** [runValidators: true] on the fields of the body: [min: 1] of [minBet]
    and [maxBet] in the schema. *)
Definition validBody (body : Body) : bool :=
  match bodyMinBet body with Some m => negb (Qlt_bool m 1) | None => true end
  && match bodyMaxBet body with Some m => negb (Qlt_bool m 1) | None => true end.

Definition updateGame (db : Db) (gameId : nat) (body : Body) : Response * Db :=
  if match bodyMinBet body with
     | Some m => nonZero m && Qlt_bool 5000 m
     | None => false
     end
  then (MinBetTooHigh, db)
  else if match bodyMinBet body, bodyMaxBet body with
          | Some m, Some M => nonZero m && nonZero M && Qlt_bool M m
          | _, _ => false
          end
  then (MinAboveMax, db)
  else if negb (validBody body) then (ValidationFailed, db)
  else
    match games db !! gameId with
    | None => (UpdateGameNotFound, db)
    | Some game =>
        let game' := applyBody body game in
        (GameUpdated game', withGames db (<[gameId := game']> (games db)))
    end.

End Update.

(** ** Paging of lists ([games.ts], [getUserBets] and [getGameResults],
       lines 498-519 and 544-563; [results.ts], [/history], lines 177-204) *)

Module Paging.

(** [parseInt(req.query.page) || 1]: the default replaces [NaN] ([None])
    and [0]. *)
Definition orDefault (parsed : option nat) (d : nat) : nat :=
  match parsed with
  | None | Some 0 => d
  | Some n => n
  end.

(** [cursor.limit(limit).skip((page - 1) * limit)] on the documents the
    query yields, for [page >= 1] and [limit >= 1]. *)
Definition pageOf {A : Type} (found : list A) (page limit : nat) : list A :=
  take limit (drop ((page - 1) * limit) found).

(** [Math.ceil(total / limit)]. *)
Definition totalPages (total limit : nat) : nat := (total + limit - 1) / limit.

Record Pagination := {
  currentPage : nat;
  pgTotalPages : nat;
  pgTotal : nat;
  hasNext : bool;
  hasPrev : bool
}.

(** The [pagination] object of [getUserBets] and [getGameResults]. *)
Definition pagination (page limit total : nat) : Pagination :=
  {| currentPage := page; pgTotalPages := totalPages total limit;
     pgTotal := total;
     hasNext := page * limit <? total;
     hasPrev := 1 <? page |}.

(** The [pagination] object of [/history] in the first copy of
    [results.ts]. *)
Definition historyPagination (page limit total : nat) : Pagination :=
  {| currentPage := page; pgTotalPages := totalPages total limit;
     pgTotal := total;
     hasNext := page <? totalPages total limit;
     hasPrev := 1 <? page |}.

End Paging.

(** ** The books of a settlement run

    What [declareResult] of [games.ts] is expected to have written for the
    bets it has found, read off the bets themselves. *)

Module Ledger.
Import GamesWager.

(** [Wallet.findOne({ userId })] finds a wallet. *)
Definition hasWallet (db : Db) (user : nat) : bool :=
  match wallets db !! user with Some _ => true | None => false end.

Definition winners (win : option string) (l : list Bet) : list Bet :=
  List.filter (fun bet => isWinnerOf bet win) l.

(** The winning bets of one user. *)
Definition winsOf (win : option string) (user : nat) (l : list Bet) : list Bet :=
  List.filter (fun bet => isWinnerOf bet win && (betUserId bet =? user)) l.

(** The winning bets whose user has a wallet, and those whose user has
    none. *)
Definition paidWinners (win : option string) (db : Db) (l : list Bet) : list Bet :=
  List.filter (fun bet => isWinnerOf bet win && hasWallet db (betUserId bet)) l.

Definition unpaidWinners (win : option string) (db : Db) (l : list Bet) : list Bet :=
  List.filter (fun bet => isWinnerOf bet win && negb (hasWallet db (betUserId bet))) l.

(** The document of [Transaction.create({ userId, type: "win", amount:
    bet.winningAmount, gameId, .. })]. *)
Definition winTransaction (gameId : nat) (bet : Bet) : Transaction :=
  {| txUserId := betUserId bet; txType := tx_win;
     txAmount := potentialWinning bet; txGameId := gameId |}.

(** [betDistribution[t]]. *)
Definition distOf (t : GameType) (d : BetDistribution) : Distribution :=
  match t with
  | jodi => distJodi d
  | haruf => distHaruf d
  | crossing => distCrossing d
  end.

Definition ofType (t : GameType) (l : list Bet) : list Bet :=
  List.filter (fun bet => bool_decide (betType bet = t)) l.

End Ledger.

(** ** The books of the results route

    What [processBetsForResult] of [results.ts] (second copy) is expected
    to have counted, read off the bets of the game. *)

Module ResultsBooks.

Definition winners (r : ResultsB.DeclaredResults) (l : list Bet) : list Bet :=
  List.filter (fun bet => ResultsB.checkBetWinning bet r) l.

Definition losers (r : ResultsB.DeclaredResults) (l : list Bet) : list Bet :=
  List.filter (fun bet => negb (ResultsB.checkBetWinning bet r)) l.

(** The field of the declared results a bet of type [t] is compared
    with. *)
Definition fieldOf (t : GameType) (r : ResultsB.DeclaredResults) : string :=
  match t with
  | jodi => ResultsB.dr_jodi r
  | haruf => ResultsB.dr_haruf r
  | crossing => ResultsB.dr_crossing r
  end.

End ResultsBooks.

(** ** The auto-result schedule of [/pending] ([results.ts], lines 110-168) *)

Module Schedule.
Import JS.

Definition minute_ms : Z := 60 * 1000.
Definition hour_ms : Z := 1000 * 60 * 60.

(** [autoScheduleTime]: [today] with the clock set to the end time of the
    game by [setHours(hours, minutes, 0, 0)], plus 24 hours.  Times are
    milliseconds; [localMidnight] is the start of the local day of
    [today], a day on which the local clock is not changed; [None] is the
    invalid date a [NaN] component gives. *)
Definition autoScheduleTime (localMidnight : Z) (endTime : string) : option Z :=
  match map Number (split ":" endTime) with
  | Some hours :: Some minutes :: _ =>
      Some (localMidnight + Z.of_nat hours * hour_ms + Z.of_nat minutes * minute_ms
            + 24 * 60 * 60 * 1000)%Z
  | _ => None
  end.

(** [Math.ceil(a / b)] for whole [a] and positive [b]. *)
Definition ceilDiv (a b : Z) : Z := (- ((- a) / b))%Z.

Record Entry := {
  entryGame : Game;
  autoResultScheduled : option Z;
  hoursUntilAutoResult : option Z;
  isOverdue : bool
}.

(** The callback of [pendingGames.map]; a comparison with an invalid date
    is false and [Math.max(0, NaN)] is [NaN]. *)
Definition withSchedule (now localMidnight : Z) (game : Game) : Entry :=
  let auto := autoScheduleTime localMidnight (endTime game) in
  {| entryGame := game;
     autoResultScheduled := auto;
     hoursUntilAutoResult :=
       (fun a => Z.max 0 (ceilDiv (a - now) hour_ms)) <$> auto;
     isOverdue := match auto with Some a => (a <? now)%Z | None => false end |}.

Definition gamesWithSchedule (now localMidnight : Z) (pendingGames : list Game)
    : list Entry :=
  map (withSchedule now localMidnight) pendingGames.

(** [gamesWithSchedule.filter((g) => g.isOverdue).length]. *)
Definition overdueCount (entries : list Entry) : nat :=
  length (List.filter isOverdue entries).

End Schedule.

(** ** The admin middleware ([adminAuth.ts]) *)

Module Auth.
Import JS.

Record Account := {
  accIsActive : bool;
  accRole : string
}.

(** What a middleware does with a request: it calls [next()] with the
    user attached, or answers 401 or 403. *)
Inductive Outcome :=
| Next (userId : nat) (user : Account)
| NoToken
| InvalidToken
| UserNotFound
| Deactivated
| Forbidden.

Definition statusCode (o : Outcome) : option nat :=
  match o with
  | Next _ _ => None
  | Forbidden => Some 403
  | _ => Some 401
  end.

(** [s.replace(pattern, "")] for a non-empty string pattern: the first
    occurrence is removed. *)
Fixpoint removeFirst (pattern s : string) : string :=
  if String.prefix pattern s
  then String.substring (String.length pattern)
                        (String.length s - String.length pattern) s
  else match s with
       | "" => ""
       | String c s' => String c (removeFirst pattern s')
       end.

Section WithJwt.

(** [jwt.verify(token, JWT_SECRET)] of the jsonwebtoken library, read as
    the [userId] of the decoded payload; [None] when it throws. *)
Variable verify : string -> option nat.

(** The steps the two middlewares share; [allowed] is the test on the
    role. *)
Definition authenticate (allowed : string -> bool) (accounts : gmap nat Account)
    (authorization : option string) : Outcome :=
  match removeFirst "Bearer " <$> authorization with
  | None => NoToken
  | Some token =>
      if negb (truthy token) then NoToken
      else
        match verify token with
        | None => InvalidToken
        | Some userId =>
            match accounts !! userId with
            | None => UserNotFound
            | Some user =>
                if negb (accIsActive user) then Deactivated
                else if negb (allowed (accRole user)) then Forbidden
                else Next userId user
            end
        end
  end.

(** [adminAuth] (lines 10-50): the role is admin or superadmin. *)
Definition adminAuth : gmap nat Account -> option string -> Outcome :=
  authenticate (fun role => negb (negb (String.eqb role "admin")
                                  && negb (String.eqb role "superadmin"))).

(** [superAdminAuth] (lines 52-92): the role is superadmin. *)
Definition superAdminAuth : gmap nat Account -> option string -> Outcome :=
  authenticate (fun role => negb (negb (String.eqb role "superadmin"))).

End WithJwt.

End Auth.

(** * Properties *)

(** ** Numbers *)

Section NumberProperties.
Import PrimFloat.
Import JS.

(** The operations on numbers give what the binary64 arithmetic of the
    kernel gives, on amounts, rates and sums of the kind the routes
    compute. *)
Lemma numbers_agree_with_binary64 :
  forallb (fun '(number, double) => Qeq_bool number (valueOf double))
    ([
      (mul 3 (div 5 100),
       (3 * (5 / 100))%float);
      (div (mul 3 5) 100,
       (3 * 5 / 100)%float);
      (sub (303 # 10) (101 # 10),
       (303 / 10 - 101 / 10)%float);
      (add (sub (303 # 10) (101 # 10)) (101 # 10),
       (303 / 10 - 101 / 10 + 101 / 10)%float);
      (add (add 10 (101 # 10)) (102 # 10),
       (10 + 101 / 10 + 102 / 10)%float);
      (add (add (add 0 (1919 # 2)) (909 # 10)) (99 # 10),
       (0 + 1919 / 2 + 909 / 10 + 99 / 10)%float);
      (sub (sub 11 0) (mul 11 (div 5 100)),
       (11 - 0 - 11 * (5 / 100))%float);
      (add (sub (sub 11 0) (mul 11 (div 5 100))) (sub (sub 13 0) (mul 13 (div 5 100))),
       (11 - 0 - 11 * (5 / 100) + (13 - 0 - 13 * (5 / 100)))%float);
      (mul (1 # 3) (7 # 1000),
       (1 / 3 * (7 / 1000))%float);
      (div (1 # 7) (3 # 10000000),
       (1 / 7 / (3 / 10000000))%float);
      (mul 123456789012 987654321098,
       (123456789012 * 987654321098)%float);
      (add 9007199254740992 1,
       (9007199254740992 + 1)%float);
      (sub 0 (1 # 3),
       (0 - 1 / 3)%float);
      (mul 20 95,
       (20 * 95)%float);
      (add 950 950,
       (950 + 950)%float) ] : list (Q * PrimFloat.float))
  = true.
Proof. vm_compute. reflexivity. Qed.

End NumberProperties.

(** ** The clock *)

Section ClockFacts.
Import JS Clock.

Lemma nat_of_digit_char d : d < 10 -> nat_of_ascii (digit_char d) = 48 + d.
Proof.
  intros Hd. unfold digit_char. apply nat_ascii_embedding. lia.
Qed.

Lemma digit_of_digit_char d : d < 10 -> digit_of (digit_char d) = Some d.
Proof.
  intros Hd. unfold digit_of. rewrite nat_of_digit_char by assumption.
  replace (48 <=? 48 + d) with true by (symmetry; apply Nat.leb_le; lia).
  replace (48 + d <=? 57) with true by (symmetry; apply Nat.leb_le; lia).
  simpl. f_equal. lia.
Qed.

Lemma digit_char_not_colon d : d < 10 -> Ascii.eqb (digit_char d) ":" = false.
Proof.
  intros Hd. apply Ascii.eqb_neq. intros Heq.
  apply (f_equal nat_of_ascii) in Heq.
  rewrite nat_of_digit_char in Heq by assumption.
  change (nat_of_ascii ":") with 58 in Heq. lia.
Qed.

Lemma digit_char_eqb d d' :
  d < 10 -> d' < 10 -> Ascii.eqb (digit_char d) (digit_char d') = (d =? d').
Proof.
  intros Hd Hd'. destruct (Nat.eqb_spec d d') as [->|Hne].
  - apply Ascii.eqb_refl.
  - apply Ascii.eqb_neq. intros Heq. apply (f_equal nat_of_ascii) in Heq.
    rewrite !nat_of_digit_char in Heq by assumption. lia.
Qed.

Lemma digit_char_ltb d d' :
  d < 10 -> d' < 10 ->
  (nat_of_ascii (digit_char d) <? nat_of_ascii (digit_char d')) = (d <? d').
Proof.
  intros Hd Hd'. rewrite !nat_of_digit_char by assumption.
  destruct (Nat.ltb_spec d d'); [apply Nat.ltb_lt | apply Nat.ltb_ge]; lia.
Qed.

(** A well-formed clock string reads back as its minutes. *)
Lemma timeToMinutes_hhmm h m :
  h < 100 -> m < 100 -> timeToMinutes (hhmm h m) = Some (h * 60 + m).
Proof.
  intros Hh Hm.
  assert (Hh1 : h / 10 < 10) by (apply Nat.Div0.div_lt_upper_bound; lia).
  assert (Hh2 : h mod 10 < 10) by (apply Nat.mod_upper_bound; lia).
  assert (Hm1 : m / 10 < 10) by (apply Nat.Div0.div_lt_upper_bound; lia).
  assert (Hm2 : m mod 10 < 10) by (apply Nat.mod_upper_bound; lia).
  unfold timeToMinutes, hhmm, pad2. cbn [split].
  rewrite !digit_char_not_colon by assumption.
  change (Ascii.eqb ":" ":") with true. cbn [split map Number digits_value].
  rewrite !digit_of_digit_char by assumption.
  cbn [digits_value]. f_equal.
  pose proof (Nat.div_mod_eq h 10). pose proof (Nat.div_mod_eq m 10). lia.
Qed.

(** On well-formed clock strings the string order is the order of the
    minutes. *)
Lemma str_lt_hhmm h m h' m' :
  h < 100 -> m < 60 -> h' < 100 -> m' < 60 ->
  str_lt (hhmm h m) (hhmm h' m') = (h * 60 + m <? h' * 60 + m').
Proof.
  intros Hh Hm Hh' Hm'.
  assert (h / 10 < 10) by (apply Nat.Div0.div_lt_upper_bound; lia).
  assert (h mod 10 < 10) by (apply Nat.mod_upper_bound; lia).
  assert (m / 10 < 10) by (apply Nat.Div0.div_lt_upper_bound; lia).
  assert (m mod 10 < 10) by (apply Nat.mod_upper_bound; lia).
  assert (h' / 10 < 10) by (apply Nat.Div0.div_lt_upper_bound; lia).
  assert (h' mod 10 < 10) by (apply Nat.mod_upper_bound; lia).
  assert (m' / 10 < 10) by (apply Nat.Div0.div_lt_upper_bound; lia).
  assert (m' mod 10 < 10) by (apply Nat.mod_upper_bound; lia).
  unfold hhmm, pad2. cbn [str_lt].
  rewrite !digit_char_eqb, !digit_char_ltb by assumption.
  change (nat_of_ascii ":" <? nat_of_ascii ":") with false.
  change (Ascii.eqb ":" ":") with true.
  pose proof (Nat.div_mod_eq h 10). pose proof (Nat.div_mod_eq m 10).
  pose proof (Nat.div_mod_eq h' 10). pose proof (Nat.div_mod_eq m' 10).
  destruct (Nat.ltb_spec (h * 60 + m) (h' * 60 + m'));
    repeat match goal with
           | |- context [?a <? ?b] => destruct (Nat.ltb_spec a b)
           | |- context [?a =? ?b] => destruct (Nat.eqb_spec a b)
           end; cbn; try reflexivity; lia.
Qed.

End ClockFacts.

Section ClockProperties.
Import JS Clock Windows.

Local Ltac by_comparisons :=
  repeat match goal with
         | |- context [?a <? ?b] =>
             destruct (Nat.ltb_spec a b); try (exfalso; lia)
         | |- context [?a <=? ?b] =>
             destruct (Nat.leb_spec a b); try (exfalso; lia)
         end.

Local Ltac settle_iff :=
  split; intros;
  first [ discriminate | reflexivity | lia | exfalso; lia ].

(** The window evaluator on four parsed minute values, as Boolean
    comparisons resolved into the windows. *)
Lemma windowStatus_cases c s e r :
  let st := windowStatus (Some c) (Some s) (Some e) (Some r) in
  (st = open <-> inOpenWindow c s e)
  /\ (st = closed <-> inClosedWindow c s e r /\ ~ inOpenWindow c s e)
  /\ (st = result_declared <->
      inResultWindow c s e r /\ ~ inOpenWindow c s e /\ ~ inClosedWindow c s e r)
  /\ (st = waiting <->
      ~ inOpenWindow c s e /\ ~ inClosedWindow c s e r /\ ~ inResultWindow c s e r).
Proof.
  unfold windowStatus, num_gt, num_ge, num_lt,
    inOpenWindow, inClosedWindow, inResultWindow.
  by_comparisons; cbn; repeat split; intros;
    first [ discriminate | reflexivity | lia | exfalso; lia ].
Qed.

(** C5, as amended: for an active game with no forced status the status
    of [getAllGames] and [placeBet] is the window evaluator applied to
    the four minute values; it is open exactly in the open window,
    closed exactly in the closed window outside the open one,
    result_declared exactly in the result window outside the other two,
    and waiting otherwise.  For a same-day game this is: closed iff
    [end <= current < result], and result_declared iff
    [current >= result] and not [start <= current < end]. *)
Theorem window_status_by_minutes :
  forall (game : Game) (currentTime : string) (c s e r : nat),
    isActive game = true ->
    forcedStatus game = None ->
    timeToMinutes currentTime = Some c ->
    timeToMinutes (startTime game) = Some s ->
    timeToMinutes (endTime game) = Some e ->
    timeToMinutes (resultTime game) = Some r ->
    let st := currentStatusOf game currentTime in
    st = Some (windowStatus (Some c) (Some s) (Some e) (Some r))
    /\ (st = Some open <-> inOpenWindow c s e)
    /\ (st = Some closed <-> inClosedWindow c s e r /\ ~ inOpenWindow c s e)
    /\ (st = Some result_declared <->
        inResultWindow c s e r /\ ~ inOpenWindow c s e /\ ~ inClosedWindow c s e r)
    /\ (st = Some waiting <->
        ~ inOpenWindow c s e /\ ~ inClosedWindow c s e r /\ ~ inResultWindow c s e r)
    /\ (s < e ->
        (st = Some open <-> s <= c < e)
        /\ (st = Some closed <-> e <= c < r)
        /\ (st = Some result_declared <-> r <= c /\ ~ (s <= c < e)))
    /\ (e <= s -> (st = Some open <-> s <= c \/ c < e)).
Proof.
  intros game currentTime c s e r Hact Hforced Hc Hs He Hr st.
  assert (Hst : st = Some (windowStatus (Some c) (Some s) (Some e) (Some r))).
  { subst st. unfold currentStatusOf. rewrite Hforced, Hact, Hc, Hs, He, Hr.
    reflexivity. }
  destruct (windowStatus_cases c s e r) as (Ho & Hcl & Hres & Hw).
  assert (Hsome : forall x, st = Some x
                            <-> windowStatus (Some c) (Some s) (Some e) (Some r) = x)
    by (intros x; rewrite Hst; split; [intros [= ->]; reflexivity | congruence]).
  rewrite <- Hsome in Ho, Hcl, Hres, Hw.
  split; [exact Hst|]. split; [exact Ho|]. split; [exact Hcl|].
  split; [exact Hres|]. split; [exact Hw|].
  split.
  - intros Hlt. rewrite Ho, Hcl, Hres.
    unfold inOpenWindow, inClosedWindow, inResultWindow. lia.
  - intros Hle. rewrite Ho. unfold inOpenWindow. lia.
Qed.

Lemma window_status_by_minutes_witness :
  currentStatusOf Sample.dayGame "09:15" = Some open <-> 480 <= 555 < 930.
Proof.
  pose proof (window_status_by_minutes Sample.dayGame "09:15" 555 480 930 960
                eq_refl eq_refl eq_refl eq_refl eq_refl eq_refl) as H.
  cbv zeta in H.
  destruct H as (_ & _ & _ & _ & _ & Hday & _).
  destruct Hday as (Hopen & _); [lia | exact Hopen].
Defined.

(** C5 fails as stated: with the result time on the clock before the
    end of a same-day window, the current time can be past the result
    time while the game is open, not result_declared. *)
Lemma result_time_inside_open_window :
  let game := Sample.lateResultGame in
  isActive game = true /\ forcedStatus game = None
  /\ timeToMinutes "09:00" = Some 540
  /\ timeToMinutes (startTime game) = Some 480
  /\ timeToMinutes (endTime game) = Some 1380
  /\ timeToMinutes (resultTime game) = Some 30
  /\ 480 < 1380
  /\ currentStatusOf game "09:00" = Some open
  /\ ~ (currentStatusOf game "09:00" = Some result_declared <-> 30 <= 540).
Proof.
  cbv zeta. repeat split; try reflexivity; try lia.
  intros [_ H]. assert (Hle : 30 <= 540) by lia.
  specialize (H Hle). vm_compute in H. discriminate H.
Qed.

(** C10: for zero-padded [HH:mm] fields with [startTime < endTime] as
    strings, the string comparisons of [getGameById] give, at every time
    of day, the status of the minute evaluator of [getAllGames] and
    [placeBet]. *)
Theorem getGameById_status_agrees :
  forall (game : Game) (hs ms he me hr mr hc mc : nat),
    hs < 24 -> ms < 60 -> he < 24 -> me < 60 -> hr < 24 -> mr < 60 ->
    hc < 24 -> mc < 60 ->
    isActive game = true ->
    forcedStatus game = None ->
    startTime game = hhmm hs ms ->
    endTime game = hhmm he me ->
    resultTime game = hhmm hr mr ->
    str_lt (startTime game) (endTime game) = true ->
    getGameById_status game (hhmm hc mc) = currentStatusOf game (hhmm hc mc).
Proof.
  intros game hs ms he me hr mr hc mc ? ? ? ? ? ? ? ? Hact Hforced Hs He Hr Hlt.
  unfold getGameById_status, currentStatusOf.
  rewrite Hforced, Hact. rewrite Hs, He in Hlt. rewrite Hs, He, Hr.
  unfold str_ge. rewrite str_lt_hhmm in Hlt by lia.
  rewrite !str_lt_hhmm by lia. rewrite !timeToMinutes_hhmm by lia.
  apply Nat.ltb_lt in Hlt.
  unfold windowStatus, num_gt, num_ge, num_lt.
  by_comparisons; cbn; first [ reflexivity | lia ].
Qed.

Lemma getGameById_status_agrees_witness :
  getGameById_status Sample.dayGame (hhmm 15 45)
  = currentStatusOf Sample.dayGame (hhmm 15 45).
Proof.
  apply (getGameById_status_agrees Sample.dayGame 8 0 15 30 16 0 15 45);
    first [ lia | reflexivity ].
Defined.

End ClockProperties.

(** ** The wager evaluators *)

Section WagerProperties.
Import JS.

Lemma length_split_chars s : length (split_chars s) = String.length s.
Proof. induction s as [|c s IH]; simpl; congruence. Qed.

Lemma nth_split_chars s : forall i, nth i (split_chars s) "" = charAt i s.
Proof.
  unfold charAt. induction s as [|c s IH]; intros [|i]; simpl; try reflexivity.
  apply IH.
Qed.

Lemma get_lt s : forall i c, String.get i s = Some c -> i < String.length s.
Proof.
  induction s as [|x s IH]; intros [|i] c H; simpl in *; try discriminate; try lia.
  apply IH in H. lia.
Qed.

Lemma get_some s : forall i, i < String.length s -> exists c, String.get i s = Some c.
Proof.
  induction s as [|x s IH]; intros [|i] H; simpl in *; try lia; eauto.
  apply IH. lia.
Qed.

Lemma in_split_chars x s : In (String x "") (split_chars s) <-> occursIn x s.
Proof.
  unfold occursIn. induction s as [|c s IH]; simpl.
  - split; [tauto | intros [[|i] H]; discriminate H].
  - split.
    + intros [Heq|Hin].
      * inversion Heq; subst. exists 0. reflexivity.
      * apply IH in Hin as [i Hi]. exists (S i). exact Hi.
    + intros [[|i] Hi]; simpl in Hi.
      * left. congruence.
      * right. apply IH. eauto.
Qed.

Lemma append_char c s : String.append (String c "") s = String c s.
Proof. reflexivity. Qed.

(** The list the nested loops of [checkBetWinning] build holds exactly the
    pair outcomes. *)
Lemma outcomes_spec r b :
  In b (ResultsB.outcomes (split_chars r)) <-> pairOutcome r b.
Proof.
  unfold ResultsB.outcomes, pairOutcome. rewrite length_split_chars. split.
  - intros Hin. apply in_flat_map in Hin as (i & Hi & Hin).
    apply in_flat_map in Hin as (j & Hj & Hin).
    apply in_seq in Hi, Hj. destruct (Nat.eqb_spec i j) as [|Hne]; [destruct Hin|].
    destruct Hin as [Hb|[]]. rewrite !nth_split_chars in Hb. unfold charAt in Hb.
    destruct (get_some r i) as [di Hdi]; [lia|].
    destruct (get_some r j) as [dj Hdj]; [lia|].
    rewrite Hdi, Hdj in Hb. exists i, j, di, dj. rewrite append_char in Hb. auto.
  - intros (i & j & di & dj & Hne & Hi & Hj & ->).
    apply in_flat_map. exists i. split; [apply in_seq; apply get_lt in Hi; lia|].
    apply in_flat_map. exists j. split; [apply in_seq; apply get_lt in Hj; lia|].
    destruct (Nat.eqb_spec i j) as [|_]; [contradiction|].
    left. rewrite !nth_split_chars. unfold charAt. rewrite Hi, Hj. reflexivity.
Qed.

Lemma existsb_eqb_In (b : string) (l : list string) :
  existsb (String.eqb b) l = true <-> In b l.
Proof.
  rewrite existsb_exists. split.
  - intros (x & Hin & Heq). apply String.eqb_eq in Heq. subst. exact Hin.
  - intros Hin. exists b. split; [exact Hin | apply String.eqb_refl].
Qed.

Lemma checkBetWinning_crossing bet results :
  betType bet = crossing ->
  ResultsB.checkBetWinning bet results = true
  <-> pairOutcome (ResultsB.dr_crossing results) (betNumber bet).
Proof.
  intros Ht. unfold ResultsB.checkBetWinning. rewrite Ht.
  rewrite existsb_eqb_In. apply outcomes_spec.
Qed.

Lemma truthy_true s : truthy s = true <-> s <> "".
Proof. destruct s; simpl; split; congruence. Qed.

Lemma split_chars_two b :
  length (split_chars b) = 2 <-> exists x y, b = String x (String y "").
Proof.
  split.
  - destruct b as [|x [|y [|z b]]]; simpl; try discriminate. eauto.
  - intros (x & y & ->). reflexivity.
Qed.

(** The crossing case of the games route: exact match or the subset rule. *)
Lemma crossingWinner_spec b w :
  GamesWager.crossingWinner b (Some w) = true
  <-> b = w
      \/ (2 <= String.length w
          /\ exists x y, b = String x (String y "") /\ occursIn x w /\ occursIn y w).
Proof.
  unfold GamesWager.crossingWinner, GamesWager.strict_eq.
  destruct (String.eqb_spec b w) as [->|Hne].
  - simpl. split; [auto | reflexivity].
  - cbn [negb andb]. rewrite length_split_chars.
    destruct (truthy w) eqn:Hw; cbn [andb].
    2:{ split; [discriminate|]. intros [?|[Hlen _]]; [contradiction|].
        destruct w; simpl in *; [lia | discriminate]. }
    destruct (truthy b) eqn:Hb; cbn [andb].
    2:{ split; [discriminate|]. intros [?|(_ & x & y & -> & _)]; [contradiction|].
        discriminate Hb. }
    destruct (Nat.leb_spec 2 (String.length w)) as [Hlen|Hlen]; cbn [andb].
    2:{ split; [discriminate|]. intros [?|[? _]]; [contradiction | lia]. }
    destruct (Nat.eqb_spec (length (split_chars b)) 2) as [Hb2|Hb2].
    + apply split_chars_two in Hb2 as (x & y & ->). cbn [split_chars forallb].
      rewrite andb_true_r, andb_true_iff.
      rewrite !existsb_eqb_In, !in_split_chars. split.
      * intros [Hx Hy]. right. split; [exact Hlen|]. exists x, y. auto.
      * intros [?|(_ & x' & y' & Heq & Hx & Hy)]; [contradiction|].
        inversion Heq; subst. auto.
    + split; [discriminate|]. intros [?|(_ & x & y & -> & _)]; [contradiction|].
      exfalso. apply Hb2. reflexivity.
Qed.

Lemma pairOutcome_subset r b :
  pairOutcome r b ->
  2 <= String.length r
  /\ exists x y, b = String x (String y "") /\ occursIn x r /\ occursIn y r.
Proof.
  intros (i & j & di & dj & Hne & Hi & Hj & ->). split.
  - apply get_lt in Hi, Hj. lia.
  - exists di, dj. unfold occursIn. eauto.
Qed.

(** C1, as amended: in [checkBetWinning] of the results route a crossing
    bet wins iff its number is [digit[i] + digit[j]] for two distinct
    positions of the declared crossing result; in [declareResult] of the
    games route a crossing bet wins iff its number equals the winning
    number or it has exactly two characters, both occurring in a winning
    number of at least two characters; every pair outcome wins on both
    routes.  For the result "123" the bets "12" and "21" win on both
    routes and the bet "11" loses on the results route. *)
Theorem crossing_rules :
  (forall (bet : Bet) (results : ResultsB.DeclaredResults) (w : string),
      betType bet = crossing ->
      (ResultsB.checkBetWinning bet results = true
       <-> pairOutcome (ResultsB.dr_crossing results) (betNumber bet))
      /\ (GamesWager.isWinnerOf bet (Some w) = true
          <-> betNumber bet = w
              \/ (2 <= String.length w
                  /\ exists x y, betNumber bet = String x (String y "")
                                 /\ occursIn x w /\ occursIn y w))
      /\ (pairOutcome w (betNumber bet) ->
          GamesWager.isWinnerOf bet (Some w) = true))
  /\ ResultsB.checkBetWinning (Sample.crossingBet "12") (Sample.results "" "" "123") = true
  /\ ResultsB.checkBetWinning (Sample.crossingBet "21") (Sample.results "" "" "123") = true
  /\ ResultsB.checkBetWinning (Sample.crossingBet "11") (Sample.results "" "" "123") = false
  /\ GamesWager.isWinnerOf (Sample.crossingBet "12") (Some "123") = true
  /\ GamesWager.isWinnerOf (Sample.crossingBet "21") (Some "123") = true.
Proof.
  split; [|repeat split; reflexivity].
  intros bet results w Ht.
  assert (Hg : GamesWager.isWinnerOf bet (Some w) = true
               <-> betNumber bet = w
                   \/ (2 <= String.length w
                       /\ exists x y, betNumber bet = String x (String y "")
                                      /\ occursIn x w /\ occursIn y w)).
  { unfold GamesWager.isWinnerOf. rewrite Ht. apply crossingWinner_spec. }
  split; [apply checkBetWinning_crossing; exact Ht|].
  split; [exact Hg|].
  intros Hp. apply Hg. right. apply pairOutcome_subset. exact Hp.
Qed.

Lemma crossing_rules_witness :
  ResultsB.checkBetWinning (Sample.crossingBet "31") (Sample.results "" "" "123") = true
  <-> pairOutcome "123" "31".
Proof.
  destruct crossing_rules as [H _].
  destruct (H (Sample.crossingBet "31") (Sample.results "" "" "123") "123" eq_refl)
    as [Hres _].
  exact Hres.
Defined.

(** C1 fails as stated on the games route: for the winning number "123"
    the crossing bet "11" is marked a winner, although "11" is no pair of
    two distinct positions of "123". *)
Lemma crossing_repeated_digit_wins_on_games_route :
  betType (Sample.crossingBet "11") = crossing
  /\ GamesWager.isWinnerOf (Sample.crossingBet "11") (Some "123") = true
  /\ ~ pairOutcome "123" (betNumber (Sample.crossingBet "11")).
Proof.
  split; [reflexivity|]. split; [reflexivity|].
  intros Hp.
  apply (checkBetWinning_crossing (Sample.crossingBet "11")
           (Sample.results "" "" "123") eq_refl) in Hp.
  vm_compute in Hp. discriminate Hp.
Qed.


Lemma harufWinning_tagged bet r :
  r <> "" -> harufDigit (betData bet) <> "" -> harufPosition (betData bet) <> "" ->
  ResultsB.harufWinning bet r =
    if String.eqb (harufPosition (betData bet)) "first"
       || String.eqb (harufPosition (betData bet)) "andhar"
    then String.eqb (harufDigit (betData bet)) (charAt 0 r)
    else if String.eqb (harufPosition (betData bet)) "last"
            || String.eqb (harufPosition (betData bet)) "bahar"
    then String.eqb (harufDigit (betData bet)) (charAt (String.length r - 1) r)
    else false.
Proof.
  intros Hr Hd Hp. unfold ResultsB.harufWinning.
  destruct r as [|c r']; [congruence|].
  destruct (harufDigit (betData bet)) as [|d ds]; [congruence|].
  destruct (harufPosition (betData bet)) as [|p ps]; [congruence|].
  reflexivity.
Qed.

Lemma harufWinning_untagged bet r :
  harufPosition (betData bet) = "" -> ResultsB.legacyMatch (betNumber bet) = None ->
  ResultsB.harufWinning bet r = false.
Proof.
  intros Hp Hleg. unfold ResultsB.harufWinning. rewrite Hp, Hleg.
  destruct (negb (truthy r) || (String.length r <? 1)); [reflexivity|].
  cbn [truthy negb]. rewrite orb_true_r. reflexivity.
Qed.

Local Ltac eqb_cases :=
  cbn [orb fmap option_fmap option_map];
  repeat (match goal with
          | |- context [String.eqb ?a ?b] =>
              destruct (String.eqb_spec a b); try discriminate
          end;
          cbn [orb fmap option_fmap option_map]);
  try reflexivity;
  try (split; intros; first [ congruence | discriminate ]).

(** C2, as amended.  Results route, second copy: a haruf bet whose
    [betData] holds a digit and a position tag first/andhar (last/bahar)
    wins iff the digit is the first (last) character of the haruf
    result; with no position tag and a bet number that is not of the
    legacy form it loses, whatever the result contains.  Games route: the
    tag "first" compares the bet number with the first character of the
    winning number, the tag "last", for a winning number of two
    characters, with its last character, and every other or absent tag
    asks whether the winning number includes the bet number.  Results
    route, first copy: the top-level tag first/start
    (last/end) compares the bet number with the first (last) character,
    every other or absent tag asks whether the result includes it. *)
Theorem haruf_rules :
  forall (bet : Bet) (results : ResultsB.DeclaredResults) (w : string),
    betType bet = haruf ->
    let tag := harufPosition (betData bet) in
    let digit := harufDigit (betData bet) in
    let r := ResultsB.dr_haruf results in
    let old := legacyHarufPosition bet in
    (digit <> "" ->
       (tag = "first" \/ tag = "andhar" ->
          (ResultsB.checkBetWinning bet results = true <-> digit = charAt 0 r))
       /\ (tag = "last" \/ tag = "bahar" ->
           (ResultsB.checkBetWinning bet results = true
            <-> digit = charAt (String.length r - 1) r)))
    /\ (tag = "" -> ResultsB.legacyMatch (betNumber bet) = None ->
        ResultsB.checkBetWinning bet results = false)
    /\ (tag = "first" ->
        (GamesWager.isWinnerOf bet (Some w) = true <-> betNumber bet = charAt 0 w))
    /\ (tag = "last" -> String.length w = 2 ->
        (GamesWager.isWinnerOf bet (Some w) = true
         <-> betNumber bet = charAt (String.length w - 1) w))
    /\ (tag <> "first" -> tag <> "last" ->
        GamesWager.isWinnerOf bet (Some w) = includes w (betNumber bet))
    /\ (old = "first" \/ old = "start" ->
        (ResultsA.checkBetWinning bet w = true <-> charAt 0 w = betNumber bet))
    /\ (old = "last" \/ old = "end" ->
        (ResultsA.checkBetWinning bet w = true
         <-> charAt (String.length w - 1) w = betNumber bet))
    /\ (old <> "first" -> old <> "start" -> old <> "last" -> old <> "end" ->
        ResultsA.checkBetWinning bet w = includes w (betNumber bet)).
Proof.
  intros bet results w Ht tag digit r old.
  unfold ResultsB.checkBetWinning, GamesWager.isWinnerOf, ResultsA.checkBetWinning.
  rewrite Ht. unfold GamesWager.harufWinner, GamesWager.strict_eq.
  subst tag digit r old.
  split; [|split; [|split; [|split; [|split; [|split; [|split]]]]]].
  - intros Hd. destruct (String.eqb_spec (ResultsB.dr_haruf results) "") as [Hr|Hr].
    + rewrite Hr. cbn [ResultsB.harufWinning truthy negb orb charAt String.get].
      split; intros _; split; congruence.
    + split; intros [Htag|Htag];
        (rewrite harufWinning_tagged;
         [|assumption|assumption|rewrite Htag; discriminate]);
        rewrite Htag; eqb_cases.
  - apply harufWinning_untagged.
  - intros Htag. rewrite Htag. eqb_cases.
  - intros Htag Hlen. rewrite Htag, Hlen. cbn [Nat.sub]. eqb_cases.
  - intros Hn1 Hn2. eqb_cases; contradiction.
  - intros [Ho|Ho]; rewrite Ho; eqb_cases.
  - intros [Ho|Ho]; rewrite Ho; eqb_cases.
  - intros Hn1 Hn2 Hn3 Hn4. eqb_cases; contradiction.
Qed.

Lemma haruf_rules_witness :
  let bet := Sample.harufBet "A1" {| harufPosition := "andhar"; harufDigit := "1" |} in
  ResultsB.checkBetWinning bet (Sample.results "" "14" "") = true
  <-> harufDigit (betData bet) = charAt 0 "14".
Proof.
  intros bet.
  pose proof (haruf_rules bet (Sample.results "" "14" "") "14" eq_refl) as H.
  cbv zeta in H. destruct H as [Htagged _].
  destruct Htagged as [Hfirst _]; [discriminate|].
  apply Hfirst. right. reflexivity.
Defined.

(** C2 fails as stated on the results route: a haruf bet on the digit "1"
    with no position tag loses against the result "14", although the
    result contains the digit. *)
Lemma untagged_haruf_bet_has_no_contains_fallback :
  let bet := Sample.harufBet "1" Sample.noData in
  betType bet = haruf
  /\ harufPosition (betData bet) = ""
  /\ includes "14" (betNumber bet) = true
  /\ ResultsB.checkBetWinning bet (Sample.results "" "14" "") = false.
Proof. cbv zeta. repeat split; reflexivity. Qed.

End WagerProperties.

(** ** Bet placement *)

Section PlacementProperties.
Import JS Placement.

Lemma Qlt_bool_iff a b : Qlt_bool a b = true <-> (a < b)%Q.
Proof.
  unfold Qlt_bool. rewrite negb_true_iff. split.
  - intros H. apply Qnot_le_lt. intros Hle. apply Qle_bool_iff in Hle. congruence.
  - intros H. destruct (Qle_bool b a) eqn:E; [|reflexivity].
    apply Qle_bool_iff in E. exfalso. exact (Qlt_not_le _ _ H E).
Qed.

Lemma Qlt_bool_false a b : Qlt_bool a b = false <-> (b <= a)%Q.
Proof.
  unfold Qlt_bool. rewrite negb_false_iff. apply Qle_bool_iff.
Qed.

(** What the transaction commits is a placed bet. *)
Lemma placeBetTransaction_commits newWallet db req gameId game out :
  placeBetTransaction newWallet db req gameId game = inr out ->
  ~ rejected (fst out).
Proof.
  unfold placeBetTransaction.
  destruct (Qlt_bool _ _); [discriminate|].
  destruct (betTypeOf _); [|discriminate].
  intros H. inversion H. simpl. tauto.
Qed.

(** Whatever is rejected leaves the database as it was. *)
Lemma placeBet_rejected_unchanged newWallet now db req :
  rejected (fst (placeBet newWallet now db req)) ->
  snd (placeBet newWallet now db req) = db.
Proof.
  unfold placeBet.
  destruct (reqGameId req) as [gameId|]; [|reflexivity].
  destruct (negb (truthy (reqBetType req)) || negb (truthy (reqBetNumber req))
            || Qeq_bool (reqBetAmount req) 0); [reflexivity|].
  destruct (Qle_bool (reqBetAmount req) 0); [reflexivity|].
  destruct (games db !! gameId) as [game|]; [|reflexivity].
  destruct (Clock.currentStatusOf game now) as [gameStatus|]; [|reflexivity].
  destruct (negb (bool_decide (gameStatus = open))); [reflexivity|].
  destruct (Qlt_bool (reqBetAmount req) (minBet game)
            || Qlt_bool (maxBet game) (reqBetAmount req)); [reflexivity|].
  destruct (placeBetTransaction newWallet db req gameId game) as [thrown|out] eqn:E;
    [reflexivity|].
  intros Hrej. exfalso. exact (placeBetTransaction_commits _ _ _ _ _ _ E Hrej).
Qed.

(** A request that passes the guards reaches the transaction. *)
Lemma placeBet_guards_passed newWallet now db req gameId game :
  passesGuards now db req gameId game ->
  placeBet newWallet now db req =
    match placeBetTransaction newWallet db req gameId game with
    | inl thrown => (thrown, db)
    | inr committed => committed
    end.
Proof.
  intros (Hid & Ht & Hn & Hpos & Hg & Hact & Hopen & Hmin & Hmax).
  unfold placeBet. rewrite Hid, Hg, Hopen.
  apply truthy_true in Ht, Hn. rewrite Ht, Hn. cbn [negb orb].
  destruct (Qeq_bool (reqBetAmount req) 0) eqn:E0.
  { apply Qeq_bool_iff in E0. rewrite E0 in Hpos. discriminate Hpos. }
  destruct (Qle_bool (reqBetAmount req) 0) eqn:E1.
  { apply Qle_bool_iff in E1. exfalso. exact (Qlt_not_le _ _ Hpos E1). }
  rewrite bool_decide_eq_true_2 by reflexivity.
  apply Qlt_bool_false in Hmin, Hmax. rewrite Hmin, Hmax. reflexivity.
Qed.

(** C7, as amended: [placeBet] rejects every request whose amount is not
    positive or lies outside the limits of its game, and every request
    whose wallet holds less than the amount; the error is the
    insufficient-balance one when such a request has passed the checks
    made before the wallet is read.  A rejected request leaves the
    database unchanged: no bet, no transaction, the same wallets. *)
Theorem placeBet_rejections :
  forall (newWallet : Wallet) (currentTime : string) (db : Db) (req : Request),
    let out := placeBet newWallet currentTime db req in
    let amount := reqBetAmount req in
    let wallet := default newWallet (wallets db !! reqUserId req) in
    (~ (0 < amount)%Q -> rejected (fst out))
    /\ (forall gameId game,
          reqGameId req = Some gameId -> games db !! gameId = Some game ->
          (amount < minBet game)%Q \/ (maxBet game < amount)%Q ->
          rejected (fst out))
    /\ ((depositBalance wallet < amount)%Q -> rejected (fst out))
    /\ (forall gameId game,
          passesGuards currentTime db req gameId game ->
          (depositBalance wallet < amount)%Q ->
          fst out = InsufficientBalance)
    /\ (rejected (fst out) ->
        snd out = db
        /\ bets (snd out) = bets db
        /\ transactions (snd out) = transactions db
        /\ wallets (snd out) = wallets db).
Proof.
  intros newWallet now db req out amount wallet.
  assert (Hlow : (depositBalance wallet < amount)%Q ->
                 forall gameId game,
                   placeBetTransaction newWallet db req gameId game
                   = inl InsufficientBalance).
  { intros Hlt gameId game. unfold placeBetTransaction. fold wallet amount.
    apply Qlt_bool_iff in Hlt. rewrite Hlt. reflexivity. }
  split; [|split; [|split; [|split]]].
  - intros Hnot. subst out. unfold placeBet.
    destruct (reqGameId req); [|exact I].
    destruct (negb (truthy (reqBetType req)) || negb (truthy (reqBetNumber req))
              || Qeq_bool (reqBetAmount req) 0); [exact I|].
    destruct (Qle_bool (reqBetAmount req) 0) eqn:E; [exact I|].
    exfalso. apply Hnot. apply Qnot_le_lt. intros Hle.
    apply Qle_bool_iff in Hle. fold amount in E. congruence.
  - intros gameId game Hid Hg Hout. subst out. unfold placeBet. rewrite Hid, Hg.
    destruct (negb (truthy (reqBetType req)) || negb (truthy (reqBetNumber req))
              || Qeq_bool (reqBetAmount req) 0); [exact I|].
    destruct (Qle_bool (reqBetAmount req) 0); [exact I|].
    destruct (Clock.currentStatusOf game now) as [gameStatus|]; [|exact I].
    destruct (negb (bool_decide (gameStatus = open))); [exact I|].
    replace (Qlt_bool (reqBetAmount req) (minBet game)
             || Qlt_bool (maxBet game) (reqBetAmount req)) with true; [exact I|].
    symmetry. apply orb_true_iff.
    destruct Hout as [H|H]; [left|right]; apply Qlt_bool_iff; exact H.
  - intros Hlt. subst out. unfold placeBet.
    repeat match goal with
           | |- context [placeBetTransaction _ _ _ ?g ?gm] =>
               rewrite (Hlow Hlt g gm)
           | |- context [match ?x with _ => _ end] => destruct x; try exact I
           end.
  - intros gameId game Hpass Hlt. subst out.
    rewrite (placeBet_guards_passed _ _ _ _ _ _ Hpass), (Hlow Hlt). reflexivity.
  - intros Hrej. apply placeBet_rejected_unchanged in Hrej.
    subst out. rewrite Hrej. auto.
Qed.

Lemma placeBet_rejections_witness :
  fst (placeBet (Sample.wallet 0 0) "09:15" Sample.shop
         (Sample.placeRequest "jodi" "62" 500)) = InsufficientBalance
  /\ snd (placeBet (Sample.wallet 0 0) "09:15" Sample.shop
            (Sample.placeRequest "jodi" "62" 500)) = Sample.shop.
Proof.
  pose proof (placeBet_rejections (Sample.wallet 0 0) "09:15" Sample.shop
                (Sample.placeRequest "jodi" "62" 500)) as H.
  cbv zeta in H. destruct H as (_ & _ & _ & Hlow & Hsame).
  assert (Hfst : fst (placeBet (Sample.wallet 0 0) "09:15" Sample.shop
                        (Sample.placeRequest "jodi" "62" 500))
                 = InsufficientBalance).
  { apply (Hlow 1 Sample.dayGame).
    - repeat split; try reflexivity; discriminate.
    - reflexivity. }
  split; [exact Hfst|].
  apply Hsame. rewrite Hfst. exact I.
Defined.

(** C7 fails as stated: a request for more than the wallet holds, sent
    before betting opens, is rejected because betting has not started,
    not with the insufficient-balance error. *)
Lemma low_balance_request_before_opening :
  let req := Sample.placeRequest "jodi" "62" 500 in
  let out := placeBet (Sample.wallet 0 0) "07:00" Sample.shop req in
  wallets Sample.shop !! reqUserId req = Some (Sample.wallet 100 0)
  /\ (depositBalance (Sample.wallet 100 0) < reqBetAmount req)%Q
  /\ fst out = BettingNotOpen waiting
  /\ fst out <> InsufficientBalance.
Proof.
  cbv zeta. repeat split; try reflexivity.
  vm_compute. discriminate.
Qed.

(** The names the [switch] on the bet type knows. *)
Lemma betTypeOf_names name :
  (betTypeOf name = Some jodi <-> name = "jodi")
  /\ (betTypeOf name = Some haruf <-> name = "haruf")
  /\ (betTypeOf name = Some crossing <-> name = "crossing")
  /\ (betTypeOf name = None
      <-> name <> "jodi" /\ name <> "haruf" /\ name <> "crossing").
Proof.
  unfold betTypeOf.
  destruct (String.eqb_spec name "jodi") as [->|Hj].
  { repeat split; intros; try discriminate; try reflexivity; tauto. }
  destruct (String.eqb_spec name "haruf") as [->|Hh].
  { repeat split; intros; try discriminate; try reflexivity; tauto. }
  destruct (String.eqb_spec name "crossing") as [->|Hc].
  { repeat split; intros; try discriminate; try reflexivity; tauto. }
  repeat split; intros; try discriminate; try contradiction; assumption.
Qed.

(** C8, as amended: [placeBet] never compares the bet type of the request
    with the type of the game.  A request that has passed the guards and
    whose wallet covers the amount is rejected as an invalid bet type
    exactly when its bet type is none of "jodi", "haruf" and "crossing";
    with any of the three it is accepted whatever the type of the game,
    the potential winning being the amount times the payout rate of the
    bet type, and the bet record carries the bet type of the request next
    to the type of the game.  No rejected request creates a bet record. *)
Theorem placeBet_bet_type :
  forall (newWallet : Wallet) (currentTime : string) (db : Db) (req : Request)
         (gameId : nat) (game : Game),
    passesGuards currentTime db req gameId game ->
    (reqBetAmount req
     <= depositBalance (default newWallet (wallets db !! reqUserId req)))%Q ->
    let out := placeBet newWallet currentTime db req in
    let name := reqBetType req in
    (name <> "jodi" -> name <> "haruf" -> name <> "crossing" ->
     out = (InvalidBetType, db))
    /\ (forall (t : GameType) (payout : Q),
          (name = "jodi" /\ t = jodi /\ payout = jodiPayout game)
          \/ (name = "haruf" /\ t = haruf /\ payout = harufPayout game)
          \/ (name = "crossing" /\ t = crossing /\ payout = crossingPayout game) ->
          ~ rejected (fst out)
          /\ exists bet : Bet,
               bets (snd out) = (bets db ++ [bet])%list
               /\ betType bet = t
               /\ betGameType bet = gameType game
               /\ betAmount bet = reqBetAmount req
               /\ potentialWinning bet = JS.mul (reqBetAmount req) payout
               /\ status bet = pending)
    /\ (out <> (InvalidBetType, db) ->
        name = "jodi" \/ name = "haruf" \/ name = "crossing")
    /\ (rejected (fst out) -> bets (snd out) = bets db).
Proof.
  intros newWallet now db req gameId game Hpass Hbal out name.
  assert (Hout : out = match placeBetTransaction newWallet db req gameId game with
                       | inl thrown => (thrown, db)
                       | inr committed => committed
                       end)
    by (apply placeBet_guards_passed; exact Hpass).
  unfold placeBetTransaction in Hout.
  apply Qlt_bool_false in Hbal. rewrite Hbal in Hout.
  destruct (betTypeOf_names name) as (Hj & Hh & Hc & Hnone). fold name in Hout.
  split; [|split; [|split]].
  - intros N1 N2 N3.
    rewrite (proj2 Hnone (conj N1 (conj N2 N3))) in Hout. exact Hout.
  - intros t payout Hnames.
    assert (Ht : betTypeOf name = Some t /\ multiplierOf game t = payout).
    { destruct Hnames as [(Hn & -> & ->)|[(Hn & -> & ->)|(Hn & -> & ->)]].
      - split; [apply Hj; exact Hn | reflexivity].
      - split; [apply Hh; exact Hn | reflexivity].
      - split; [apply Hc; exact Hn | reflexivity]. }
    destruct Ht as [Ht <-]. rewrite Ht in Hout. rewrite Hout. cbn [fst snd bets].
    split; [intros []|]. eexists. split; [reflexivity|]. cbn. auto 10.
  - intros Hne. destruct (betTypeOf name) as [[| |]|] eqn:E.
    + left. apply Hj. reflexivity.
    + right. left. apply Hh. reflexivity.
    + right. right. apply Hc. reflexivity.
    + contradiction.
  - intros Hrej. subst out. apply placeBet_rejected_unchanged in Hrej.
    rewrite Hrej. reflexivity.
Qed.

Lemma placeBet_bet_type_witness :
  placeBet (Sample.wallet 0 0) "09:15" Sample.shop
    (Sample.placeRequest "teen patti" "62" 10)
  = (InvalidBetType, Sample.shop)
  /\ exists bet,
       bets (snd (placeBet (Sample.wallet 0 0) "09:15" Sample.shop
                    (Sample.placeRequest "haruf" "4" 10))) = [bet]
       /\ betType bet = haruf
       /\ (potentialWinning bet == 90)%Q.
Proof.
  split.
  - pose proof (placeBet_bet_type (Sample.wallet 0 0) "09:15" Sample.shop
                  (Sample.placeRequest "teen patti" "62" 10) 1 Sample.dayGame) as H.
    cbv zeta in H. destruct H as (Hinvalid & _).
    + repeat split; try reflexivity; discriminate.
    + discriminate.
    + apply Hinvalid; discriminate.
  - pose proof (placeBet_bet_type (Sample.wallet 0 0) "09:15" Sample.shop
                  (Sample.placeRequest "haruf" "4" 10) 1 Sample.dayGame) as H.
    cbv zeta in H. destruct H as (_ & Haccepted & _).
    + repeat split; try reflexivity; discriminate.
    + discriminate.
    + destruct (Haccepted haruf 9%Q) as (_ & bet & Hbets & Ht & _ & _ & Hpot & _).
      * right. left. repeat split; reflexivity.
      * exists bet. split; [exact Hbets|]. split; [exact Ht|].
        rewrite Hpot. vm_compute. reflexivity.
Defined.

(** C8 fails as stated: a haruf bet on a jodi game is accepted and its
    record is created. *)
Lemma haruf_bet_accepted_on_jodi_game :
  let req := Sample.placeRequest "haruf" "4" 10 in
  let out := placeBet (Sample.wallet 0 0) "09:15" Sample.shop req in
  games Sample.shop !! 1 = Some Sample.dayGame
  /\ gameType Sample.dayGame = jodi
  /\ reqGameId req = Some 1
  /\ reqBetType req = "haruf"
  /\ ~ rejected (fst out)
  /\ bets Sample.shop = []
  /\ map (fun bet => (betGameId bet, betGameType bet, betType bet, status bet))
         (bets (snd out))
     = [(1, jodi, haruf, pending)].
Proof.
  cbv zeta. repeat split; try reflexivity.
  vm_compute. tauto.
Qed.

End PlacementProperties.

(** ** Collections *)

Section CollectionFacts.
Context {A : Type}.

Lemma in_indexedFrom (l : list A) : forall k i x,
  In (i, x) (indexedFrom k l) <-> k <= i /\ l !! (i - k) = Some x.
Proof.
  induction l as [|y l IH]; intros k i x; simpl.
  - split; [tauto | intros [_ H]; discriminate H].
  - rewrite IH. split.
    + intros [Heq|[Hle Hl]].
      * inversion Heq; subst. split; [lia|]. rewrite Nat.sub_diag. reflexivity.
      * split; [lia|]. replace (i - k) with (S (i - S k)) by lia. exact Hl.
    + intros [Hle Hl]. destruct (decide (i = k)) as [->|Hne].
      * left. rewrite Nat.sub_diag in Hl. simpl in Hl. congruence.
      * right. split; [lia|]. replace (i - k) with (S (i - S k)) in Hl by lia.
        exact Hl.
Qed.

Lemma in_indexed (l : list A) i x : In (i, x) (indexed l) <-> l !! i = Some x.
Proof.
  unfold indexed. rewrite in_indexedFrom, Nat.sub_0_r. split; [tauto|].
  intros H. split; [lia | exact H].
Qed.

Lemma fst_indexedFrom (l : list A) : forall k,
  map fst (indexedFrom k l) = seq k (length l).
Proof.
  induction l as [|y l IH]; intros k; simpl; [reflexivity|]. rewrite IH. reflexivity.
Qed.

Lemma NoDup_fst_filter (f : nat * A -> bool) (l : list (nat * A)) :
  List.NoDup (map fst l) -> List.NoDup (map fst (List.filter f l)).
Proof.
  induction l as [|[i x] l IH]; simpl; intros Hnd; [constructor|].
  apply NoDup_cons_iff in Hnd as [Hnotin Hnd]. destruct (f (i, x)); simpl; [|auto].
  apply NoDup_cons_iff. split; [|auto].
  intros Hin. apply Hnotin. apply in_map_iff in Hin as ([j y] & Hj & Hin).
  apply filter_In in Hin as [Hin _]. apply in_map_iff. exists (j, y). auto.
Qed.

End CollectionFacts.

Lemma findBets_spec query db i bet :
  In (i, bet) (findBets query db) <-> bets db !! i = Some bet /\ query bet = true.
Proof.
  unfold findBets. rewrite filter_In, in_indexed. reflexivity.
Qed.

Lemma findBets_NoDup query db : List.NoDup (map fst (findBets query db)).
Proof.
  unfold findBets. apply NoDup_fst_filter. unfold indexed.
  rewrite fst_indexedFrom. apply seq_NoDup.
Qed.

(** ** Result declaration of the games route *)

Section SettlementProperties.
Import JS GamesWager Settlement.

(** One iteration of the loop. *)
Lemma settleBet_step game req st i bet :
  let st' := settleBet game req st (i, bet) in
  let win := unifiedWinningNumber game req in
  let db := loopDb st in
  let db' := loopDb st' in
  games db' = games db /\ gameResults db' = gameResults db /\ users db' = users db
  /\ (forall u, wallets db' !! u = None <-> wallets db !! u = None)
  /\ (exists tx,
        bets db' = <[i := settled win tx bet]> (bets db)
        /\ (wallets db !! betUserId bet = None -> tx = None))
  /\ (exists added,
        transactions db' = (transactions db ++ added)%list
        /\ Forall (fun t => txType t = tx_win /\ wallets db !! txUserId t <> None) added)
  /\ loopTotalWinningAmount st'
     = sumFrom (loopTotalWinningAmount st)
               (map potentialWinning (Ledger.winners win [bet])).
Proof.
  cbv zeta. unfold settleBet, settled, Ledger.winners. cbn [List.filter].
  destruct (isWinnerOf bet (unifiedWinningNumber game req)).
  - destruct (wallets (loopDb st) !! betUserId bet) as [wallet|] eqn:Hw; cbn.
    + split; [reflexivity|]. split; [reflexivity|]. split; [reflexivity|].
      split; [|split; [|split]].
      * intros u. destruct (decide (betUserId bet = u)) as [<-|Hne].
        -- rewrite lookup_insert_eq, Hw. split; discriminate.
        -- rewrite lookup_insert_ne by assumption. reflexivity.
      * eexists. split; [reflexivity|]. intros; discriminate.
      * eexists. split; [reflexivity|]. constructor; [|constructor].
        cbn. split; [reflexivity|]. congruence.
      * reflexivity.
    + split; [reflexivity|]. split; [reflexivity|]. split; [reflexivity|].
      split; [reflexivity|]. split; [|split].
      * exists None. split; [reflexivity|]. auto.
      * exists []. split; [symmetry; apply app_nil_r | constructor].
      * reflexivity.
  - cbn. split; [reflexivity|]. split; [reflexivity|]. split; [reflexivity|].
    split; [reflexivity|]. split; [|split].
    + exists None. split; [reflexivity|]. auto.
    + exists []. split; [symmetry; apply app_nil_r | constructor].
    + reflexivity.
Qed.

Lemma sumFrom_app init (l1 l2 : list Q) :
  sumFrom init (l1 ++ l2) = sumFrom (sumFrom init l1) l2.
Proof. apply fold_left_app. Qed.

Lemma winners_cons win bet (l : list Bet) :
  Ledger.winners win (bet :: l)
  = (Ledger.winners win [bet] ++ Ledger.winners win l)%list.
Proof.
  unfold Ledger.winners. cbn [List.filter]. destruct (isWinnerOf bet win); reflexivity.
Qed.

(** The whole loop over bets with distinct [_id]s. *)
Lemma settle_fold game req l : forall st,
  List.NoDup (map fst l) ->
  let st' := fold_left (settleBet game req) l st in
  let win := unifiedWinningNumber game req in
  let db := loopDb st in
  let db' := loopDb st' in
  games db' = games db /\ gameResults db' = gameResults db /\ users db' = users db
  /\ (forall u, wallets db' !! u = None <-> wallets db !! u = None)
  /\ length (bets db') = length (bets db)
  /\ (forall i, ~ In i (map fst l) -> bets db' !! i = bets db !! i)
  /\ (forall i bet, In (i, bet) l -> i < length (bets db) ->
        exists tx, bets db' !! i = Some (settled win tx bet)
                   /\ (wallets db !! betUserId bet = None -> tx = None))
  /\ (exists added,
        transactions db' = (transactions db ++ added)%list
        /\ Forall (fun t => txType t = tx_win /\ wallets db !! txUserId t <> None) added)
  /\ loopTotalWinningAmount st'
     = sumFrom (loopTotalWinningAmount st)
               (map potentialWinning (Ledger.winners win (map snd l))).
Proof.
  induction l as [|[i bet] l IH]; intros st Hnd; cbv zeta.
  - cbn. split; [reflexivity|]. split; [reflexivity|]. split; [reflexivity|].
    split; [reflexivity|]. split; [reflexivity|]. split; [reflexivity|].
    split; [tauto|]. split.
    + exists []. split; [symmetry; apply app_nil_r | constructor].
    + reflexivity.
  - cbn [fold_left map fst snd]. cbn [map fst] in Hnd.
    apply NoDup_cons_iff in Hnd as [Hnotin Hnd].
    destruct (settleBet_step game req st i bet)
      as (Hg & Hr & Hu & Hw & (tx & Hb & Htx) & (added & Ht & Hadded) & Htot).
    destruct (IH (settleBet game req st (i, bet)) Hnd)
      as (Hg' & Hr' & Hu' & Hw' & Hlen' & Hout' & Hin' & (added' & Ht' & Hadded') & Htot').
    set (st1 := settleBet game req st (i, bet)) in *.
    set (st' := fold_left (settleBet game req) l st1) in *.
    split; [congruence|]. split; [congruence|]. split; [congruence|].
    split; [intros u; rewrite Hw', Hw; reflexivity|].
    split; [rewrite Hlen', Hb; apply length_insert|].
    split; [|split; [|split]].
    + intros j Hj. rewrite Hout' by (intros Hin; apply Hj; right; exact Hin).
      rewrite Hb. apply list_lookup_insert_ne. intros ->. apply Hj. left. reflexivity.
    + intros j b [Heq|Hin] Hlt.
      * inversion Heq; subst j b. exists tx. split; [|exact Htx].
        rewrite Hout' by exact Hnotin. rewrite Hb.
        apply list_lookup_insert_eq. exact Hlt.
      * destruct (Hin' j b Hin) as (tx' & Hj & Htx').
        { rewrite Hb, length_insert. exact Hlt. }
        exists tx'. split; [exact Hj|]. intros Hnone. apply Htx'. apply Hw. exact Hnone.
    + exists (added ++ added')%list. split.
      * rewrite Ht', Ht. symmetry. apply app_assoc.
      * apply Forall_app. split; [exact Hadded|].
        eapply Forall_impl; [exact Hadded'|]. cbn. intros t [H1 H2]. split; [exact H1|].
        intros Hnone. apply H2. apply Hw. exact Hnone.
    + rewrite Htot', Htot, (winners_cons _ bet (map snd l)), map_app, sumFrom_app.
      reflexivity.
Qed.

Lemma fold_left_betAmount (l : list Bet) : forall acc : Q,
  fold_left (fun sum bet => add sum (betAmount bet)) l acc
  = sumFrom acc (map betAmount l).
Proof.
  induction l as [|b l IH]; intros acc; [reflexivity|]. cbn [fold_left map].
  rewrite IH. reflexivity.
Qed.

Lemma find_indexedFrom_insert {A} (q : A -> bool) (x : A) (l : list A) :
  forall k i r,
    List.find (fun found => q (snd found)) (indexedFrom k l) = Some (i, r) ->
    q x = true ->
    List.find (fun found => q (snd found)) (indexedFrom k (<[i - k := x]> l))
    = Some (i, x)
    /\ k <= i /\ i - k < length l.
Proof.
  induction l as [|y l IH]; intros k i r Hfind Hx; cbn in *; [discriminate|].
  destruct (q y) eqn:Hy.
  - inversion Hfind; subst. rewrite Nat.sub_diag. cbn. rewrite Hx.
    split; [reflexivity | lia].
  - destruct (IH (S k) i r Hfind Hx) as (Hf & Hle & Hlt).
    replace (i - k) with (S (i - S k)) by lia. cbn. rewrite Hy.
    split; [exact Hf | lia].
Qed.

Lemma find_indexedFrom_app {A} (q : A -> bool) (x : A) (l : list A) :
  forall k,
    List.find (fun found => q (snd found)) (indexedFrom k l) = None ->
    q x = true ->
    List.find (fun found => q (snd found)) (indexedFrom k (l ++ [x]))
    = Some (k + length l, x).
Proof.
  induction l as [|y l IH]; intros k Hfind Hx; cbn in *.
  - rewrite Hx. f_equal. f_equal. lia.
  - destruct (q y); [discriminate|]. rewrite IH by assumption. f_equal. f_equal. lia.
Qed.

(** What a successful declaration has done. *)
Lemma declareResult_declared db req data db' :
  declareResult db req = (Declared data, db') ->
  exists game,
    games db !! reqGameId req = Some game
    /\ let found := findBets (pendingOf (reqGameId req)) db in
       let st := fold_left (settleBet game req) found
                   {| loopDb := db; loopTotalWinningAmount := 0;
                      loopDistribution := emptyBetDistribution |} in
       let gr := sumGameResult data in
       totalBetAmount gr = sumFrom 0 (map betAmount (map snd found))
       /\ totalWinningAmount gr = loopTotalWinningAmount st
       /\ platformCommission gr
          = mul (totalBetAmount gr) (div (commission game) 100)
       /\ netProfit gr
          = sub (sub (totalBetAmount gr) (totalWinningAmount gr))
                (platformCommission gr)
       /\ resStatus gr = result_status_declared
       /\ bets db' = bets (loopDb st)
       /\ wallets db' = wallets (loopDb st)
       /\ transactions db' = transactions (loopDb st)
       /\ users db' = users (loopDb st)
       /\ games db' = <[reqGameId req := setGameStatus game result_declared None]>
                        (games (loopDb st))
       /\ In gr (gameResults db')
       /\ findExistingResult db' (reqGameId req) (reqToday req) = Some
            (match findExistingResult db (reqGameId req) (reqToday req) with
             | Some (i, _) => i
             | None => length (gameResults db)
             end, gr).
Proof.
  unfold declareResult. intros H.
  destruct (games db !! reqGameId req) as [game|]; [|discriminate].
  exists game. split; [reflexivity|].
  set (found := findBets (pendingOf (reqGameId req)) db) in *.
  set (st := fold_left (settleBet game req) found _) in *.
  destruct (settle_fold game req found
              {| loopDb := db; loopTotalWinningAmount := 0;
                 loopDistribution := emptyBetDistribution |}
              (findBets_NoDup _ _)) as (_ & Hres & _).
  fold st in Hres. cbn [loopDb] in Hres.
  destruct (findExistingResult db (reqGameId req) (reqToday req))
    as [[i r]|] eqn:Hex.
  - destruct (isDeclared r) eqn:Hdecl; [discriminate|].
    inversion H; subst data db'; clear H. cbv zeta. cbn.
    split; [apply fold_left_betAmount|].
    repeat (split; [reflexivity|]).
    unfold findExistingResult in *. cbn [gameResults withGames withGameResults].
    rewrite Hres. unfold indexed in *.
    pose proof (find_some _ _ Hex) as [_ Hsame]. cbn [snd] in Hsame.
    match goal with
    | |- In ?gr _ /\ _ =>
        destruct (find_indexedFrom_insert (sameDay (reqGameId req) (reqToday req))
                    gr (gameResults db) 0 i r Hex) as (Hf & _ & Hlt)
    end.
    { unfold sameDay in *. exact Hsame. }
    rewrite Nat.sub_0_r in *. split; [|exact Hf].
    apply list_elem_of_In. apply list_elem_of_lookup. exists i.
    apply list_lookup_insert_eq. exact Hlt.
  - inversion H; subst data db'; clear H. cbv zeta. cbn.
    split; [apply fold_left_betAmount|].
    repeat (split; [reflexivity|]).
    unfold findExistingResult in *. cbn [gameResults withGames withGameResults].
    rewrite Hres. unfold indexed in *. split.
    + apply in_or_app. right. left. reflexivity.
    + rewrite (find_indexedFrom_app (sameDay (reqGameId req) (reqToday req))).
      * reflexivity.
      * exact Hex.
      * unfold sameDay, newGameResult, day_ms. cbn.
        rewrite Nat.eqb_refl, Z.leb_refl. cbn.
        apply Z.ltb_lt. lia.
Qed.

(** What the loop has stored for the bets it was given. *)
Lemma declareResult_bets db req data db' game :
  declareResult db req = (Declared data, db') ->
  games db !! reqGameId req = Some game ->
  let win := unifiedWinningNumber game req in
  length (bets db') = length (bets db)
  /\ (forall i bet, bets db !! i = Some bet -> pendingOf (reqGameId req) bet = false ->
        bets db' !! i = Some bet)
  /\ (forall i bet, bets db !! i = Some bet -> pendingOf (reqGameId req) bet = true ->
        exists tx, bets db' !! i = Some (settled win tx bet)
                   /\ (wallets db !! betUserId bet = None -> tx = None))
  /\ (forall u, wallets db' !! u = None <-> wallets db !! u = None)
  /\ (exists added,
        transactions db' = (transactions db ++ added)%list
        /\ Forall (fun t => txType t = tx_win /\ wallets db !! txUserId t <> None) added)
  /\ totalWinningAmount (sumGameResult data)
     = sumFrom 0 (map potentialWinning
                    (Ledger.winners win
                       (map snd (findBets (pendingOf (reqGameId req)) db)))).
Proof.
  intros H Hgame win.
  destruct (declareResult_declared _ _ _ _ H) as (game' & Hgame' & Hd).
  assert (game' = game) by congruence. subst game'. cbv zeta in Hd.
  destruct Hd as (_ & Htw & _ & _ & _ & Hb & Hw & Ht & _).
  destruct (settle_fold game req (findBets (pendingOf (reqGameId req)) db)
              {| loopDb := db; loopTotalWinningAmount := 0;
                 loopDistribution := emptyBetDistribution |}
              (findBets_NoDup _ _))
    as (_ & _ & _ & Hw' & Hlen & Hout & Hin & Hadded & Htot).
  cbn [loopDb loopTotalWinningAmount] in *.
  rewrite <- Hb in Hlen, Hout, Hin. rewrite <- Hw in Hw'. rewrite <- Ht in Hadded.
  split; [exact Hlen|]. split; [|split; [|split; [exact Hw'|split; [exact Hadded|]]]].
  - intros i bet Hi Hq. rewrite Hout; [exact Hi|].
    intros Hin'. apply in_map_iff in Hin' as ([j b] & Hj & Hin'). cbn in Hj. subst j.
    apply findBets_spec in Hin' as [Hi' Hq']. congruence.
  - intros i bet Hi Hq. apply Hin.
    + apply findBets_spec. auto.
    + apply lookup_lt_Some in Hi. exact Hi.
  - rewrite Htw, Htot. reflexivity.
Qed.

(** C6, as amended: the [GameResult] a settlement run stores has, in the
    double arithmetic of the code where every operation rounds,
    [totalBetAmount] equal to the [betAmount]s of the bets [B] it
    processed added up from 0 in bet order, [platformCommission] equal to
    [totalBetAmount * (commission / 100)] and [netProfit] equal to
    [(totalBetAmount - totalWinningAmount) - platformCommission], where
    [totalWinningAmount] is the winning amounts the run has stored in the
    winning bets of [B], their potential winnings, added up from 0 in bet
    order. *)
Theorem settlement_totals :
  forall (db : Db) (req : Request) (data : Summary) (db' : Db),
    declareResult db req = (Declared data, db') ->
    exists game : Game,
      games db !! reqGameId req = Some game
      /\ let found := findBets (pendingOf (reqGameId req)) db in
         let win := unifiedWinningNumber game req in
         let winners := List.filter (fun b => isWinnerOf b win) (map snd found) in
         let gr := sumGameResult data in
         In gr (gameResults db')
         /\ totalBetAmount gr = JS.sumFrom 0 (map betAmount (map snd found))
         /\ platformCommission gr
            = JS.mul (totalBetAmount gr) (JS.div (commission game) 100)
         /\ netProfit gr
            = JS.sub (JS.sub (totalBetAmount gr) (totalWinningAmount gr))
                     (platformCommission gr)
         /\ totalWinningAmount gr = JS.sumFrom 0 (map potentialWinning winners)
         /\ (forall i bet, In (i, bet) found -> isWinnerOf bet win = true ->
               exists stored, bets db' !! i = Some stored
                              /\ status stored = won
                              /\ winningAmount stored = Some (potentialWinning bet)).
Proof.
  intros db req data db' H.
  destruct (declareResult_declared _ _ _ _ H) as (game & Hgame & Hd).
  exists game. split; [exact Hgame|]. cbv zeta in *.
  destruct Hd as (Htb & _ & Hpc & Hnp & _ & _ & _ & _ & _ & _ & Hin & _).
  destruct (declareResult_bets _ _ _ _ _ H Hgame) as (_ & _ & Hset & _ & _ & Htw).
  split; [exact Hin|]. split; [exact Htb|]. split; [exact Hpc|].
  split; [exact Hnp|]. split; [exact Htw|].
  intros i bet Hfound Hwin. apply findBets_spec in Hfound as [Hi Hq].
  destruct (Hset i bet Hi Hq) as (tx & Hstored & _).
  eexists. split; [exact Hstored|]. unfold settled. rewrite Hwin.
  split; reflexivity.
Qed.

Lemma settlement_totals_witness :
  exists data db',
    declareResult Sample.settleDb Sample.declareRequest = (Declared data, db')
    /\ (totalBetAmount (sumGameResult data) == 35)%Q
    /\ (totalWinningAmount (sumGameResult data) == 1425)%Q
    /\ netProfit (sumGameResult data)
       = JS.sub (JS.sub (totalBetAmount (sumGameResult data))
                        (totalWinningAmount (sumGameResult data)))
                (platformCommission (sumGameResult data)).
Proof.
  assert (H : exists data db',
             declareResult Sample.settleDb Sample.declareRequest
             = (Declared data, db'))
    by (eexists _, _; vm_compute; reflexivity).
  destruct H as (data & db' & H). exists data, db'. split; [exact H|].
  destruct (settlement_totals _ _ _ _ H)
    as (game & Hgame & _ & Htb & _ & Hnp & Htw & _).
  assert (Hg : Some game = Some Sample.closedGame)
    by (rewrite <- Hgame; reflexivity).
  injection Hg as ->.
  split; [rewrite Htb; vm_compute; reflexivity|].
  split; [rewrite Htw; vm_compute; reflexivity|].
  exact Hnp.
Defined.

(** C6 fails as stated: for a single bet of 3 rupees on a game with a
    commission of 5 percent the stored [platformCommission] is the double
    [3 * (5 / 100)], which is 0.15000000000000002 and not
    [totalBetAmount * commission / 100]. *)
Lemma commission_of_three_rupees_is_rounded :
  exists data db',
    declareResult Sample.threeRupeeDb Sample.declareRequest = (Declared data, db')
    /\ commission Sample.closedGame = 5%Q
    /\ totalBetAmount (sumGameResult data) = 3%Q
    /\ platformCommission (sumGameResult data)
       = (1351079888211149 # 9007199254740992)%Q
    /\ ~ (platformCommission (sumGameResult data)
          == totalBetAmount (sumGameResult data) * commission Sample.closedGame / 100)%Q
    /\ platformCommission (sumGameResult data)
       <> JS.div (JS.mul (totalBetAmount (sumGameResult data))
                         (commission Sample.closedGame)) 100.
Proof.
  eexists _, _. split; [vm_compute; reflexivity|].
  cbn [sumGameResult totalBetAmount platformCommission].
  split; [reflexivity|]. split; [vm_compute; reflexivity|].
  split; [vm_compute; reflexivity|]. split.
  - intros H. vm_compute in H. discriminate H.
  - intros H. vm_compute in H. discriminate H.
Qed.

(** C9: in the settlement of the games route a winning bet whose user has
    no wallet is still marked won with [winningAmount] set to its
    [potentialWinning], and that amount is counted into
    [totalWinningAmount]; no wallet is credited and no win transaction is
    created for it. *)
Theorem winner_without_wallet :
  (forall (game : Game) (req : Request) (st : Loop) (i : nat) (bet : Bet),
      isWinnerOf bet (unifiedWinningNumber game req) = true ->
      wallets (loopDb st) !! betUserId bet = None ->
      let st' := settleBet game req st (i, bet) in
      (exists stored,
         bets (loopDb st') = <[i := stored]> (bets (loopDb st))
         /\ status stored = won /\ isWinner stored = Some true
         /\ winningAmount stored = Some (potentialWinning bet)
         /\ actualPayout stored = Some (potentialWinning bet)
         /\ winningTransactionId stored = winningTransactionId bet
         /\ potentialWinning stored = potentialWinning bet
         /\ betUserId stored = betUserId bet)
      /\ loopTotalWinningAmount st'
         = JS.add (loopTotalWinningAmount st) (potentialWinning bet)
      /\ wallets (loopDb st') = wallets (loopDb st)
      /\ transactions (loopDb st') = transactions (loopDb st))
  /\ (forall (db : Db) (req : Request) (data : Summary) (db' : Db) (game : Game)
             (i : nat) (bet : Bet),
        declareResult db req = (Declared data, db') ->
        games db !! reqGameId req = Some game ->
        bets db !! i = Some bet ->
        pendingOf (reqGameId req) bet = true ->
        isWinnerOf bet (unifiedWinningNumber game req) = true ->
        wallets db !! betUserId bet = None ->
        let winners :=
          List.filter (fun b => isWinnerOf b (unifiedWinningNumber game req))
            (map snd (findBets (pendingOf (reqGameId req)) db)) in
        (exists stored,
           bets db' !! i = Some stored
           /\ status stored = won /\ isWinner stored = Some true
           /\ winningAmount stored = Some (potentialWinning bet)
           /\ winningTransactionId stored = winningTransactionId bet)
        /\ In bet winners
        /\ totalWinningAmount (sumGameResult data)
           = JS.sumFrom 0 (map potentialWinning winners)
        /\ wallets db' !! betUserId bet = None
        /\ (forall t, In t (transactions db') -> txUserId t = betUserId bet ->
              In t (transactions db))).
Proof.
  split.
  - intros game req st i bet Hwin Hnone. cbv zeta. unfold settleBet.
    rewrite Hwin, Hnone. cbn [loopDb loopTotalWinningAmount bets wallets transactions
                               withBets].
    split; [|auto]. eexists. split; [reflexivity|]. cbn. auto 10.
  - intros db req data db' game i bet H Hgame Hi Hq Hwin Hnone. cbv zeta.
    destruct (declareResult_bets _ _ _ _ _ H Hgame)
      as (_ & _ & Hset & Hw & (added & Ht & Hadded) & Htw).
    destruct (Hset i bet Hi Hq) as (tx & Hstored & Htx).
    rewrite (Htx Hnone) in Hstored. unfold settled in Hstored. rewrite Hwin in Hstored.
    split; [eexists; split; [exact Hstored|]; cbn; auto|].
    split; [|split; [exact Htw|split]].
    + apply filter_In. split; [|exact Hwin].
      apply in_map_iff. exists (i, bet). split; [reflexivity|].
      apply findBets_spec. auto.
    + apply Hw. exact Hnone.
    + intros t Hin Hu. rewrite Ht in Hin. apply in_app_or in Hin as [Hin|Hin];
        [exact Hin|].
      rewrite Forall_forall in Hadded. apply list_elem_of_In in Hin.
      destruct (Hadded t Hin) as [_ Hsome]. rewrite Hu in Hsome. contradiction.
Qed.

Lemma winner_without_wallet_witness :
  exists data db' stored,
    declareResult Sample.settleDb Sample.declareRequest = (Declared data, db')
    /\ bets db' !! 2 = Some stored
    /\ status stored = won
    /\ winningAmount stored = Some 475%Q
    /\ wallets db' !! 9 = None.
Proof.
  assert (H : exists data db',
             declareResult Sample.settleDb Sample.declareRequest
             = (Declared data, db'))
    by (eexists _, _; vm_compute; reflexivity).
  destruct H as (data & db' & H).
  destruct winner_without_wallet as [_ Hrun].
  destruct (Hrun _ _ _ _ Sample.closedGame 2
              (Sample.bet 9 1 jodi "62" 5 475 Sample.noData pending)
              H eq_refl eq_refl eq_refl eq_refl eq_refl)
    as ((stored & Hstored & Hst & _ & Hamount & _) & _ & _ & Hwallet & _).
  exists data, db', stored. auto.
Defined.

End SettlementProperties.

(** ** Repeated settlement and the declaration guards *)

Section DeclarationProperties.
Import JS.

(** The games route leaves no pending bet of the game behind, and does not
    touch a bet that was not pending. *)
Lemma declareResult_settles_pending_only db req data db' :
  Settlement.declareResult db req = (Settlement.Declared data, db') ->
  (forall i bet, bets db !! i = Some bet ->
     Settlement.pendingOf (Settlement.reqGameId req) bet = false ->
     bets db' !! i = Some bet)
  /\ (forall i bet, bets db !! i = Some bet ->
       Settlement.pendingOf (Settlement.reqGameId req) bet = true ->
       exists stored, bets db' !! i = Some stored
                      /\ (status stored = won \/ status stored = lost))
  /\ findBets (Settlement.pendingOf (Settlement.reqGameId req)) db' = [].
Proof.
  intros H.
  destruct (declareResult_declared _ _ _ _ H) as (game & Hgame & _).
  destruct (declareResult_bets _ _ _ _ _ H Hgame) as (Hlen & Hkeep & Hset & _).
  assert (Hsettled : forall i bet, bets db !! i = Some bet ->
            Settlement.pendingOf (Settlement.reqGameId req) bet = true ->
            exists stored, bets db' !! i = Some stored
                           /\ (status stored = won \/ status stored = lost)).
  { intros i bet Hi Hq. destruct (Hset i bet Hi Hq) as (tx & Hstored & _).
    eexists. split; [exact Hstored|]. unfold Settlement.settled.
    destruct (GamesWager.isWinnerOf bet _); [left|right]; reflexivity. }
  split; [exact Hkeep|]. split; [exact Hsettled|].
  unfold findBets.
  destruct (List.filter _ (indexed (bets db'))) as [|[i stored] rest] eqn:Hf;
    [reflexivity|].
  exfalso.
  assert (Hin : In (i, stored) (List.filter
                  (fun found => Settlement.pendingOf (Settlement.reqGameId req)
                                  (snd found)) (indexed (bets db'))))
    by (rewrite Hf; left; reflexivity).
  apply filter_In in Hin as [Hin Hq]. cbn [snd] in Hq. apply in_indexed in Hin.
  assert (Hlt : i < length (bets db))
    by (rewrite <- Hlen; apply lookup_lt_Some in Hin; exact Hin).
  apply lookup_lt_is_Some in Hlt as [bet Hi].
  destruct (Settlement.pendingOf (Settlement.reqGameId req) bet) eqn:Hb.
  - destruct (Hsettled i bet Hi Hb) as (stored' & Hs & Hst).
    assert (stored' = stored) by congruence. subst stored'.
    unfold Settlement.pendingOf in Hq. apply andb_true_iff in Hq as [_ Hq].
    apply bool_decide_eq_true in Hq. destruct Hst; congruence.
  - rewrite (Hkeep i bet Hi Hb) in Hin. congruence.
Qed.

Lemma processBet_games r st found :
  games (snd (ResultsB.processBet r st found)) = games (snd st).
Proof.
  destruct st as [count db], found as [i bet]. unfold ResultsB.processBet.
  destruct (ResultsB.checkBetWinning bet r); reflexivity.
Qed.

Lemma processBet_fold_games r l : forall st,
  games (snd (fold_left (ResultsB.processBet r) l st)) = games (snd st).
Proof.
  induction l as [|x l IH]; intros st; cbn [fold_left]; [reflexivity|].
  rewrite IH. apply processBet_games.
Qed.

Lemma processBetsForResult_games db gameId r :
  games (snd (ResultsB.processBetsForResult db gameId r)) = games db.
Proof.
  unfold ResultsB.processBetsForResult. rewrite processBet_fold_games. reflexivity.
Qed.

Lemma ResultsB_rejected_unchanged db req :
  ResultsB.rejected (fst (ResultsB.declare db req)) ->
  snd (ResultsB.declare db req) = db.
Proof.
  unfold ResultsB.declare.
  destruct (negb (truthy (ResultsB.resultToUse req))); [reflexivity|].
  destruct (games db !! ResultsB.reqGameId req) as [game|]; [|reflexivity].
  destruct (match declaredResult game with Some r => truthy r | None => false end);
    [reflexivity|].
  destruct (negb (bool_decide (currentStatus game = closed))); [reflexivity|].
  destruct (negb (truthy _)); [reflexivity|].
  destruct (ResultsB.processBetsForResult _ _ _) as [processed db2].
  cbn. contradiction.
Qed.

Lemma ResultsB_declared db req processed db' :
  ResultsB.declare db req = (ResultsB.Declared processed, db') ->
  exists game r,
    games db !! ResultsB.reqGameId req = Some game
    /\ games db' = <[ResultsB.reqGameId req :=
                      setGameStatus game result_declared (Some r)]> (games db).
Proof.
  unfold ResultsB.declare.
  destruct (negb (truthy (ResultsB.resultToUse req))); [discriminate|].
  destruct (games db !! ResultsB.reqGameId req) as [game|]; [|discriminate].
  destruct (match declaredResult game with Some r => truthy r | None => false end);
    [discriminate|].
  destruct (negb (bool_decide (currentStatus game = closed))); [discriminate|].
  destruct (negb (truthy _)); [discriminate|].
  destruct (ResultsB.processBetsForResult _ _ _) as [processed' db2] eqn:E.
  intros H. inversion H; subst.
  apply (f_equal (fun x => games (snd x))) in E.
  rewrite processBetsForResult_games in E. cbn [snd games withGames] in E.
  eexists _, _. split; [reflexivity|]. symmetry. exact E.
Qed.

Lemma Settlement_rejected_unchanged db req :
  Settlement.rejected (fst (Settlement.declareResult db req)) ->
  snd (Settlement.declareResult db req) = db.
Proof.
  unfold Settlement.declareResult.
  destruct (games db !! Settlement.reqGameId req) as [game|]; [|reflexivity].
  destruct (match Settlement.findExistingResult db _ _ with
            | Some (_, r) => Settlement.isDeclared r
            | None => false
            end); [reflexivity|].
  cbn. contradiction.
Qed.

(** The first copy of the results route reads its two guards from the
    name-only projection of the game, where the status is [undefined]:
    no declaration gets past them. *)
Lemma ResultsA_declare_rejects db req :
  ResultsA.rejected (fst (ResultsA.declare db req)).
Proof.
  unfold ResultsA.declare.
  destruct (negb (truthy (ResultsA.reqDeclaredResult req))); [exact I|].
  destruct (games db !! ResultsA.reqGameId req) as [game|]; exact I.
Qed.

Lemma ResultsA_rejected_unchanged db req :
  ResultsA.rejected (fst (ResultsA.declare db req)) ->
  snd (ResultsA.declare db req) = db.
Proof.
  unfold ResultsA.declare.
  destruct (negb (truthy (ResultsA.reqDeclaredResult req))); [reflexivity|].
  destruct (games db !! ResultsA.reqGameId req) as [game|]; reflexivity.
Qed.

(** C3, as amended.  The results route (second copy) rejects a
    declaration for a game that already holds a declared result, and
    otherwise one for a game whose stored [currentStatus] is not closed;
    its first copy answers "closed games only" for every game whose stored
    status is not closed.  The games route makes no check of the status:
    it rejects a declaration when the [GameResult] that [findOne] returns
    for the game and the day, the first one stored, has the status
    declared.  On every route a rejected declaration leaves the database,
    and so every bet and every wallet, unchanged; and after a successful
    declaration a second one for the same game (and day) is rejected. *)
Theorem declaration_guards :
  (forall (db : Db) (req : ResultsB.Request) (game : Game),
      games db !! ResultsB.reqGameId req = Some game ->
      ResultsB.resultToUse req <> "" ->
      ((exists r, declaredResult game = Some r /\ r <> "") ->
       ResultsB.declare db req = (ResultsB.ResultAlreadyDeclared, db))
      /\ (declaredResult game = None \/ declaredResult game = Some "" ->
          currentStatus game <> closed ->
          ResultsB.declare db req = (ResultsB.NotClosed, db)))
  /\ (forall (db : Db) (req : ResultsA.Request) (game : Game),
        games db !! ResultsA.reqGameId req = Some game ->
        ResultsA.reqDeclaredResult req <> "" ->
        currentStatus game <> closed ->
        ResultsA.declare db req = (ResultsA.NotClosed, db))
  /\ (forall (db : Db) (req : Settlement.Request) (game : Game) (i : nat)
             (r : GameResult),
        games db !! Settlement.reqGameId req = Some game ->
        Settlement.findExistingResult db (Settlement.reqGameId req)
          (Settlement.reqToday req) = Some (i, r) ->
        Settlement.isDeclared r = true ->
        Settlement.declareResult db req = (Settlement.ResultAlreadyDeclared, db))
  /\ (forall (db : Db) (req : ResultsB.Request),
        ResultsB.rejected (fst (ResultsB.declare db req)) ->
        snd (ResultsB.declare db req) = db)
  /\ (forall (db : Db) (req : Settlement.Request),
        Settlement.rejected (fst (Settlement.declareResult db req)) ->
        snd (Settlement.declareResult db req) = db)
  /\ (forall (db : Db) (req : ResultsA.Request),
        ResultsA.rejected (fst (ResultsA.declare db req)) ->
        snd (ResultsA.declare db req) = db)
  /\ (forall (db : Db) (req : Settlement.Request) (data : Settlement.Summary)
             (db' : Db) (again : Settlement.Request),
        Settlement.declareResult db req = (Settlement.Declared data, db') ->
        Settlement.reqGameId again = Settlement.reqGameId req ->
        Settlement.reqToday again = Settlement.reqToday req ->
        Settlement.declareResult db' again = (Settlement.ResultAlreadyDeclared, db'))
  /\ (forall (db : Db) (req : ResultsB.Request) (processed : ResultsB.Processed)
             (db' : Db) (again : ResultsB.Request),
        ResultsB.declare db req = (ResultsB.Declared processed, db') ->
        ResultsB.reqGameId again = ResultsB.reqGameId req ->
        ResultsB.rejected (fst (ResultsB.declare db' again))
        /\ snd (ResultsB.declare db' again) = db').
Proof.
  split; [|split; [|split; [|split; [|split; [|split; [|split]]]]]].
  - intros db req game Hgame Hres. apply truthy_true in Hres.
    unfold ResultsB.declare. rewrite Hres, Hgame. cbn [negb]. split.
    + intros (r & Hr & Hne). rewrite Hr. apply truthy_true in Hne. rewrite Hne.
      reflexivity.
    + intros Hnone Hst.
      replace (match declaredResult game with Some r => truthy r | None => false end)
        with false by (destruct Hnone as [-> | ->]; reflexivity).
      rewrite bool_decide_eq_false_2 by exact Hst. reflexivity.
  - intros db req game Hgame Hres _. apply truthy_true in Hres.
    unfold ResultsA.declare. rewrite Hres, Hgame. reflexivity.
  - intros db req game i r Hgame Hex Hdecl. unfold Settlement.declareResult.
    rewrite Hgame, Hex, Hdecl. reflexivity.
  - apply ResultsB_rejected_unchanged.
  - apply Settlement_rejected_unchanged.
  - apply ResultsA_rejected_unchanged.
  - intros db req data db' again H Hid Hday.
    destruct (declareResult_declared _ _ _ _ H)
      as (game & Hgame & _ & _ & _ & _ & Hst & _ & _ & _ & _ & Hgames & _ & Hex).
    unfold Settlement.declareResult. rewrite Hid, Hday, Hgames, lookup_insert_eq, Hex.
    unfold Settlement.isDeclared. rewrite Hst. reflexivity.
  - intros db req processed db' again H Hid.
    destruct (ResultsB_declared _ _ _ _ H) as (game & r & Hgame & Hgames).
    assert (Hrej : ResultsB.rejected (fst (ResultsB.declare db' again))).
    { unfold ResultsB.declare.
      destruct (negb (truthy (ResultsB.resultToUse again))); [exact I|].
      rewrite Hid, Hgames, lookup_insert_eq. cbn [declaredResult setGameStatus].
      destruct (truthy r); [exact I|]. cbn [currentStatus].
      rewrite bool_decide_eq_false_2 by discriminate. exact I. }
    split; [exact Hrej | apply ResultsB_rejected_unchanged; exact Hrej].
Qed.

Lemma declaration_guards_witness :
  exists data db',
    Settlement.declareResult Sample.settleDb Sample.declareRequest
    = (Settlement.Declared data, db')
    /\ Settlement.declareResult db' Sample.declareRequest
       = (Settlement.ResultAlreadyDeclared, db').
Proof.
  assert (H : exists data db',
             Settlement.declareResult Sample.settleDb Sample.declareRequest
             = (Settlement.Declared data, db'))
    by (eexists _, _; vm_compute; reflexivity).
  destruct H as (data & db' & H). exists data, db'. split; [exact H|].
  destruct declaration_guards as (_ & _ & _ & _ & _ & _ & Hagain & _).
  exact (Hagain _ _ _ _ Sample.declareRequest H eq_refl eq_refl).
Defined.

(** C3 fails as stated on the games route: the result of a game whose
    status, forced by the admin and stored alike, is open can be
    declared. *)
Lemma open_game_result_declared_on_games_route :
  games Sample.openDb !! 1 = Some Sample.forcedOpenGame
  /\ Clock.currentStatusOf Sample.forcedOpenGame "09:15" = Some open
  /\ forcedStatus Sample.forcedOpenGame = Some open
  /\ currentStatus Sample.forcedOpenGame = open
  /\ ~ Settlement.rejected
        (fst (Settlement.declareResult Sample.openDb Sample.declareRequest))
  /\ map status
       (bets (snd (Settlement.declareResult Sample.openDb Sample.declareRequest)))
     = [won].
Proof.
  repeat split; try reflexivity. vm_compute. tauto.
Qed.

(** C4 on the results route: [processBetsForResult] fetches every bet of
    the game whatever its status.  A bet already marked won and paid is
    evaluated again and its user is credited a second time; its status is
    not touched. *)
Theorem results_route_recredits_settled_bet :
  let out := ResultsB.declare Sample.settledDb Sample.resultsRequest in
  map status (bets Sample.settledDb) = [won]
  /\ users Sample.settledDb !! 7
     = Some {| userWinningBalance := 950; userTotalWinnings := 950 |}
  /\ fst out
     = ResultsB.Declared
         {| ResultsB.procTotalBets := 1; ResultsB.procWinningBets := 1;
            ResultsB.procLosingBets := 0; ResultsB.procTotalWinAmount := 950 |}
  /\ map status (bets (snd out)) = [won]
  /\ map isWinning (bets (snd out)) = [Some true]
  /\ users (snd out) !! 7
     = Some {| userWinningBalance := 1900; userTotalWinnings := 1900 |}.
Proof.
  cbv zeta. repeat split; vm_compute; reflexivity.
Qed.

End DeclarationProperties.

(** * Further properties of the routes *)

(** ** Time strings of the schema *)

Section SchemaProperties.
Import JS Clock Schema.

Lemma between_digit lo hi c :
  48 <= lo -> hi <= 57 -> between lo hi c = true ->
  exists d, c = digit_char d /\ lo - 48 <= d <= hi - 48.
Proof.
  intros Hlo Hhi H. unfold between in H. apply andb_true_iff in H as [H1 H2].
  apply Nat.leb_le in H1, H2. exists (nat_of_ascii c - 48). split; [|lia].
  unfold digit_char. replace (48 + (nat_of_ascii c - 48)) with (nat_of_ascii c) by lia.
  symmetry. apply ascii_nat_embedding.
Qed.

Lemma timeToMinutes_one_digit h m1 m2 :
  h < 10 -> m1 < 10 -> m2 < 10 ->
  timeToMinutes (String (digit_char h) (String ":" (String (digit_char m1)
                   (String (digit_char m2) ""))))
  = Some (h * 60 + (10 * m1 + m2)).
Proof.
  intros Hh H1 H2. unfold timeToMinutes. cbn [split].
  rewrite !digit_char_not_colon by assumption.
  change (Ascii.eqb ":" ":") with true. cbn [split map Number digits_value].
  rewrite !digit_of_digit_char by assumption. cbn [digits_value].
  f_equal; lia.
Qed.

Lemma timeToMinutes_two_digits h1 h2 m1 m2 :
  h1 < 10 -> h2 < 10 -> m1 < 10 -> m2 < 10 ->
  timeToMinutes (String (digit_char h1) (String (digit_char h2) (String ":"
                   (String (digit_char m1) (String (digit_char m2) "")))))
  = Some ((10 * h1 + h2) * 60 + (10 * m1 + m2)).
Proof.
  intros Hh1 Hh2 H1 H2. unfold timeToMinutes. cbn [split].
  rewrite !digit_char_not_colon by assumption.
  change (Ascii.eqb ":" ":") with true. cbn [split map Number digits_value].
  rewrite !digit_of_digit_char by assumption. cbn [digits_value].
  f_equal; lia.
Qed.

Lemma minutesPart_digits s :
  minutesPart s = true ->
  exists m1 m2, s = String (digit_char m1) (String (digit_char m2) "")
                /\ m1 <= 5 /\ m2 <= 9.
Proof.
  unfold minutesPart. destruct s as [|a [|b [|c s]]]; try discriminate.
  intros H. apply andb_true_iff in H as [Ha Hb].
  destruct (between_digit 48 53 a ltac:(lia) ltac:(lia) Ha) as (m1 & -> & ?).
  destruct (between_digit 48 57 b ltac:(lia) ltac:(lia) Hb) as (m2 & -> & ?).
  exists m1, m2. split; [reflexivity | lia].
Qed.

(** X1: every time string the schema of a game admits is read by
    [timeToMinutes] as a number of minutes of the day, below 1440. *)
Theorem schema_time_reads_as_minutes :
  forall s : string,
    timeFormat s = true ->
    exists n : nat, timeToMinutes s = Some n /\ n < 1440.
Proof.
  intros s H. unfold timeFormat in H.
  destruct s as [|a [|b rest]]; try discriminate.
  destruct (Ascii.eqb_spec b ":") as [->|Hb].
  - apply andb_true_iff in H as [Ha Hm].
    destruct (between_digit 48 57 a ltac:(lia) ltac:(lia) Ha) as (h & -> & ?).
    apply minutesPart_digits in Hm as (m1 & m2 & -> & ? & ?).
    eexists. split; [apply timeToMinutes_one_digit; lia | lia].
  - destruct rest as [|c rest']; [discriminate|].
    apply andb_true_iff in H as [H Hm]. apply andb_true_iff in H as [Hc Hh].
    apply Ascii.eqb_eq in Hc. subst c.
    apply minutesPart_digits in Hm as (m1 & m2 & -> & ? & ?).
    apply orb_true_iff in Hh as [Hh|Hh]; apply andb_true_iff in Hh as [Ha Hb'].
    + destruct (between_digit 48 49 a ltac:(lia) ltac:(lia) Ha) as (h1 & -> & ?).
      destruct (between_digit 48 57 b ltac:(lia) ltac:(lia) Hb') as (h2 & -> & ?).
      eexists. split; [apply timeToMinutes_two_digits; lia | lia].
    + apply Ascii.eqb_eq in Ha. subst a.
      destruct (between_digit 48 51 b ltac:(lia) ltac:(lia) Hb') as (h2 & -> & ?).
      change "2"%char with (digit_char 2).
      eexists. split; [apply timeToMinutes_two_digits; lia | lia].
Qed.

Lemma schema_time_reads_as_minutes_witness :
  exists n : nat, timeToMinutes "8:05" = Some n /\ n < 1440.
Proof. apply schema_time_reads_as_minutes. reflexivity. Defined.

(** The current time as the handlers read it, two digits, a colon and two
    digits, has the format of the schema. *)
Lemma clock_string_has_schema_format :
  forall h m : nat, h < 24 -> m < 60 -> timeFormat (hhmm h m) = true.
Proof.
  intros h m Hh Hm.
  assert (Hall : forallb (fun h => forallb (fun m => timeFormat (hhmm h m)) (seq 0 60))
                         (seq 0 24) = true) by (vm_compute; reflexivity).
  rewrite forallb_forall in Hall.
  assert (Hin : In h (seq 0 24)) by (apply in_seq; lia).
  specialize (Hall h Hin). rewrite forallb_forall in Hall.
  apply Hall. apply in_seq. lia.
Qed.

End SchemaProperties.

(** ** Games whose window crosses midnight *)

Section CrossMidnightProperties.
Import JS Clock Windows.

(** X2: a game whose end time is not after its start time on the clock
    (a window across midnight) is never waiting at a time of day: it is
    open, closed or result_declared; and when its result time is not
    after its end time either, it is never result_declared, so that it is
    closed all the way from the end of betting to the next start. *)
Theorem cross_midnight_game_never_waits :
  forall (game : Game) (currentTime : string) (c s e r : nat),
    isActive game = true ->
    forcedStatus game = None ->
    timeToMinutes currentTime = Some c ->
    timeToMinutes (startTime game) = Some s ->
    timeToMinutes (endTime game) = Some e ->
    timeToMinutes (resultTime game) = Some r ->
    e <= s -> c < 1440 ->
    exists st,
      currentStatusOf game currentTime = Some st
      /\ st <> waiting
      /\ (r <= e -> st <> result_declared /\ (st = closed <-> e <= c < s)).
Proof.
  intros game now c s e r Hact Hforced Hc Hs He Hr Hes Hday.
  exists (windowStatus (Some c) (Some s) (Some e) (Some r)).
  split; [unfold currentStatusOf; rewrite Hforced, Hact, Hc, Hs, He, Hr; reflexivity|].
  destruct (windowStatus_cases c s e r) as (Ho & Hcl & Hres & Hw).
  unfold inOpenWindow, inClosedWindow, inResultWindow in *.
  split; [|intros Hre; split].
  - intros H. apply Hw in H. lia.
  - intros H. apply Hres in H. lia.
  - rewrite Hcl. lia.
Qed.

Lemma cross_midnight_game_never_waits_witness :
  exists st,
    currentStatusOf (Sample.game jodi "20:00" "03:00" "03:30" waiting None) "19:00"
    = Some st
    /\ st <> waiting.
Proof.
  destruct (cross_midnight_game_never_waits
              (Sample.game jodi "20:00" "03:00" "03:30" waiting None)
              "19:00" 1140 1200 180 210) as (st & Hst & Hw & _);
    first [ reflexivity | lia | idtac ].
  exists st. split; [exact Hst | exact Hw].
Defined.

(** X3: [getGameById] compares the time strings with no handling of a
    window across midnight.  For zero-padded fields whose end time is not
    after the start time it never reports the game open, although the
    evaluator of [getAllGames] and [placeBet] reports it open from the
    start time to midnight and from midnight to the end time. *)
Theorem getGameById_never_open_across_midnight :
  forall (game : Game) (hs ms he me hr mr hc mc : nat),
    hs < 24 -> ms < 60 -> he < 24 -> me < 60 -> hr < 24 -> mr < 60 ->
    hc < 24 -> mc < 60 ->
    isActive game = true ->
    forcedStatus game = None ->
    startTime game = hhmm hs ms ->
    endTime game = hhmm he me ->
    resultTime game = hhmm hr mr ->
    str_lt (startTime game) (endTime game) = false ->
    exists shown computed,
      getGameById_status game (hhmm hc mc) = Some shown
      /\ currentStatusOf game (hhmm hc mc) = Some computed
      /\ shown <> open
      /\ (computed = open
          <-> hs * 60 + ms <= hc * 60 + mc \/ hc * 60 + mc < he * 60 + me).
Proof.
  intros game hs ms he me hr mr hc mc ? ? ? ? ? ? ? ? Hact Hforced Hs He Hr Hlt.
  unfold getGameById_status, currentStatusOf.
  rewrite Hforced, Hact. cbn [negb]. eexists _, _.
  split; [reflexivity|]. split; [reflexivity|].
  rewrite Hs, He in Hlt. rewrite Hs, He, Hr.
  unfold str_ge. rewrite str_lt_hhmm in Hlt by lia.
  rewrite !str_lt_hhmm by lia. rewrite !timeToMinutes_hhmm by lia.
  apply Nat.ltb_ge in Hlt.
  unfold windowStatus, num_gt, num_ge, num_lt.
  repeat match goal with
         | |- context [?a <? ?b] =>
             destruct (Nat.ltb_spec a b); try (exfalso; lia)
         | |- context [?a <=? ?b] =>
             destruct (Nat.leb_spec a b); try (exfalso; lia)
         end; cbn; split; try discriminate;
    split; intros; first [ discriminate | reflexivity | lia ].
Qed.

Lemma getGameById_never_open_across_midnight_witness :
  exists shown computed,
    getGameById_status (Sample.game jodi "20:00" "03:00" "03:30" waiting None)
      (hhmm 23 30) = Some shown
    /\ currentStatusOf (Sample.game jodi "20:00" "03:00" "03:30" waiting None)
         (hhmm 23 30) = Some computed
    /\ shown <> open
    /\ (computed = open
        <-> 20 * 60 + 0 <= 23 * 60 + 30 \/ 23 * 60 + 30 < 3 * 60 + 0).
Proof.
  apply (getGameById_never_open_across_midnight _ 20 0 3 0 3 30 23 30);
    first [ lia | reflexivity ].
Defined.

End CrossMidnightProperties.

(** ** Accepted bets *)

Section AcceptedBets.
Import JS Placement.

Lemma currentStatusOf_active game now st :
  Clock.currentStatusOf game now = Some st -> isActive game = true.
Proof.
  unfold Clock.currentStatusOf. destruct (isActive game); [reflexivity | discriminate].
Qed.

(** What an accepted request has passed. *)
Lemma placeBet_accepted_inv newWallet now db req :
  ~ rejected (fst (placeBet newWallet now db req)) ->
  exists gameId game t,
    passesGuards now db req gameId game
    /\ (reqBetAmount req
        <= depositBalance (default newWallet (wallets db !! reqUserId req)))%Q
    /\ betTypeOf (reqBetType req) = Some t.
Proof.
  unfold placeBet, placeBetTransaction.
  destruct (reqGameId req) as [gameId|] eqn:Hid; [|intros H; exfalso; apply H; exact I].
  destruct (truthy (reqBetType req)) eqn:Ht; cbn [negb orb];
    [|intros H; exfalso; apply H; exact I].
  destruct (truthy (reqBetNumber req)) eqn:Hn; cbn [negb orb];
    [|intros H; exfalso; apply H; exact I].
  destruct (Qeq_bool (reqBetAmount req) 0) eqn:E0;
    [intros H; exfalso; apply H; exact I|].
  destruct (Qle_bool (reqBetAmount req) 0) eqn:E1;
    [intros H; exfalso; apply H; exact I|].
  destruct (games db !! gameId) as [game|] eqn:Hg;
    [|intros H; exfalso; apply H; exact I].
  destruct (Clock.currentStatusOf game now) as [gameStatus|] eqn:Hstatus;
    [|intros H; exfalso; apply H; exact I].
  destruct (bool_decide (gameStatus = open)) eqn:Hopen;
    cbn [negb]; [|intros H; exfalso; apply H; exact I].
  destruct (Qlt_bool (reqBetAmount req) (minBet game)) eqn:Hmin; cbn [orb];
    [intros H; exfalso; apply H; exact I|].
  destruct (Qlt_bool (maxBet game) (reqBetAmount req)) eqn:Hmax;
    [intros H; exfalso; apply H; exact I|].
  destruct (Qlt_bool (depositBalance _) (reqBetAmount req)) eqn:Hbal;
    [intros H; exfalso; apply H; exact I|].
  destruct (betTypeOf (reqBetType req)) as [t|] eqn:Hty;
    [|intros H; exfalso; apply H; exact I].
  intros _. exists gameId, game, t.
  apply Qlt_bool_false in Hmin, Hmax, Hbal. apply bool_decide_eq_true in Hopen.
  subst gameStatus. pose proof (currentStatusOf_active _ _ _ Hstatus) as Hact.
  apply truthy_true in Ht, Hn.
  assert (Hpos : (0 < reqBetAmount req)%Q).
  { apply Qnot_le_lt. intros Hle. apply Qle_bool_iff in Hle. congruence. }
  unfold passesGuards. auto 12.
Qed.

(** X4: [placeBet] accepts a request exactly when it names a game, a bet
    type and a bet number, its amount is positive, the game exists, is
    active and open for betting at the current time, the amount lies
    within the limits of the game, the wallet covers it, and the bet type
    is "jodi", "haruf" or "crossing". *)
Theorem placeBet_accepts_iff :
  forall (newWallet : Wallet) (currentTime : string) (db : Db) (req : Request),
    ~ rejected (fst (placeBet newWallet currentTime db req))
    <-> exists gameId game,
          passesGuards currentTime db req gameId game
          /\ (reqBetAmount req
              <= depositBalance (default newWallet (wallets db !! reqUserId req)))%Q
          /\ (reqBetType req = "jodi" \/ reqBetType req = "haruf"
              \/ reqBetType req = "crossing").
Proof.
  intros newWallet now db req.
  destruct (betTypeOf_names (reqBetType req)) as (Hj & Hh & Hc & Hnone). split.
  - intros H. apply placeBet_accepted_inv in H as (gameId & game & t & Hp & Hb & Ht).
    exists gameId, game. split; [exact Hp|]. split; [exact Hb|].
    destruct t; [left; apply Hj | right; left; apply Hh | right; right; apply Hc];
      exact Ht.
  - intros (gameId & game & Hp & Hb & Ht).
    rewrite (placeBet_guards_passed _ _ _ _ _ _ Hp). unfold placeBetTransaction.
    apply Qlt_bool_false in Hb. rewrite Hb.
    destruct (betTypeOf (reqBetType req)) eqn:E; [cbn; tauto|].
    exfalso. destruct (proj1 Hnone eq_refl) as (N1 & N2 & N3).
    destruct Ht as [Ht|[Ht|Ht]]; contradiction.
Qed.

Lemma placeBet_accepts_iff_witness :
  ~ rejected (fst (placeBet (Sample.wallet 0 0) "09:15" Sample.shop
                     (Sample.placeRequest "crossing" "62" 20))).
Proof.
  apply (proj2 (placeBet_accepts_iff (Sample.wallet 0 0) "09:15" Sample.shop
                  (Sample.placeRequest "crossing" "62" 20))).
  exists 1, Sample.dayGame. split; [|split].
  - repeat split; try reflexivity; discriminate.
  - discriminate.
  - right. right. reflexivity.
Defined.

(** X5: what an accepted bet writes, in the double arithmetic of the code.
    The wallet of the user gets [depositBalance - amount] as its deposit
    balance and [totalBets + amount] as its total of bets, its winning
    balance and every other wallet are as before; the new bet is pending,
    stakes the amount, carries the potential winning [amount * payout]
    for the payout rate of its bet type, and refers to the new
    transaction, a bet transaction of the same user, game and amount;
    every earlier bet and transaction is unchanged. *)
Theorem placeBet_accepted_effects :
  forall (newWallet : Wallet) (currentTime : string) (db : Db) (req : Request)
         (gameId : nat) (game : Game) (t : GameType) (payout : Q),
    passesGuards currentTime db req gameId game ->
    (reqBetAmount req
     <= depositBalance (default newWallet (wallets db !! reqUserId req)))%Q ->
    (reqBetType req = "jodi" /\ t = jodi /\ payout = jodiPayout game)
    \/ (reqBetType req = "haruf" /\ t = haruf /\ payout = harufPayout game)
    \/ (reqBetType req = "crossing" /\ t = crossing
        /\ payout = crossingPayout game) ->
    let before := default newWallet (wallets db !! reqUserId req) in
    let amount := reqBetAmount req in
    let db' := snd (placeBet newWallet currentTime db req) in
    let betId := length (bets db) in
    let transactionId := length (transactions db) in
    fst (placeBet newWallet currentTime db req)
    = BetPlaced betId transactionId (JS.sub (depositBalance before) amount)
        (JS.mul amount payout)
    /\ (exists after,
          wallets db' !! reqUserId req = Some after
          /\ depositBalance after = JS.sub (depositBalance before) amount
          /\ totalBets after = JS.add (totalBets before) amount
          /\ winningBalance after = winningBalance before
          /\ totalWinnings after = totalWinnings before)
    /\ (forall u, u <> reqUserId req -> wallets db' !! u = wallets db !! u)
    /\ (exists bet,
          bets db' !! betId = Some bet
          /\ length (bets db') = S betId
          /\ betUserId bet = reqUserId req /\ betGameId bet = gameId
          /\ betType bet = t
          /\ betNumber bet = reqBetNumber req
          /\ betAmount bet = amount
          /\ potentialWinning bet = JS.mul amount payout
          /\ status bet = pending
          /\ deductionTransactionId bet = Some transactionId)
    /\ transactions db' !! transactionId
       = Some {| txUserId := reqUserId req; txType := tx_bet;
                 txAmount := amount; txGameId := gameId |}
    /\ (forall i, i < betId -> bets db' !! i = bets db !! i)
    /\ (forall i, i < transactionId -> transactions db' !! i = transactions db !! i)
    /\ games db' = games db /\ users db' = users db
    /\ gameResults db' = gameResults db.
Proof.
  intros newWallet now db req gameId game t payout Hp Hb Hnames
         before amount db' betId txId.
  destruct (betTypeOf_names (reqBetType req)) as (Hj & Hh & Hc & _).
  assert (Ht : betTypeOf (reqBetType req) = Some t /\ multiplierOf game t = payout).
  { destruct Hnames as [(Hn & -> & ->)|[(Hn & -> & ->)|(Hn & -> & ->)]].
    - split; [apply Hj; exact Hn | reflexivity].
    - split; [apply Hh; exact Hn | reflexivity].
    - split; [apply Hc; exact Hn | reflexivity]. }
  destruct Ht as [Ht <-].
  subst db'. rewrite (placeBet_guards_passed _ _ _ _ _ _ Hp).
  unfold placeBetTransaction. apply Qlt_bool_false in Hb. rewrite Hb, Ht.
  cbn [fst snd wallets bets transactions games users gameResults].
  fold before amount betId txId.
  split; [reflexivity|]. split; [|split; [|split; [|split; [|split; [|split]]]]].
  - eexists. split; [apply lookup_insert_eq|]. cbn. auto.
  - intros u Hu. apply lookup_insert_ne. congruence.
  - eexists. split; [apply list_lookup_middle; reflexivity|].
    split; [rewrite length_app; cbn; lia|]. cbn. auto 12.
  - apply list_lookup_middle. reflexivity.
  - intros i Hi. apply lookup_app_l. exact Hi.
  - intros i Hi. apply lookup_app_l. exact Hi.
  - auto.
Qed.

Lemma placeBet_accepted_effects_witness :
  fst (placeBet (Sample.wallet 0 0) "09:15" Sample.shop
         (Sample.placeRequest "haruf" "4" 20))
  = BetPlaced 0 0 80 180.
Proof.
  pose proof (placeBet_accepted_effects (Sample.wallet 0 0) "09:15" Sample.shop
                (Sample.placeRequest "haruf" "4" 20) 1 Sample.dayGame haruf 9%Q) as H.
  cbv zeta in H. destruct H as (Hfst & _).
  - repeat split; try reflexivity; discriminate.
  - discriminate.
  - right. left. repeat split; reflexivity.
  - rewrite Hfst. vm_compute. reflexivity.
Defined.

(** X6: a game whose [maxBet] is below its [minBet] accepts no bet. *)
Theorem no_bet_within_inverted_limits :
  forall (newWallet : Wallet) (currentTime : string) (db : Db) (req : Request)
         (gameId : nat) (game : Game),
    reqGameId req = Some gameId ->
    games db !! gameId = Some game ->
    (maxBet game < minBet game)%Q ->
    rejected (fst (placeBet newWallet currentTime db req))
    /\ snd (placeBet newWallet currentTime db req) = db.
Proof.
  intros newWallet now db req gameId game Hid Hg Hinv.
  assert (Hrej : rejected (fst (placeBet newWallet now db req))).
  { destruct (fst (placeBet newWallet now db req)) eqn:E; try exact I.
    exfalso.
    assert (Hacc : ~ rejected (fst (placeBet newWallet now db req)))
      by (rewrite E; cbn; tauto).
    apply placeBet_accepted_inv in Hacc
      as (gameId' & game' & t & (Hid' & _ & _ & _ & Hg' & _ & _ & Hmin & Hmax) & _).
    assert (gameId' = gameId) by congruence. subst gameId'.
    assert (game' = game) by congruence. subst game'.
    apply (Qlt_not_le _ _ Hinv). eapply Qle_trans; eassumption. }
  split; [exact Hrej | apply placeBet_rejected_unchanged; exact Hrej].
Qed.

Lemma no_bet_within_inverted_limits_witness :
  let game := {| gameName := "Gali"; gameType := jodi; isActive := true;
                 startTime := "08:00"; endTime := "15:30"; resultTime := "16:00";
                 minBet := 3000; maxBet := 1000; commission := 5;
                 jodiPayout := 95; harufPayout := 9; crossingPayout := 95;
                 declaredResult := None; currentStatus := open;
                 forcedStatus := None |} in
  let db := withGames Sample.shop {[ 1 := game ]} in
  rejected (fst (placeBet (Sample.wallet 0 0) "09:15" db
                   (Sample.placeRequest "jodi" "62" 2000))).
Proof.
  cbv zeta.
  eapply (no_bet_within_inverted_limits _ "09:15" _ _ 1); [reflexivity | reflexivity |].
  reflexivity.
Defined.

End AcceptedBets.

(** ** Administration of games *)

Section AdminProperties.
Import JS Admin.

Lemma statusOfString_names forceStatus st :
  statusOfString forceStatus = Some st ->
  (forceStatus = "waiting" /\ st = waiting) \/ (forceStatus = "open" /\ st = open)
  \/ (forceStatus = "closed" /\ st = closed)
  \/ (forceStatus = "result_declared" /\ st = result_declared).
Proof.
  unfold statusOfString.
  destruct (String.eqb_spec forceStatus "waiting"); [intros [= <-]; auto|].
  destruct (String.eqb_spec forceStatus "open"); [intros [= <-]; auto|].
  destruct (String.eqb_spec forceStatus "closed"); [intros [= <-]; auto|].
  destruct (String.eqb_spec forceStatus "result_declared"); [intros [= <-]; auto 6|].
  discriminate.
Qed.

(** The bet an accepted request has added. *)
Lemma placeBet_accepted_bet newWallet now db req gameId :
  ~ Placement.rejected (fst (Placement.placeBet newWallet now db req)) ->
  Placement.reqGameId req = Some gameId ->
  exists bet,
    bets (snd (Placement.placeBet newWallet now db req)) = (bets db ++ [bet])%list
    /\ betGameId bet = gameId /\ status bet = pending
    /\ betUserId bet = Placement.reqUserId req
    /\ games (snd (Placement.placeBet newWallet now db req)) = games db.
Proof.
  intros Hacc Hid.
  destruct (placeBet_accepted_inv _ _ _ _ Hacc) as (gameId' & game & t & Hp & Hb & Ht).
  assert (gameId' = gameId) by (destruct Hp as (Hid' & _); congruence). subst gameId'.
  rewrite (placeBet_guards_passed _ _ _ _ _ _ Hp). unfold Placement.placeBetTransaction.
  apply Qlt_bool_false in Hb. rewrite Hb, Ht. cbn.
  eexists. split; [reflexivity|]. cbn. auto.
Qed.

Lemma countPending_zero db gameId :
  countPending db gameId = 0
  <-> forall i bet, bets db !! i = Some bet -> betGameId bet = gameId ->
                    status bet <> pending.
Proof.
  unfold countPending. rewrite length_zero_iff_nil. split.
  - intros Hnil i bet Hi Hg Hst.
    assert (Hin : In (i, bet) (findBets (Settlement.pendingOf gameId) db)).
    { apply findBets_spec. split; [exact Hi|]. unfold Settlement.pendingOf.
      rewrite Hg, Nat.eqb_refl, bool_decide_eq_true_2 by exact Hst. reflexivity. }
    rewrite Hnil in Hin. destruct Hin.
  - intros Hnone.
    destruct (findBets (Settlement.pendingOf gameId) db) as [|[i bet] l] eqn:E;
      [reflexivity|].
    assert (Hin : In (i, bet) (findBets (Settlement.pendingOf gameId) db))
      by (rewrite E; left; reflexivity).
    apply findBets_spec in Hin as [Hi Hq]. unfold Settlement.pendingOf in Hq.
    apply andb_true_iff in Hq as [Hg Hst].
    apply Nat.eqb_eq in Hg. apply bool_decide_eq_true in Hst.
    exfalso. exact (Hnone i bet Hi Hg Hst).
Qed.

(** X7: once [forceGameStatus] has stored a status for a game, both status
    computations show that status for the game at every time of day if it
    is active; if it is inactive no status is computed for it, as before
    (it is not listed and the handlers answer 404).  A bet on the game is
    then accepted or rejected independently of the clock, and rejected
    whenever the forced status is not open.  The other games, the bets,
    the wallets and the transactions are untouched. *)
Theorem forced_status_overrides_clock :
  forall (db : Db) (gameId : nat) (forceStatus : string)
         (updatedGame : Game) (db' : Db),
    forceGameStatus db gameId forceStatus = (StatusForced updatedGame, db') ->
    exists st,
      ((forceStatus = "waiting" /\ st = waiting)
       \/ (forceStatus = "open" /\ st = open)
       \/ (forceStatus = "closed" /\ st = closed)
       \/ (forceStatus = "result_declared" /\ st = result_declared))
      /\ games db' !! gameId = Some updatedGame
      /\ forcedStatus updatedGame = Some st
      /\ (forall other, other <> gameId -> games db' !! other = games db !! other)
      /\ bets db' = bets db /\ wallets db' = wallets db
      /\ transactions db' = transactions db
      /\ (isActive updatedGame = true ->
          forall currentTime,
            Clock.currentStatusOf updatedGame currentTime = Some st
            /\ Clock.getGameById_status updatedGame currentTime = Some st)
      /\ (isActive updatedGame = false ->
          forall currentTime,
            Clock.currentStatusOf updatedGame currentTime = None
            /\ Clock.getGameById_status updatedGame currentTime = None)
      /\ (forall newWallet req time1 time2,
            Placement.reqGameId req = Some gameId ->
            Placement.placeBet newWallet time1 db' req
            = Placement.placeBet newWallet time2 db' req)
      /\ (st <> open ->
          forall newWallet req currentTime,
            Placement.reqGameId req = Some gameId ->
            Placement.rejected
              (fst (Placement.placeBet newWallet currentTime db' req))).
Proof.
  intros db gameId forceStatus updatedGame db'. unfold forceGameStatus.
  destruct (statusOfString forceStatus) as [st|] eqn:Hname; [|discriminate].
  destruct (games db !! gameId) as [game|] eqn:Hg; [|discriminate].
  intros [= <- <-]. exists st.
  split; [apply statusOfString_names; exact Hname|].
  assert (Hstatus : forall currentTime,
             Clock.currentStatusOf (setForcedStatus game st) currentTime
             = (if isActive game then Some st else None)).
  { intros now. unfold Clock.currentStatusOf. cbn. destruct (isActive game); reflexivity. }
  cbn [games bets wallets transactions withGames].
  split; [apply lookup_insert_eq|]. split; [reflexivity|].
  split; [intros other Hne; apply lookup_insert_ne; congruence|].
  split; [reflexivity|]. split; [reflexivity|]. split; [reflexivity|].
  cbn [isActive setForcedStatus].
  split; [|split; [|split]].
  - intros Hact now. rewrite Hstatus, Hact. split; [reflexivity|].
    unfold Clock.getGameById_status. cbn. rewrite Hact. reflexivity.
  - intros Hact now. rewrite Hstatus, Hact. split; [reflexivity|].
    unfold Clock.getGameById_status. cbn. rewrite Hact. reflexivity.
  - intros newWallet req time1 time2 Hid. unfold Placement.placeBet.
    rewrite Hid. cbn [games withGames]. rewrite lookup_insert_eq.
    rewrite (Hstatus time1), (Hstatus time2). reflexivity.
  - intros Hst newWallet req now Hid.
    match goal with |- Placement.rejected (fst ?out) =>
      destruct (fst out) eqn:E; try exact I;
      assert (Hacc : ~ Placement.rejected (fst out)) by (rewrite E; cbn; tauto)
    end.
    apply placeBet_accepted_inv in Hacc
      as (gameId' & game' & t & (Hid' & _ & _ & _ & Hg' & Hact & Hopen & _) & _).
    assert (gameId' = gameId) by congruence. subst gameId'.
    cbn [games withGames] in Hg'. rewrite lookup_insert_eq in Hg'.
    injection Hg' as <-. cbn [isActive setForcedStatus] in Hact.
    rewrite Hstatus, Hact in Hopen. congruence.
Qed.

Lemma forced_status_overrides_clock_witness :
  Clock.currentStatusOf (setForcedStatus Sample.dayGame closed) "09:15" = Some closed
  /\ Clock.getGameById_status (setForcedStatus Sample.dayGame closed) "09:15"
     = Some closed
  /\ Clock.currentStatusOf Sample.dayGame "09:15" = Some open.
Proof.
  destruct (forced_status_overrides_clock Sample.shop 1 "closed"
              (setForcedStatus Sample.dayGame closed)
              (withGames Sample.shop
                 (<[1 := setForcedStatus Sample.dayGame closed]> (games Sample.shop)))
              eq_refl)
    as (st & Hname & _ & _ & _ & _ & _ & _ & Hstatus & _).
  assert (st = closed)
    by (destruct Hname as [[H _]|[[H _]|[[_ H]|[H _]]]];
        first [discriminate H | exact H]).
  subst st. destruct (Hstatus eq_refl "09:15") as [Hall Hone].
  split; [exact Hall|]. split; [exact Hone|reflexivity].
Defined.

(** X8: [deleteGame] deletes exactly when the game exists and no bet on it
    is pending.  It then removes that game alone and leaves every bet,
    also the settled bets of the deleted game, in the collection; in
    every other case the database is unchanged. *)
Theorem deleteGame_needs_no_pending_bet :
  forall (db : Db) (gameId : nat),
    let out := deleteGame db gameId in
    (fst out = GameDeleted
     <-> (forall i bet, bets db !! i = Some bet -> betGameId bet = gameId ->
                        status bet <> pending)
         /\ games db !! gameId <> None)
    /\ (fst out = GameDeleted ->
        games (snd out) !! gameId = None
        /\ (forall other, other <> gameId ->
              games (snd out) !! other = games db !! other)
        /\ bets (snd out) = bets db /\ wallets (snd out) = wallets db
        /\ transactions (snd out) = transactions db
        /\ gameResults (snd out) = gameResults db)
    /\ (fst out <> GameDeleted -> snd out = db).
Proof.
  intros db gameId. cbv zeta. unfold deleteGame.
  pose proof (countPending_zero db gameId) as Hzero.
  destruct (Nat.ltb_spec 0 (countPending db gameId)) as [Hpos|Hnone].
  - cbn [fst snd]. split; [|split; [discriminate | reflexivity]].
    split; [discriminate|]. intros [Hno _]. apply Hzero in Hno. lia.
  - assert (H0 : countPending db gameId = 0) by lia.
    destruct (games db !! gameId) as [game|] eqn:Hg; cbn [fst snd].
    + split; [|split].
      * split; [|reflexivity]. intros _. split; [apply Hzero; exact H0 | discriminate].
      * intros _. cbn [games bets wallets transactions gameResults withGames].
        split; [apply lookup_delete_eq|].
        split; [intros other Hne; apply lookup_delete_ne; congruence|]. auto.
      * intros Hne. contradiction.
    + split; [|split; [discriminate | reflexivity]].
      split; [discriminate|]. intros [_ Hex]. contradiction.
Qed.

(** X9: an accepted bet protects its game from deletion: right after
    [placeBet] has accepted a bet on a game, [deleteGame] refuses to delete
    that game, reports at least one pending bet and changes nothing. *)
Theorem accepted_bet_blocks_deletion :
  forall (newWallet : Wallet) (currentTime : string) (db : Db)
         (req : Placement.Request) (gameId : nat),
    ~ Placement.rejected (fst (Placement.placeBet newWallet currentTime db req)) ->
    Placement.reqGameId req = Some gameId ->
    let db' := snd (Placement.placeBet newWallet currentTime db req) in
    exists n, deleteGame db' gameId = (HasPendingBets (S n), db').
Proof.
  intros newWallet now db req gameId Hacc Hid db'.
  destruct (placeBet_accepted_bet _ _ _ _ _ Hacc Hid)
    as (bet & Hbets & Hgame & Hst & _).
  fold db' in Hbets. unfold deleteGame.
  destruct (countPending db' gameId) as [|n] eqn:E.
  - exfalso. pose proof (proj1 (countPending_zero db' gameId) E) as Hnone.
    apply (Hnone (length (bets db)) bet); [|exact Hgame|exact Hst].
    rewrite Hbets. apply list_lookup_middle. reflexivity.
  - exists n. reflexivity.
Qed.

Lemma accepted_bet_blocks_deletion_witness :
  exists n,
    deleteGame
      (snd (Placement.placeBet (Sample.wallet 0 0) "09:15" Sample.shop
              (Sample.placeRequest "jodi" "62" 20))) 1
    = (HasPendingBets (S n),
       snd (Placement.placeBet (Sample.wallet 0 0) "09:15" Sample.shop
              (Sample.placeRequest "jodi" "62" 20))).
Proof.
  apply (accepted_bet_blocks_deletion (Sample.wallet 0 0) "09:15" Sample.shop
           (Sample.placeRequest "jodi" "62" 20) 1).
  - vm_compute. tauto.
  - reflexivity.
Defined.

(** X10: a declared result releases the game: after a successful
    [declareResult] no bet on the game is pending, so [deleteGame] deletes
    the game, whatever bets had been placed on it, and the settled bets
    stay behind. *)
Theorem declared_game_can_be_deleted :
  forall (db : Db) (req : Settlement.Request) (data : Settlement.Summary) (db' : Db),
    Settlement.declareResult db req = (Settlement.Declared data, db') ->
    fst (deleteGame db' (Settlement.reqGameId req)) = GameDeleted
    /\ bets (snd (deleteGame db' (Settlement.reqGameId req))) = bets db'
    /\ games (snd (deleteGame db' (Settlement.reqGameId req)))
         !! Settlement.reqGameId req = None.
Proof.
  intros db req data db' H.
  destruct (declareResult_settles_pending_only _ _ _ _ H) as (_ & _ & Hnone).
  destruct (declareResult_declared _ _ _ _ H) as (game & _ & Hd). cbv zeta in Hd.
  destruct Hd as (_ & _ & _ & _ & _ & _ & _ & _ & _ & Hgames & _).
  unfold deleteGame, countPending. rewrite Hnone. cbn [length Nat.ltb Nat.leb].
  rewrite Hgames, lookup_insert_eq. cbn [fst snd bets games withGames].
  split; [reflexivity|]. split; [reflexivity|]. apply lookup_delete_eq.
Qed.

Lemma declared_game_can_be_deleted_witness :
  exists data db',
    Settlement.declareResult Sample.settleDb Sample.declareRequest
    = (Settlement.Declared data, db')
    /\ fst (deleteGame db' 1) = GameDeleted.
Proof.
  eexists _, _. split; [vm_compute; reflexivity|].
  eapply (declared_game_can_be_deleted Sample.settleDb Sample.declareRequest).
  vm_compute. reflexivity.
Defined.

(** X11: in the statistics of [getAdminGames] the games of the three types
    add up to the total, and the active games are at most the total. *)
Theorem admin_stats_add_up :
  forall found : list Game,
    let stats := getAdminGames_stats found in
    statJodi stats + statHaruf stats + statCrossing stats = statTotal stats
    /\ statActive stats <= statTotal stats.
Proof.
  intros found. cbv zeta. unfold getAdminGames_stats.
  cbn [statJodi statHaruf statCrossing statTotal statActive]. split.
  - induction found as [|g found IH]; [reflexivity|].
    cbn [List.filter length]. destruct (gameType g);
      repeat first [rewrite bool_decide_eq_true_2 by reflexivity
                   |rewrite bool_decide_eq_false_2 by discriminate];
      cbn [length]; lia.
  - induction found as [|g found IH]; [reflexivity|].
    cbn [List.filter length]. destruct (isActive g); cbn [length]; lia.
Qed.

End AdminProperties.

(** ** The books of a settlement run *)

Section LedgerProperties.
Import JS GamesWager Settlement Ledger.

Lemma map_snd_findBets query db :
  map snd (findBets query db) = List.filter query (bets db).
Proof.
  unfold findBets, indexed. generalize 0. induction (bets db) as [|b l IH]; intros k.
  - reflexivity.
  - cbn [indexedFrom List.filter snd]. destruct (query b); cbn [map snd]; rewrite IH;
      reflexivity.
Qed.

Lemma hasWallet_preserved db db1 :
  (forall u, wallets db1 !! u = None <-> wallets db !! u = None) ->
  forall u, hasWallet db1 u = hasWallet db u.
Proof.
  intros H u. unfold hasWallet. specialize (H u).
  destruct (wallets db1 !! u), (wallets db !! u); try reflexivity.
  - destruct H as [_ H]. discriminate (H eq_refl).
  - destruct H as [H _]. discriminate (H eq_refl).
Qed.

Lemma paidWinners_preserved win db db1 l :
  (forall u, hasWallet db1 u = hasWallet db u) ->
  paidWinners win db1 l = paidWinners win db l.
Proof.
  intros H. unfold paidWinners. induction l as [|b l IH]; [reflexivity|].
  cbn [List.filter]. rewrite H, IH. reflexivity.
Qed.

(** *** Wallets *)

Lemma winsOf_cons win u bet (l : list Bet) :
  winsOf win u (bet :: l) = (winsOf win u [bet] ++ winsOf win u l)%list.
Proof.
  unfold winsOf. cbn [List.filter].
  destruct (isWinnerOf bet win && (betUserId bet =? u)); reflexivity.
Qed.

Lemma settleBet_wallet game req st i bet u w :
  wallets (loopDb st) !! u = Some w ->
  let win := unifiedWinningNumber game req in
  let credits := map potentialWinning (winsOf win u [bet]) in
  exists w1,
    wallets (loopDb (settleBet game req st (i, bet))) !! u = Some w1
    /\ depositBalance w1 = depositBalance w /\ totalBets w1 = totalBets w
    /\ winningBalance w1 = sumFrom (winningBalance w) credits
    /\ totalWinnings w1 = sumFrom (totalWinnings w) credits.
Proof.
  intros Hw. cbv zeta. unfold settleBet, winsOf. cbn [List.filter].
  destruct (isWinnerOf bet (unifiedWinningNumber game req)); cbn [andb].
  - destruct (Nat.eqb_spec (betUserId bet) u) as [->|Hne].
    + rewrite Hw. cbn [loopDb wallets withBets withTransactions withWallets].
      rewrite lookup_insert_eq. eexists. split; [reflexivity|].
      cbn [depositBalance totalBets winningBalance totalWinnings creditWallet].
      auto.
    + destruct (wallets (loopDb st) !! betUserId bet) as [w0|];
        cbn [loopDb wallets withBets withTransactions withWallets].
      * rewrite lookup_insert_ne by exact Hne. exists w. auto.
      * exists w. auto.
  - cbn [loopDb wallets withBets]. exists w. auto.
Qed.

Lemma settle_fold_wallets game req l : forall st u w,
  wallets (loopDb st) !! u = Some w ->
  let win := unifiedWinningNumber game req in
  let credits := map potentialWinning (winsOf win u (map snd l)) in
  exists w',
    wallets (loopDb (fold_left (settleBet game req) l st)) !! u = Some w'
    /\ depositBalance w' = depositBalance w /\ totalBets w' = totalBets w
    /\ winningBalance w' = sumFrom (winningBalance w) credits
    /\ totalWinnings w' = sumFrom (totalWinnings w) credits.
Proof.
  induction l as [|[i bet] l IH]; intros st u w Hw; cbv zeta.
  - exists w. auto.
  - cbn [fold_left map snd].
    destruct (settleBet_wallet game req st i bet u w Hw)
      as (w1 & Hw1 & Hd1 & Hb1 & Hwin1 & Htot1).
    destruct (IH (settleBet game req st (i, bet)) u w1 Hw1)
      as (w' & Hw' & Hd' & Hb' & Hwin' & Htot').
    exists w'. split; [exact Hw'|]. split; [congruence|]. split; [congruence|].
    rewrite (winsOf_cons _ u bet (map snd l)), map_app, !sumFrom_app.
    split; congruence.
Qed.

(** *** Transactions *)

Lemma settleBet_transactions game req st i bet :
  let win := unifiedWinningNumber game req in
  let db := loopDb st in
  transactions (loopDb (settleBet game req st (i, bet)))
  = (transactions db
     ++ map (winTransaction (reqGameId req)) (paidWinners win db [bet]))%list.
Proof.
  cbv zeta. unfold settleBet, paidWinners, hasWallet. cbn [List.filter].
  destruct (isWinnerOf bet (unifiedWinningNumber game req)); cbn [andb].
  - destruct (wallets (loopDb st) !! betUserId bet);
      cbn [loopDb transactions withBets withTransactions withWallets map].
    + reflexivity.
    + symmetry. apply app_nil_r.
  - cbn [loopDb transactions withBets map]. symmetry. apply app_nil_r.
Qed.

Lemma settle_fold_transactions game req l : forall st,
  let win := unifiedWinningNumber game req in
  let db := loopDb st in
  transactions (loopDb (fold_left (settleBet game req) l st))
  = (transactions db
     ++ map (winTransaction (reqGameId req)) (paidWinners win db (map snd l)))%list.
Proof.
  induction l as [|[i bet] l IH]; intros st; cbv zeta.
  - cbn. symmetry. apply app_nil_r.
  - cbn [fold_left map snd]. rewrite IH, settleBet_transactions.
    destruct (settleBet_step game req st i bet) as (_ & _ & _ & Hw & _).
    rewrite (paidWinners_preserved _ (loopDb st) (loopDb (settleBet game req st (i, bet))))
      by (apply hasWallet_preserved; exact Hw).
    rewrite <- app_assoc, <- map_app. f_equal. f_equal.
    unfold paidWinners. cbn [List.filter].
    destruct (isWinnerOf bet _ && hasWallet (loopDb st) (betUserId bet)); reflexivity.
Qed.

(** The bet of a paid winner refers to its win transaction. *)
Lemma settle_fold_receipts game req l : forall st,
  List.NoDup (map fst l) ->
  let win := unifiedWinningNumber game req in
  let db := loopDb st in
  let db' := loopDb (fold_left (settleBet game req) l st) in
  forall i bet,
    In (i, bet) l -> i < length (bets db) ->
    isWinnerOf bet win = true -> hasWallet db (betUserId bet) = true ->
    exists t,
      bets db' !! i = Some (settled win (Some t) bet)
      /\ transactions db' !! t = Some (winTransaction (reqGameId req) bet).
Proof.
  induction l as [|[j b] l IH]; intros st Hnd; cbv zeta; [intros i bet []|].
  cbn [fold_left map fst] in *. apply NoDup_cons_iff in Hnd as [Hnotin Hnd].
  destruct (settleBet_step game req st j b)
    as (_ & _ & _ & Hw & (tx & Hb & _) & _).
  intros i bet [Heq|Hin] Hlt Hwin Hhas.
  - inversion Heq; subst j b; clear Heq.
    destruct (settle_fold game req l (settleBet game req st (i, bet)) Hnd)
      as (_ & _ & _ & _ & _ & Hout & _).
    exists (length (transactions (loopDb st))). split.
    + rewrite Hout by exact Hnotin.
      unfold settleBet, settled. rewrite Hwin. unfold hasWallet in Hhas.
      destruct (wallets (loopDb st) !! betUserId bet); [|discriminate].
      cbn [loopDb bets withBets withTransactions withWallets].
      apply list_lookup_insert_eq. exact Hlt.
    + rewrite settle_fold_transactions, settleBet_transactions.
      unfold paidWinners at 1. cbn [List.filter]. rewrite Hwin, Hhas. cbn [andb map].
      rewrite <- app_assoc. apply list_lookup_middle. reflexivity.
  - apply (IH (settleBet game req st (j, b)) Hnd i bet Hin).
    + rewrite Hb, length_insert. exact Hlt.
    + exact Hwin.
    + rewrite (hasWallet_preserved _ _ Hw). exact Hhas.
Qed.

Lemma winners_paid_or_unpaid win db (l : list Bet) :
  length (winners win l)
  = length (paidWinners win db l) + length (unpaidWinners win db l).
Proof.
  unfold winners, paidWinners, unpaidWinners.
  induction l as [|b l IH]; cbn [List.filter length]; [reflexivity|].
  destruct (isWinnerOf b win); cbn [andb]; [|exact IH].
  destruct (hasWallet db (betUserId b)); cbn [negb length]; lia.
Qed.

(** *** The distribution by bet type *)

Lemma settleBet_distribution game req st i bet t :
  let win := unifiedWinningNumber game req in
  let d := distOf t (loopDistribution st) in
  let d' := distOf t (loopDistribution (settleBet game req st (i, bet))) in
  distTotalBets d' = distTotalBets d + length (ofType t [bet])
  /\ distTotalAmount d'
     = sumFrom (distTotalAmount d) (map betAmount (ofType t [bet]))
  /\ distWinningBets d' = distWinningBets d + length (winners win (ofType t [bet]))
  /\ distWinningAmount d'
     = sumFrom (distWinningAmount d)
               (map potentialWinning (winners win (ofType t [bet]))).
Proof.
  cbv zeta. unfold settleBet, ofType, winners. cbn [List.filter].
  destruct (isWinnerOf bet (unifiedWinningNumber game req)) eqn:Hwin;
    [destruct (wallets (loopDb st) !! betUserId bet)|];
    cbn [loopDistribution];
    destruct t, (betType bet);
    repeat first [rewrite bool_decide_eq_true_2 by reflexivity
                 |rewrite bool_decide_eq_false_2 by discriminate];
    cbn [List.filter]; try rewrite Hwin;
    cbn [updateDistribution distOf distJodi distHaruf distCrossing countBet countWin
         distTotalBets distTotalAmount distWinningBets distWinningAmount
         length map];
    (split; [lia|]; split; [reflexivity|]; split; [lia|reflexivity]).
Qed.

Lemma ofType_cons t bet l : ofType t (bet :: l) = (ofType t [bet] ++ ofType t l)%list.
Proof.
  unfold ofType. cbn [List.filter]. destruct (bool_decide (betType bet = t)); reflexivity.
Qed.

Lemma winners_app win l1 l2 :
  winners win (l1 ++ l2) = (winners win l1 ++ winners win l2)%list.
Proof. unfold winners. apply List.filter_app. Qed.

Lemma settle_fold_distribution game req l t : forall st,
  let win := unifiedWinningNumber game req in
  let d := distOf t (loopDistribution st) in
  let d' := distOf t (loopDistribution (fold_left (settleBet game req) l st)) in
  let these := ofType t (map snd l) in
  distTotalBets d' = distTotalBets d + length these
  /\ distTotalAmount d' = sumFrom (distTotalAmount d) (map betAmount these)
  /\ distWinningBets d' = distWinningBets d + length (winners win these)
  /\ distWinningAmount d'
     = sumFrom (distWinningAmount d) (map potentialWinning (winners win these)).
Proof.
  induction l as [|[i bet] l IH]; intros st; cbv zeta.
  - cbn [fold_left map snd]. unfold ofType, winners. cbn [List.filter length map].
    split; [lia|]. split; [reflexivity|]. split; [lia|reflexivity].
  - cbn [fold_left map snd].
    destruct (IH (settleBet game req st (i, bet))) as (H1 & H2 & H3 & H4).
    destruct (settleBet_distribution game req st i bet t) as (S1 & S2 & S3 & S4).
    rewrite (ofType_cons t bet (map snd l)), winners_app, !map_app, !length_app,
      !sumFrom_app.
    split; [lia|]. split; [congruence|]. split; [lia|congruence].
Qed.

(** The three types share out any list of bets. *)
Lemma ofType_partition (q : Bet -> bool) (l : list Bet) :
  length (List.filter q l)
  = length (List.filter q (ofType jodi l)) + length (List.filter q (ofType haruf l))
    + length (List.filter q (ofType crossing l)).
Proof.
  unfold ofType. induction l as [|b l IH]; cbn [List.filter length]; [reflexivity|].
  destruct (betType b);
    repeat first [rewrite bool_decide_eq_true_2 by reflexivity
                 |rewrite bool_decide_eq_false_2 by discriminate];
    cbn [List.filter]; destruct (q b); cbn [length]; lia.
Qed.

End LedgerProperties.

(** ** What a settlement run of the games route writes *)

Section SettlementAccounts.
Import JS GamesWager Settlement Ledger.

(** The summary of a successful declaration, read off the loop. *)
Lemma declareResult_summary db req data db' game :
  declareResult db req = (Declared data, db') ->
  games db !! reqGameId req = Some game ->
  let found := findBets (pendingOf (reqGameId req)) db in
  let st := fold_left (settleBet game req) found
              {| loopDb := db; loopTotalWinningAmount := 0;
                 loopDistribution := emptyBetDistribution |} in
  let gr := sumGameResult data in
  betDistribution gr = loopDistribution st
  /\ resTotalBets gr = length found
  /\ betsProcessed data = length found
  /\ winnersCount data
     = distWinningBets (distJodi (loopDistribution st))
       + distWinningBets (distHaruf (loopDistribution st))
       + distWinningBets (distCrossing (loopDistribution st))
  /\ sumTotalWinningAmount data = totalWinningAmount gr
  /\ sumNetProfit data = netProfit gr.
Proof.
  unfold declareResult. intros H Hg. rewrite Hg in H.
  destruct (match findExistingResult db (reqGameId req) (reqToday req) with
            | Some (_, r) => isDeclared r
            | None => false
            end); [discriminate|].
  inversion H; subst data db'; clear H. cbv zeta. cbn. auto 10.
Qed.

Lemma filter_all {A} (l : list A) : List.filter (fun _ => true) l = l.
Proof. induction l as [|x l IH]; cbn; [reflexivity | rewrite IH; reflexivity]. Qed.

(** X12: a settlement run credits every wallet with the potential winnings
    of the winning bets of its user among the bets found pending, one
    addition per winning bet, in bet order: [winningBalance] and
    [totalWinnings] are the old values with these amounts added one after
    the other, and [depositBalance] and [totalBets] are as before. *)
Theorem settlement_credits_each_wallet :
  forall (db : Db) (req : Request) (data : Summary) (db' : Db),
    declareResult db req = (Declared data, db') ->
    exists game : Game,
      games db !! reqGameId req = Some game
      /\ let found := map snd (findBets (pendingOf (reqGameId req)) db) in
         let win := unifiedWinningNumber game req in
         forall (user : nat) (wallet : Wallet),
           wallets db !! user = Some wallet ->
           let credits := map potentialWinning (winsOf win user found) in
           exists wallet',
             wallets db' !! user = Some wallet'
             /\ depositBalance wallet' = depositBalance wallet
             /\ totalBets wallet' = totalBets wallet
             /\ winningBalance wallet' = JS.sumFrom (winningBalance wallet) credits
             /\ totalWinnings wallet' = JS.sumFrom (totalWinnings wallet) credits.
Proof.
  intros db req data db' H.
  destruct (declareResult_declared _ _ _ _ H) as (game & Hgame & Hd).
  exists game. split; [exact Hgame|]. cbv zeta in *.
  destruct Hd as (_ & _ & _ & _ & _ & _ & Hw & _).
  intros user wallet Hwallet. rewrite Hw.
  apply (settle_fold_wallets game req _
           {| loopDb := db; loopTotalWinningAmount := 0;
              loopDistribution := emptyBetDistribution |} user wallet Hwallet).
Qed.

Lemma settlement_credits_each_wallet_witness :
  exists data db' wallet',
    declareResult Sample.settleDb Sample.declareRequest = (Declared data, db')
    /\ wallets db' !! 7 = Some wallet'
    /\ depositBalance wallet' = 90%Q
    /\ winningBalance wallet' = 950%Q.
Proof.
  assert (H : exists data db',
             declareResult Sample.settleDb Sample.declareRequest
             = (Declared data, db'))
    by (eexists _, _; vm_compute; reflexivity).
  destruct H as (data & db' & H).
  destruct (settlement_credits_each_wallet _ _ _ _ H) as (game & Hgame & Hw).
  assert (Hg : Some game = Some Sample.closedGame)
    by (rewrite <- Hgame; reflexivity).
  injection Hg as ->. cbv zeta in Hw.
  destruct (Hw 7 (Sample.wallet 90 0) eq_refl) as (wallet' & Hw' & Hd & _ & Hwin & _).
  exists data, db', wallet'. split; [exact H|]. split; [exact Hw'|].
  split; [exact Hd|]. rewrite Hwin. vm_compute. reflexivity.
Defined.

(** X13: the win transactions of a settlement run are, in order, one for
    each winning bet whose user has a wallet, of type win and of the
    amount of the potential winning; the stored bet of such a winner is
    won and refers to its transaction.  The winners reported are these
    and the winners without a wallet, who get no transaction, and
    [totalWinningAmount] is the potential winnings of both groups added
    up from 0 in bet order. *)
Theorem settlement_win_transactions :
  forall (db : Db) (req : Request) (data : Summary) (db' : Db),
    declareResult db req = (Declared data, db') ->
    exists game : Game,
      games db !! reqGameId req = Some game
      /\ let found := map snd (findBets (pendingOf (reqGameId req)) db) in
         let win := unifiedWinningNumber game req in
         let paid := paidWinners win db found in
         transactions db'
         = (transactions db
            ++ map (fun bet => {| txUserId := betUserId bet; txType := tx_win;
                                  txAmount := potentialWinning bet;
                                  txGameId := reqGameId req |}) paid)%list
         /\ totalWinningAmount (sumGameResult data)
            = JS.sumFrom 0 (map potentialWinning (winners win found))
         /\ winnersCount data = length (winners win found)
         /\ length (winners win found)
            = length paid + length (unpaidWinners win db found)
         /\ (forall i bet,
               bets db !! i = Some bet -> pendingOf (reqGameId req) bet = true ->
               isWinnerOf bet win = true -> hasWallet db (betUserId bet) = true ->
               exists t stored,
                 bets db' !! i = Some stored
                 /\ status stored = won
                 /\ winningAmount stored = Some (potentialWinning bet)
                 /\ winningTransactionId stored = Some t
                 /\ transactions db' !! t
                    = Some {| txUserId := betUserId bet; txType := tx_win;
                              txAmount := potentialWinning bet;
                              txGameId := reqGameId req |}).
Proof.
  intros db req data db' H.
  destruct (declareResult_declared _ _ _ _ H) as (game & Hgame & Hd).
  exists game. split; [exact Hgame|]. cbv zeta in *.
  destruct Hd as (_ & _ & _ & _ & _ & Hb & _ & Ht & _).
  destruct (declareResult_bets _ _ _ _ _ H Hgame) as (_ & _ & _ & _ & _ & Htw).
  destruct (declareResult_summary _ _ _ _ _ H Hgame) as (_ & _ & _ & Hcount & _).
  cbv zeta in *.
  set (found := findBets (pendingOf (reqGameId req)) db) in *.
  set (st0 := {| loopDb := db; loopTotalWinningAmount := 0;
                 loopDistribution := emptyBetDistribution |}) in *.
  split; [|split; [exact Htw|split; [|split]]].
  - rewrite Ht. apply (settle_fold_transactions game req found st0).
  - rewrite Hcount.
    destruct (settle_fold_distribution game req found jodi st0) as (_ & _ & Hj & _).
    destruct (settle_fold_distribution game req found haruf st0) as (_ & _ & Hh & _).
    destruct (settle_fold_distribution game req found crossing st0) as (_ & _ & Hc & _).
    cbn [distOf] in Hj, Hh, Hc. rewrite Hj, Hh, Hc.
    cbn [st0 loopDistribution emptyBetDistribution emptyDistribution distJodi distHaruf
         distCrossing distWinningBets].
    unfold winners.
    rewrite (ofType_partition (fun b => isWinnerOf b (unifiedWinningNumber game req))
               (map snd found)).
    lia.
  - apply winners_paid_or_unpaid.
  - intros i bet Hi Hq Hwin Hhas.
    destruct (settle_fold_receipts game req found st0 (findBets_NoDup _ _) i bet)
      as (t & Hstored & Htx).
    + apply findBets_spec. auto.
    + apply lookup_lt_Some in Hi. exact Hi.
    + exact Hwin.
    + exact Hhas.
    + exists t. eexists. rewrite Hb, Ht. split; [exact Hstored|].
      unfold settled. rewrite Hwin. cbn. split; [reflexivity|].
      split; [reflexivity|]. split; [reflexivity|]. exact Htx.
Qed.

Lemma settlement_win_transactions_witness :
  exists data db',
    declareResult Sample.settleDb Sample.declareRequest = (Declared data, db')
    /\ transactions db'
       = [{| txUserId := 7; txType := tx_win; txAmount := 950; txGameId := 1 |}]
    /\ winnersCount data = 2.
Proof.
  assert (H : exists data db',
             declareResult Sample.settleDb Sample.declareRequest
             = (Declared data, db'))
    by (eexists _, _; vm_compute; reflexivity).
  destruct H as (data & db' & H).
  destruct (settlement_win_transactions _ _ _ _ H) as (game & Hgame & Ht & _ & Hn & _).
  assert (Hg : Some game = Some Sample.closedGame)
    by (rewrite <- Hgame; reflexivity).
  injection Hg as ->.
  exists data, db'. split; [exact H|]. split; [rewrite Ht | rewrite Hn]; reflexivity.
Defined.

(** X14: the bet distribution a settlement run stores holds, for each bet
    type, the number of the bets of that type among those found pending,
    their stakes added up from 0 in bet order, the number of winners among
    them and their potential winnings added up from 0 in bet order; the
    counts of the three types add up to [totalBets] and to the number of
    winners reported. *)
Theorem settlement_distribution :
  forall (db : Db) (req : Request) (data : Summary) (db' : Db),
    declareResult db req = (Declared data, db') ->
    exists game : Game,
      games db !! reqGameId req = Some game
      /\ let found := map snd (findBets (pendingOf (reqGameId req)) db) in
         let win := unifiedWinningNumber game req in
         let gr := sumGameResult data in
         let dist := betDistribution gr in
         (forall t : GameType,
            distTotalBets (distOf t dist) = length (ofType t found)
            /\ distTotalAmount (distOf t dist)
               = JS.sumFrom 0 (map betAmount (ofType t found))
            /\ distWinningBets (distOf t dist) = length (winners win (ofType t found))
            /\ distWinningAmount (distOf t dist)
               = JS.sumFrom 0 (map potentialWinning (winners win (ofType t found))))
         /\ resTotalBets gr = length found
         /\ resTotalBets gr
            = distTotalBets (distJodi dist) + distTotalBets (distHaruf dist)
              + distTotalBets (distCrossing dist)
         /\ winnersCount data = length (winners win found)
         /\ winnersCount data
            = distWinningBets (distJodi dist) + distWinningBets (distHaruf dist)
              + distWinningBets (distCrossing dist).
Proof.
  intros db req data db' H.
  destruct (declareResult_declared _ _ _ _ H) as (game & Hgame & _).
  exists game. split; [exact Hgame|]. cbv zeta in *.
  destruct (declareResult_summary _ _ _ _ _ H Hgame)
    as (Hdist & Hn & _ & Hcount & _).
  cbv zeta in *.
  set (found := findBets (pendingOf (reqGameId req)) db) in *.
  set (st0 := {| loopDb := db; loopTotalWinningAmount := 0;
                 loopDistribution := emptyBetDistribution |}) in *.
  assert (Ht : forall t : GameType,
             distTotalBets (distOf t (betDistribution (sumGameResult data)))
             = length (ofType t (map snd found))
             /\ distTotalAmount (distOf t (betDistribution (sumGameResult data)))
                = sumFrom 0 (map betAmount (ofType t (map snd found)))
             /\ distWinningBets (distOf t (betDistribution (sumGameResult data)))
                = length (winners (unifiedWinningNumber game req)
                            (ofType t (map snd found)))
             /\ distWinningAmount (distOf t (betDistribution (sumGameResult data)))
                = sumFrom 0 (map potentialWinning
                               (winners (unifiedWinningNumber game req)
                                  (ofType t (map snd found))))).
  { intros t. rewrite Hdist.
    destruct (settle_fold_distribution game req found t st0) as (H1 & H2 & H3 & H4).
    assert (E : distOf t (loopDistribution st0) = emptyDistribution)
      by (destruct t; reflexivity).
    rewrite E in H1, H2, H3, H4.
    cbn [emptyDistribution distTotalBets distTotalAmount distWinningBets
         distWinningAmount Nat.add] in H1, H2, H3, H4.
    auto. }
  split; [exact Ht|].
  destruct (Ht jodi) as (J1 & _ & J3 & _).
  destruct (Ht haruf) as (A1 & _ & A3 & _).
  destruct (Ht crossing) as (C1 & _ & C3 & _).
  cbn [distOf] in *.
  pose proof (ofType_partition (fun _ => true) (map snd found)) as Pn.
  rewrite !filter_all in Pn.
  pose proof (ofType_partition (fun b => isWinnerOf b (unifiedWinningNumber game req))
                (map snd found)) as Wn.
  unfold winners in *.
  assert (Hlen : length found = length (map snd found))
    by (symmetry; apply length_map).
  split; [rewrite Hn; exact Hlen|].
  split; [rewrite Hn, J1, A1, C1, <- Pn; exact Hlen|].
  assert (Hsum : winnersCount data
                 = distWinningBets (distJodi (betDistribution (sumGameResult data)))
                   + distWinningBets (distHaruf (betDistribution (sumGameResult data)))
                   + distWinningBets
                       (distCrossing (betDistribution (sumGameResult data))))
    by (rewrite Hcount, <- Hdist; reflexivity).
  split; [rewrite Hsum, J3, A3, C3, Wn; reflexivity | exact Hsum].
Qed.

Lemma settlement_distribution_witness :
  exists data db',
    declareResult Sample.settleDb Sample.declareRequest = (Declared data, db')
    /\ winnersCount data = 2
    /\ distTotalBets (distJodi (betDistribution (sumGameResult data))) = 3.
Proof.
  assert (H : exists data db',
             declareResult Sample.settleDb Sample.declareRequest
             = (Declared data, db'))
    by (eexists _, _; vm_compute; reflexivity).
  destruct H as (data & db' & H).
  destruct (settlement_distribution _ _ _ _ H)
    as (game & Hgame & Ht & _ & _ & Hn & _).
  assert (Hg : Some game = Some Sample.closedGame)
    by (rewrite <- Hgame; reflexivity).
  injection Hg as ->.
  exists data, db'. split; [exact H|]. split; [rewrite Hn; reflexivity|].
  destruct (Ht jodi) as (Hj & _). cbn [distOf] in Hj. rewrite Hj. reflexivity.
Defined.

(** X15: a declaration that follows a successful one for the same game, on
    whatever day and with whatever result, finds no bet to settle: it
    processes nothing, reports no winner and no amount, and leaves the
    bets, the wallets and the transactions as the first run has left
    them. *)
Theorem second_declaration_settles_nothing :
  forall (db : Db) (req : Request) (data : Summary) (db1 : Db)
         (req2 : Request) (data2 : Summary) (db2 : Db),
    declareResult db req = (Declared data, db1) ->
    reqGameId req2 = reqGameId req ->
    declareResult db1 req2 = (Declared data2, db2) ->
    betsProcessed data2 = 0 /\ winnersCount data2 = 0
    /\ sumTotalWinningAmount data2 = 0%Q
    /\ totalBetAmount (sumGameResult data2) = 0%Q
    /\ bets db2 = bets db1 /\ wallets db2 = wallets db1
    /\ transactions db2 = transactions db1.
Proof.
  intros db req data db1 req2 data2 db2 H Hid H2.
  destruct (declareResult_settles_pending_only _ _ _ _ H) as (_ & _ & Hnone).
  rewrite <- Hid in Hnone.
  destruct (declareResult_declared _ _ _ _ H2) as (game & Hgame & Hd).
  destruct (declareResult_summary _ _ _ _ _ H2 Hgame) as (_ & _ & Hp & Hc & Hs & _).
  cbv zeta in *. rewrite Hnone in *. cbn [fold_left map length loopDb] in *.
  destruct Hd as (Htb & Htw & _ & _ & _ & Hb & Hw & Ht & _).
  split; [exact Hp|]. split; [exact Hc|]. split; [rewrite Hs; exact Htw|].
  split; [exact Htb|]. auto.
Qed.

Lemma second_declaration_settles_nothing_witness :
  exists data db1 data2 db2,
    declareResult Sample.settleDb Sample.declareRequest = (Declared data, db1)
    /\ declareResult db1
         {| reqGameId := 1; reqJodiResult := Some "63"; reqHarufResult := None;
            reqCrossingResult := None; reqToday := day_ms |}
       = (Declared data2, db2)
    /\ betsProcessed data = 3
    /\ betsProcessed data2 = 0 /\ wallets db2 = wallets db1.
Proof.
  eexists _, _, _, _. split; [vm_compute; reflexivity|].
  split; [vm_compute; reflexivity|]. split; [reflexivity|].
  match goal with
  | |- betsProcessed ?d2 = 0 /\ wallets ?b2 = wallets ?b1 =>
      destruct (second_declaration_settles_nothing
                  Sample.settleDb Sample.declareRequest
                  (match fst (declareResult Sample.settleDb Sample.declareRequest) with
                   | Declared d => d
                   | _ => d2
                   end) b1
                  {| reqGameId := 1; reqJodiResult := Some "63";
                     reqHarufResult := None; reqCrossingResult := None;
                     reqToday := day_ms |} d2 b2)
        as (Hp & _ & _ & _ & _ & Hw & _)
  end.
  - vm_compute. reflexivity.
  - reflexivity.
  - vm_compute. reflexivity.
  - split; [exact Hp | exact Hw].
Defined.

End SettlementAccounts.

(** ** Betting and settlement together *)

Section BettingAndSettlement.
Import JS GamesWager Ledger.

Lemma setGameStatus_same game :
  setGameStatus game (currentStatus game) None = game.
Proof. destruct game; reflexivity. Qed.

Lemma currentStatusOf_setGameStatus game st now :
  Clock.currentStatusOf (setGameStatus game st None) now
  = Clock.currentStatusOf game now.
Proof. reflexivity. Qed.

Lemma getGameById_status_setGameStatus game st now :
  Clock.getGameById_status (setGameStatus game st None) now
  = Clock.getGameById_status game now.
Proof. reflexivity. Qed.

(** [placeBet] reads neither the stored status of a game nor anything of a
    wallet but its deposit balance. *)
Lemma placeBet_same_rejections newWallet now db db' req :
  (forall id g, games db !! id = Some g ->
     exists st, games db' !! id = Some (setGameStatus g st None)) ->
  (forall id, games db !! id = None -> games db' !! id = None) ->
  (forall u, depositBalance (default newWallet (wallets db' !! u))
             = depositBalance (default newWallet (wallets db !! u))) ->
  Placement.rejected (fst (Placement.placeBet newWallet now db' req))
  <-> Placement.rejected (fst (Placement.placeBet newWallet now db req)).
Proof.
  intros Hsome Hnone Hdep. unfold Placement.placeBet.
  destruct (Placement.reqGameId req) as [gameId|]; [|tauto].
  destruct (negb (truthy (Placement.reqBetType req))
            || negb (truthy (Placement.reqBetNumber req))
            || Qeq_bool (Placement.reqBetAmount req) 0); [tauto|].
  destruct (Qle_bool (Placement.reqBetAmount req) 0); [tauto|].
  destruct (games db !! gameId) as [g|] eqn:Hg.
  - destruct (Hsome _ _ Hg) as (st & ->).
    rewrite currentStatusOf_setGameStatus. cbn [minBet maxBet setGameStatus].
    destruct (Clock.currentStatusOf g now) as [gameStatus|]; [|tauto].
    destruct (bool_decide (gameStatus = open)); cbn [negb]; [|cbn; tauto].
    destruct (Placement.Qlt_bool (Placement.reqBetAmount req) (minBet g)
              || Placement.Qlt_bool (maxBet g) (Placement.reqBetAmount req)); [tauto|].
    unfold Placement.placeBetTransaction. rewrite Hdep.
    destruct (Placement.Qlt_bool _ (Placement.reqBetAmount req)); [tauto|].
    destruct (Placement.betTypeOf (Placement.reqBetType req)); cbn; tauto.
  - rewrite (Hnone _ Hg). tauto.
Qed.

(** X16: a declared result does not close the betting.  [declareResult]
    stores the status result_declared in the game, but neither status
    computation reads the stored status: the game shows the same status
    as before at every time of day, and [placeBet] rejects after the
    declaration exactly the requests it rejected before it. *)
Theorem declaration_does_not_close_betting :
  forall (db : Db) (req : Settlement.Request) (data : Settlement.Summary) (db' : Db),
    Settlement.declareResult db req = (Settlement.Declared data, db') ->
    exists game game',
      games db !! Settlement.reqGameId req = Some game
      /\ games db' !! Settlement.reqGameId req = Some game'
      /\ currentStatus game' = result_declared
      /\ (forall currentTime,
            Clock.currentStatusOf game' currentTime
            = Clock.currentStatusOf game currentTime
            /\ Clock.getGameById_status game' currentTime
               = Clock.getGameById_status game currentTime)
      /\ (forall newWallet currentTime bet,
            Placement.rejected
              (fst (Placement.placeBet newWallet currentTime db' bet))
            <-> Placement.rejected
                  (fst (Placement.placeBet newWallet currentTime db bet))).
Proof.
  intros db req data db' H.
  destruct (declareResult_declared _ _ _ _ H) as (game & Hgame & Hd).
  cbv zeta in Hd. destruct Hd as (_ & _ & _ & _ & _ & _ & Hw & _ & _ & Hgames & _).
  destruct (declareResult_bets _ _ _ _ _ H Hgame) as (_ & _ & _ & Hnone & _).
  set (st0 := {| Settlement.loopDb := db; Settlement.loopTotalWinningAmount := 0;
                 Settlement.loopDistribution := Settlement.emptyBetDistribution |}) in *.
  destruct (settle_fold game req (findBets (Settlement.pendingOf (Settlement.reqGameId req)) db)
              st0 (findBets_NoDup _ _)) as (Hg0 & _).
  cbn [st0 Settlement.loopDb] in Hg0. rewrite Hg0 in Hgames.
  exists game, (setGameStatus game result_declared None).
  split; [exact Hgame|]. split; [rewrite Hgames; apply lookup_insert_eq|].
  split; [reflexivity|]. split; [intros now; split; reflexivity|].
  intros newWallet now bet. apply placeBet_same_rejections.
  - intros id g Hid. rewrite Hgames.
    destruct (decide (id = Settlement.reqGameId req)) as [->|Hne].
    + exists result_declared. rewrite lookup_insert_eq. congruence.
    + exists (currentStatus g). rewrite lookup_insert_ne by congruence.
      rewrite setGameStatus_same. exact Hid.
  - intros id Hid. rewrite Hgames.
    destruct (decide (id = Settlement.reqGameId req)) as [->|Hne]; [congruence|].
    rewrite lookup_insert_ne by congruence. exact Hid.
  - intros u. destruct (wallets db !! u) as [w|] eqn:Hu.
    + rewrite Hw.
      destruct (settle_fold_wallets game req
                  (findBets (Settlement.pendingOf (Settlement.reqGameId req)) db)
                  st0 u w Hu) as (w' & -> & Hdep & _).
      exact Hdep.
    + rewrite (proj2 (Hnone u) Hu). reflexivity.
Qed.

Lemma declaration_does_not_close_betting_witness :
  exists data db',
    Settlement.declareResult Sample.openDb Sample.declareRequest
    = (Settlement.Declared data, db')
    /\ ~ Placement.rejected
           (fst (Placement.placeBet (Sample.wallet 0 0) "23:50" db'
                   (Sample.placeRequest "jodi" "62" 20))).
Proof.
  eexists _, _. split; [vm_compute; reflexivity|].
  destruct (declaration_does_not_close_betting Sample.openDb Sample.declareRequest
              _ _ eq_refl) as (game & game' & _ & _ & _ & _ & Hsame).
  intros Hrej. apply Hsame in Hrej. vm_compute in Hrej. exact Hrej.
Defined.

(** The database an accepted request leaves is the one its transaction
    has committed. *)
Lemma placeBet_accepted_db newWallet now db req :
  ~ Placement.rejected (fst (Placement.placeBet newWallet now db req)) ->
  exists gameId game t,
    Placement.passesGuards now db req gameId game
    /\ Placement.Qlt_bool
         (depositBalance (default newWallet (wallets db !! Placement.reqUserId req)))
         (Placement.reqBetAmount req) = false
    /\ Placement.betTypeOf (Placement.reqBetType req) = Some t
    /\ Placement.placeBetTransaction newWallet db req gameId game
       = inr (Placement.placeBet newWallet now db req).
Proof.
  intros Hacc.
  destruct (placeBet_accepted_inv _ _ _ _ Hacc) as (gameId & game & t & Hp & Hb & Ht).
  exists gameId, game, t. split; [exact Hp|].
  apply Qlt_bool_false in Hb. split; [exact Hb|]. split; [exact Ht|].
  rewrite (placeBet_guards_passed _ _ _ _ _ _ Hp).
  unfold Placement.placeBetTransaction. rewrite Hb, Ht. reflexivity.
Qed.

Lemma filter_none {A} (q : A -> bool) (l : list A) :
  (forall x, In x l -> q x = false) -> List.filter q l = [].
Proof.
  induction l as [|x l IH]; intros H; [reflexivity|]. cbn.
  rewrite (H x) by (left; reflexivity). apply IH. intros y Hy. apply H. right. exact Hy.
Qed.

(** X17: a bet from its placing to its settlement.  When a user who has no
    other pending bet on a game places a bet on it and the result of the
    game is declared next, the wallet of the user ends with the deposit
    balance [depositBalance - stake], with the total of bets
    [totalBets + stake], and with the winning balance raised by
    [stake * payout], the payout being the rate of the game for the bet
    type of the request, if the bet wins and unchanged if it loses; the
    stored bet is won or lost accordingly. *)
Theorem bet_placed_then_settled :
  forall (newWallet : Wallet) (currentTime : string) (db : Db)
         (placing : Placement.Request) (req : Settlement.Request)
         (data : Settlement.Summary) (db2 : Db),
    let db1 := snd (Placement.placeBet newWallet currentTime db placing) in
    let user := Placement.reqUserId placing in
    let stake := Placement.reqBetAmount placing in
    let before := default newWallet (wallets db !! user) in
    ~ Placement.rejected
        (fst (Placement.placeBet newWallet currentTime db placing)) ->
    Placement.reqGameId placing = Some (Settlement.reqGameId req) ->
    (forall i bet, bets db !! i = Some bet -> betUserId bet = user ->
                   Settlement.pendingOf (Settlement.reqGameId req) bet = false) ->
    Settlement.declareResult db1 req = (Settlement.Declared data, db2) ->
    exists game t payout bet stored wallet2,
      games db !! Settlement.reqGameId req = Some game
      /\ ((Placement.reqBetType placing = "jodi" /\ t = jodi
           /\ payout = jodiPayout game)
          \/ (Placement.reqBetType placing = "haruf" /\ t = haruf
              /\ payout = harufPayout game)
          \/ (Placement.reqBetType placing = "crossing" /\ t = crossing
              /\ payout = crossingPayout game))
      /\ bets db1 !! length (bets db) = Some bet
      /\ betType bet = t /\ betNumber bet = Placement.reqBetNumber placing
      /\ betData bet = Placement.reqBetData placing
      /\ potentialWinning bet = JS.mul stake payout
      /\ let wins := isWinnerOf bet (Settlement.unifiedWinningNumber game req) in
         bets db2 !! length (bets db) = Some stored
         /\ status stored = (if wins then won else lost)
         /\ wallets db2 !! user = Some wallet2
         /\ depositBalance wallet2 = JS.sub (depositBalance before) stake
         /\ totalBets wallet2 = JS.add (totalBets before) stake
         /\ winningBalance wallet2
            = (if wins then JS.add (winningBalance before) (JS.mul stake payout)
               else winningBalance before).
Proof.
  intros newWallet now db placing req data db2 db1 user stake before Hacc Hid Hno Hdecl.
  destruct (placeBet_accepted_db _ _ _ _ Hacc)
    as (gameId & game & t & Hp & Hb & Ht & Hcommit).
  assert (gameId = Settlement.reqGameId req)
    by (destruct Hp as (Hid' & _); congruence). subst gameId.
  unfold Placement.placeBetTransaction in Hcommit. rewrite Hb, Ht in Hcommit.
  injection Hcommit as Hcommit.
  fold user stake before in Hcommit.
  match type of Hcommit with
  | (_, {| bets := (_ ++ [?b])%list; wallets := <[_ := ?w]> _ |}) = _ =>
      set (bet := b) in *; set (w1 := w) in *
  end.
  assert (Hdb1 : db1 = {| games := games db; gameResults := gameResults db;
                          bets := bets db ++ [bet];
                          wallets := <[user := w1]> (wallets db);
                          users := users db;
                          transactions :=
                            transactions db
                            ++ [{| txUserId := user; txType := tx_bet;
                                   txAmount := stake;
                                   txGameId := Settlement.reqGameId req |}] |})
    by (unfold db1; rewrite <- Hcommit; reflexivity).
  clearbody db1. subst db1. clear Hcommit.
  set (db1 := {| games := games db; bets := (bets db ++ [bet])%list |}) in *.
  assert (Hgame : games db !! Settlement.reqGameId req = Some game)
    by (destruct Hp as (_ & _ & _ & _ & Hg & _); exact Hg).
  destruct (declareResult_declared _ _ _ _ Hdecl) as (game' & Hgame' & Hd).
  assert (game' = game) by (cbn [db1 games] in Hgame'; congruence). subst game'.
  cbv zeta in Hd. destruct Hd as (_ & _ & _ & _ & _ & _ & Hw & _).
  destruct (declareResult_bets _ _ _ _ _ Hdecl Hgame') as (_ & _ & Hset & _).
  cbv zeta in Hset.
  assert (Hpend : Settlement.pendingOf (Settlement.reqGameId req) bet = true).
  { unfold Settlement.pendingOf. cbn [bet betGameId status].
    rewrite Nat.eqb_refl. reflexivity. }
  assert (Hbet : bets db1 !! length (bets db) = Some bet)
    by (cbn [db1 bets]; apply list_lookup_middle; reflexivity).
  destruct (Hset _ _ Hbet Hpend) as (tx & Hstored & _).
  set (st0 := {| Settlement.loopDb := db1; Settlement.loopTotalWinningAmount := 0;
                 Settlement.loopDistribution := Settlement.emptyBetDistribution |}) in *.
  destruct (settle_fold_wallets game req
              (findBets (Settlement.pendingOf (Settlement.reqGameId req)) db1)
              st0 user w1) as (w2 & Hw2 & Hdep & Htb & Hwin & _).
  { cbn [st0 Settlement.loopDb db1 wallets]. apply lookup_insert_eq. }
  set (win := Settlement.unifiedWinningNumber game req) in *.
  destruct (betTypeOf_names (Placement.reqBetType placing)) as (Hj & Hh & Hc & _).
  exists game, t, (Placement.multiplierOf game t), bet,
    (Settlement.settled win tx bet), w2.
  split; [exact Hgame|]. split.
  { destruct t; [left|right; left|right; right];
      (split; [first [apply Hj|apply Hh|apply Hc]; exact Ht|]);
      split; reflexivity. }
  split; [exact Hbet|].
  split; [reflexivity|]. split; [reflexivity|]. split; [reflexivity|].
  split; [reflexivity|].
  cbv zeta. fold win. split; [exact Hstored|].
  split; [unfold Settlement.settled; destruct (isWinnerOf bet win); reflexivity|].
  split; [rewrite Hw; exact Hw2|]. split; [exact Hdep|]. split; [exact Htb|].
  rewrite Hwin. rewrite map_snd_findBets. cbn [db1 bets].
  unfold winsOf. rewrite !List.filter_app.
  rewrite (filter_none _ (List.filter _ (bets db))).
  - cbn [List.filter app]. rewrite Hpend. cbn [List.filter].
    replace (betUserId bet =? user) with true by (symmetry; apply Nat.eqb_refl).
    rewrite andb_true_r. cbn [w1 winningBalance].
    destruct (isWinnerOf bet win); reflexivity.
  - intros x Hx. apply filter_In in Hx as [Hin Hq].
    destruct (Nat.eqb_spec (betUserId x) user) as [Hu|Hu]; [|apply andb_false_r].
    apply list_elem_of_In, list_elem_of_lookup in Hin as (i & Hi).
    rewrite (Hno i x Hi Hu) in Hq. discriminate.
Qed.

Lemma bet_placed_then_settled_witness :
  exists data db2 wallet2,
    Settlement.declareResult
      (snd (Placement.placeBet (Sample.wallet 0 0) "09:15" Sample.shop
              (Sample.placeRequest "jodi" "62" 20)))
      Sample.declareRequest
    = (Settlement.Declared data, db2)
    /\ wallets db2 !! 7 = Some wallet2
    /\ depositBalance wallet2 = 80%Q
    /\ winningBalance wallet2 = 1900%Q.
Proof.
  assert (H : exists data db2,
             Settlement.declareResult
               (snd (Placement.placeBet (Sample.wallet 0 0) "09:15" Sample.shop
                       (Sample.placeRequest "jodi" "62" 20)))
               Sample.declareRequest
             = (Settlement.Declared data, db2))
    by (eexists _, _; vm_compute; reflexivity).
  destruct H as (data & db2 & H).
  destruct (bet_placed_then_settled (Sample.wallet 0 0) "09:15" Sample.shop
              (Sample.placeRequest "jodi" "62" 20) Sample.declareRequest data db2)
    as (game & t & payout & bet & stored & w2 & Hgame & Hnames & Hbet & _ & _ & _ & _
        & Hout).
  - vm_compute. tauto.
  - reflexivity.
  - intros i bet Hi. destruct i; discriminate Hi.
  - exact H.
  - cbv zeta in Hout. destruct Hout as (_ & _ & Hw & Hdep & _ & Hwin).
    assert (Hg : Some game = Some Sample.dayGame) by (rewrite <- Hgame; reflexivity).
    injection Hg as ->.
    assert (Hpay : payout = 95%Q).
    { destruct Hnames as [(_ & _ & ->)|[(Hn & _)|(Hn & _)]];
        [reflexivity | discriminate Hn | discriminate Hn]. }
    subst payout.
    assert (Hb : Some bet
                 = bets (snd (Placement.placeBet (Sample.wallet 0 0) "09:15" Sample.shop
                                (Sample.placeRequest "jodi" "62" 20))) !! 0)
      by (rewrite <- Hbet; reflexivity).
    vm_compute in Hb. injection Hb as ->.
    exists data, db2, w2. split; [exact H|].
    split; [exact Hw|]. split; [rewrite Hdep; vm_compute; reflexivity|].
    rewrite Hwin. vm_compute. reflexivity.
Defined.

End BettingAndSettlement.

(** ** What the results route writes *)

Section ResultsRouteBooks.
Import JS ResultsB ResultsBooks.

Lemma winnersB_cons r bet (l : list Bet) :
  winners r (bet :: l) = (winners r [bet] ++ winners r l)%list.
Proof.
  unfold winners. cbn [List.filter]. destruct (checkBetWinning bet r); reflexivity.
Qed.

Lemma processBet_counts r count db i bet :
  let out := processBet r (count, db) (i, bet) in
  let w := checkBetWinning bet r in
  procTotalBets (fst out) = procTotalBets count
  /\ procWinningBets (fst out) = procWinningBets count + (if w then 1 else 0)
  /\ procLosingBets (fst out) = procLosingBets count + (if w then 0 else 1)
  /\ procTotalWinAmount (fst out)
     = sumFrom (procTotalWinAmount count) (map potentialWinning (winners r [bet]))
  /\ wallets (snd out) = wallets db /\ transactions (snd out) = transactions db
  /\ gameResults (snd out) = gameResults db
  /\ length (bets (snd out)) = length (bets db).
Proof.
  cbv zeta. unfold processBet, winners. cbn [List.filter].
  destruct (checkBetWinning bet r);
    cbn [fst snd procTotalBets procWinningBets procLosingBets procTotalWinAmount
         wallets transactions gameResults bets withBets withUsers map];
    rewrite length_alter.
  - split; [reflexivity|]. split; [lia|]. split; [lia|]. split; [reflexivity|]. auto.
  - split; [reflexivity|]. split; [lia|]. split; [lia|]. split; [reflexivity|]. auto.
Qed.

Lemma processBet_fold_counts r l : forall count db,
  let out := fold_left (processBet r) l (count, db) in
  procTotalBets (fst out) = procTotalBets count
  /\ procWinningBets (fst out) = procWinningBets count + length (winners r (map snd l))
  /\ procLosingBets (fst out) = procLosingBets count + length (losers r (map snd l))
  /\ procTotalWinAmount (fst out)
     = sumFrom (procTotalWinAmount count)
               (map potentialWinning (winners r (map snd l)))
  /\ wallets (snd out) = wallets db /\ transactions (snd out) = transactions db
  /\ gameResults (snd out) = gameResults db
  /\ length (bets (snd out)) = length (bets db).
Proof.
  induction l as [|[i bet] l IH]; intros count db; cbv zeta.
  - cbn [fold_left map snd fst]. unfold winners, losers. cbn [List.filter length map].
    split; [reflexivity|]. split; [lia|]. split; [lia|]. split; [reflexivity|]. auto.
  - cbn [fold_left map snd].
    destruct (processBet_counts r count db i bet)
      as (S1 & S2 & S3 & S4 & S5 & S6 & S7 & S8).
    destruct (processBet r (count, db) (i, bet)) as [count1 db1].
    destruct (IH count1 db1) as (H1 & H2 & H3 & H4 & H5 & H6 & H7 & H8).
    cbn [fst snd] in *.
    split; [congruence|].
    split; [|split; [|split; [|split; [congruence|split; [congruence|split;
      congruence]]]]].
    + rewrite H2, S2. unfold winners. cbn [List.filter].
      destruct (checkBetWinning bet r); cbn [length]; lia.
    + rewrite H3, S3. unfold losers. cbn [List.filter].
      destruct (checkBetWinning bet r); cbn [negb length]; lia.
    + rewrite H4, S4, (winnersB_cons r bet (map snd l)), map_app, sumFrom_app.
      reflexivity.
Qed.

Lemma processBet_fold_bets r l : forall count db,
  List.NoDup (map fst l) ->
  (forall i bet, In (i, bet) l -> bets db !! i = Some bet) ->
  let out := fold_left (processBet r) l (count, db) in
  (forall i, ~ In i (map fst l) -> bets (snd out) !! i = bets db !! i)
  /\ (forall i bet, In (i, bet) l ->
        bets (snd out) !! i
        = Some (markResult bet (checkBetWinning bet r) (dr_fallback r))).
Proof.
  induction l as [|[j b] l IH]; intros count db Hnd Hstored; cbv zeta.
  - cbn. split; [reflexivity | tauto].
  - cbn [fold_left map fst] in *. apply NoDup_cons_iff in Hnd as [Hnotin Hnd].
    assert (Hb : exists count1 db1,
               processBet r (count, db) (j, b) = (count1, db1)
               /\ bets db1
                  = alter (fun stored =>
                             markResult stored (checkBetWinning b r) (dr_fallback r))
                          j (bets db)).
    { unfold processBet. destruct (checkBetWinning b r); eexists _, _;
        (split; [reflexivity|]); reflexivity. }
    destruct Hb as (count1 & db1 & -> & Hb).
    destruct (IH count1 db1 Hnd) as [Hout Hin].
    { intros i bet Hi. rewrite Hb.
      rewrite list_lookup_alter_ne.
      - apply Hstored. right. exact Hi.
      - intros ->. apply Hnotin. apply in_map_iff. exists (i, bet). auto. }
    split.
    + intros i Hi. rewrite Hout by (intros H; apply Hi; right; exact H).
      rewrite Hb. apply list_lookup_alter_ne. intros ->. apply Hi. left. reflexivity.
    + intros i bet [Heq|Hi].
      * inversion Heq; subst j b. rewrite Hout by exact Hnotin.
        rewrite Hb, list_lookup_alter_eq, (Hstored i bet) by (left; reflexivity).
        reflexivity.
      * apply Hin. exact Hi.
Qed.

Lemma processBet_loser_users r count db i bet :
  checkBetWinning bet r = false ->
  users (snd (processBet r (count, db) (i, bet))) = users db.
Proof. intros Hw. unfold processBet. rewrite Hw. reflexivity. Qed.

Lemma processBet_fold_no_winner r l : forall count db,
  winners r (map snd l) = [] ->
  users (snd (fold_left (processBet r) l (count, db))) = users db.
Proof.
  induction l as [|[i bet] l IH]; intros count db Hnone; [reflexivity|].
  cbn [fold_left]. unfold winners in Hnone. cbn [map snd List.filter] in Hnone.
  destruct (checkBetWinning bet r) eqn:Hw; [discriminate|].
  pose proof (processBet_loser_users r count db i bet Hw) as Hsame.
  destruct (processBet r (count, db) (i, bet)) as [count1 db1]. cbn [snd] in Hsame.
  rewrite (IH count1 db1 Hnone). exact Hsame.
Qed.

Lemma filter_split_length {A} (q : A -> bool) (l : list A) :
  length (List.filter q l) + length (List.filter (fun x => negb (q x)) l) = length l.
Proof.
  induction l as [|x l IH]; [reflexivity|]. cbn [List.filter].
  destruct (q x); cbn [negb length]; lia.
Qed.

(** X18: [processBetsForResult] of the results route counts every bet of
    the game, whatever its status, once as winning or as losing, and
    reports as [totalWinAmount] the potential winnings of the winning ones
    added up from 0 in bet order.  Each bet of the game is stored with
    [resultDeclared] true, [isWinning] as evaluated and the fallback
    result as [declaredResult], its [status], stake and potential winning
    untouched; the bets of other games, the wallets and the transactions
    are untouched. *)
Theorem results_route_counts :
  forall (db : Db) (gameId : nat) (r : DeclaredResults),
    let out := processBetsForResult db gameId r in
    let found := List.filter (fun bet => betGameId bet =? gameId) (bets db) in
    procTotalBets (fst out) = length found
    /\ procWinningBets (fst out) = length (winners r found)
    /\ procLosingBets (fst out) = length (losers r found)
    /\ procWinningBets (fst out) + procLosingBets (fst out) = procTotalBets (fst out)
    /\ procTotalWinAmount (fst out)
       = JS.sumFrom 0 (map potentialWinning (winners r found))
    /\ (forall i bet,
          bets db !! i = Some bet ->
          exists stored,
            bets (snd out) !! i = Some stored
            /\ status stored = status bet
            /\ betAmount stored = betAmount bet
            /\ potentialWinning stored = potentialWinning bet
            /\ betUserId stored = betUserId bet
            /\ betNumber stored = betNumber bet
            /\ betGameId stored = betGameId bet
            /\ (betGameId bet = gameId ->
                isWinning stored = Some (checkBetWinning bet r)
                /\ resultDeclared stored = true
                /\ betDeclaredResult stored = Some (dr_fallback r))
            /\ (betGameId bet <> gameId -> stored = bet))
    /\ wallets (snd out) = wallets db
    /\ transactions (snd out) = transactions db
    /\ games (snd out) = games db.
Proof.
  intros db gameId r. cbv zeta.
  pose proof (processBetsForResult_games db gameId r) as Hgames.
  unfold processBetsForResult in *.
  set (q := fun bet : Bet => betGameId bet =? gameId) in *.
  set (c0 := {| procTotalBets := length (findBets q db); procWinningBets := 0;
                procLosingBets := 0; procTotalWinAmount := 0 |}) in *.
  destruct (processBet_fold_counts r (findBets q db) c0 db)
    as (H1 & H2 & H3 & H4 & H5 & H6 & _).
  destruct (processBet_fold_bets r (findBets q db) c0 db (findBets_NoDup _ _))
    as (Hout & Hin).
  { intros i bet Hi. apply findBets_spec in Hi. tauto. }
  rewrite map_snd_findBets in H2, H3, H4.
  cbn [c0 procTotalBets procWinningBets procLosingBets procTotalWinAmount] in *.
  assert (Hlen : length (findBets q db) = length (List.filter q (bets db)))
    by (rewrite <- map_snd_findBets; symmetry; apply length_map).
  split; [rewrite H1; exact Hlen|]. split; [exact H2|]. split; [exact H3|].
  split; [|split; [exact H4|split; [|split; [exact H5|split; [exact H6|exact Hgames]]]]].
  - rewrite H1, H2, H3, Hlen. unfold winners, losers. apply filter_split_length.
  - intros i bet Hi. destruct (q bet) eqn:Hq.
    + eexists. split; [apply Hin; apply findBets_spec; split; [exact Hi|exact Hq]|].
      cbn [markResult status betAmount potentialWinning betUserId betNumber betGameId
           isWinning resultDeclared betDeclaredResult].
      do 6 (split; [reflexivity|]). split; [intros _; auto|].
      intros Hne. unfold q in Hq. apply Nat.eqb_eq in Hq. contradiction.
    + exists bet. split.
      * rewrite Hout; [exact Hi|]. intros Hmem.
        apply in_map_iff in Hmem as ([j b] & Hj & Hmem). cbn in Hj. subst j.
        apply findBets_spec in Hmem as [Hi' Hq']. congruence.
      * do 6 (split; [reflexivity|]). split; [|reflexivity].
        intros Heq. unfold q in Hq. apply Nat.eqb_neq in Hq. contradiction.
Qed.

Lemma results_route_counts_witness :
  let out := processBetsForResult Sample.settleDb 1 (Sample.results "62" "" "") in
  procTotalBets (fst out) = 3
  /\ procWinningBets (fst out) = 2
  /\ procLosingBets (fst out) = 1
  /\ (procTotalWinAmount (fst out) == 1425)%Q
  /\ exists stored,
       bets (snd out) !! 1 = Some stored
       /\ status stored = pending
       /\ isWinning stored = Some false
       /\ resultDeclared stored = true
       /\ betDeclaredResult stored = Some "62".
Proof.
  cbv zeta.
  destruct (results_route_counts Sample.settleDb 1 (Sample.results "62" "" ""))
    as (Htotal & Hwin & Hlose & _ & Hamount & Hstored & _).
  split; [rewrite Htotal; reflexivity|]. split; [rewrite Hwin; reflexivity|].
  split; [rewrite Hlose; reflexivity|].
  split; [rewrite Hamount; vm_compute; reflexivity|].
  destruct (Hstored 1 (Sample.bet 8 1 jodi "63" 20 1900 Sample.noData pending) eq_refl)
    as (stored & Hi & Hst & _ & _ & _ & _ & _ & Hgame & _).
  destruct (Hgame eq_refl) as (Hw & Hd & Hr).
  exists stored. split; [exact Hi|]. split; [exact Hst|]. split; [exact Hw|].
  split; [exact Hd|exact Hr].
Defined.

Lemma checkBetWinning_needs_field bet r :
  checkBetWinning bet r = true ->
  fieldOf (betType bet) r <> "" \/ (betType bet = jodi /\ betNumber bet = "").
Proof.
  unfold checkBetWinning, fieldOf. destruct (betType bet).
  - intros H. apply String.eqb_eq in H.
    destruct (dr_jodi r) eqn:E; [right; auto | left; discriminate].
  - destruct (dr_haruf r) eqn:E; [|left; discriminate].
    unfold harufWinning. cbn. discriminate.
  - destruct (dr_crossing r) eqn:E; [|left; discriminate].
    cbn. discriminate.
Qed.

Lemma processBetsForResult_no_winner db gameId r :
  winners r (List.filter (fun bet => betGameId bet =? gameId) (bets db)) = [] ->
  let out := processBetsForResult db gameId r in
  procWinningBets (fst out) = 0
  /\ procLosingBets (fst out) = procTotalBets (fst out)
  /\ users (snd out) = users db.
Proof.
  intros Hnone. cbv zeta. unfold processBetsForResult.
  set (q := fun bet : Bet => betGameId bet =? gameId) in *.
  set (c0 := {| procTotalBets := length (findBets q db); procWinningBets := 0;
                procLosingBets := 0; procTotalWinAmount := 0 |}).
  destruct (processBet_fold_counts r (findBets q db) c0 db) as (H1 & H2 & H3 & _).
  rewrite map_snd_findBets in H2, H3.
  pose proof (filter_split_length (fun bet => checkBetWinning bet r)
                (List.filter q (bets db))) as Hsplit.
  cbn beta in Hsplit. unfold winners, losers in Hnone, H2, H3.
  rewrite Hnone in H2, Hsplit.
  assert (Hlen : length (findBets q db) = length (List.filter q (bets db)))
    by (rewrite <- map_snd_findBets; symmetry; apply length_map).
  subst c0. cbn [procTotalBets procWinningBets procLosingBets length] in *.
  split; [rewrite H2; reflexivity|]. split; [lia|].
  apply processBet_fold_no_winner. rewrite map_snd_findBets. exact Hnone.
Qed.

(** X20: the results route evaluates a bet against the result field of the
    bet's own type and never against the generic result.  When a
    declaration carries its result only in [declaredResult], it is
    accepted for a closed game and stored in the game, yet every bet with
    a bet number loses: no winner is counted and no user is credited. *)
Theorem generic_result_has_no_winner :
  forall (db : Db) (req : Request) (processed : Processed) (db' : Db),
    reqJodiResult req = "" -> reqHarufResult req = "" ->
    reqCrossingResult req = "" ->
    (forall i bet, bets db !! i = Some bet -> betGameId bet = reqGameId req ->
                   betNumber bet <> "") ->
    declare db req = (Declared processed, db') ->
    procWinningBets processed = 0
    /\ procLosingBets processed = procTotalBets processed
    /\ users db' = users db
    /\ exists game,
         games db' !! reqGameId req = Some game
         /\ declaredResult game = Some (trim (reqDeclaredResult req))
         /\ currentStatus game = result_declared.
Proof.
  intros db req processed db' Hj Hh Hc Hnum. unfold declare, resultToUse.
  rewrite Hj, Hh, Hc. cbn [or_else truthy].
  destruct (negb (truthy (reqDeclaredResult req))) eqn:Hgiven; [discriminate|].
  destruct (games db !! reqGameId req) as [game|] eqn:Hgame; [|discriminate].
  destruct (match declaredResult game with Some r => truthy r | None => false end);
    [discriminate|].
  destruct (negb (bool_decide (currentStatus game = closed))); [discriminate|].
  replace (match gameType game with
           | jodi => reqDeclaredResult req
           | haruf => reqDeclaredResult req
           | crossing => reqDeclaredResult req
           end) with (reqDeclaredResult req) by (destruct (gameType game); reflexivity).
  rewrite Hgiven.
  set (db1 := withGames db _).
  set (r := {| dr_jodi := ""; dr_haruf := ""; dr_crossing := "";
               dr_fallback := trim (reqDeclaredResult req) |}).
  pose proof (processBetsForResult_no_winner db1 (reqGameId req) r) as Hbooks.
  pose proof (processBetsForResult_games db1 (reqGameId req) r) as Hgames.
  destruct (processBetsForResult db1 (reqGameId req) r) as [count db2] eqn:E.
  intros [= <- <-]. cbv zeta in Hbooks. cbn [fst snd] in Hbooks, Hgames.
  destruct Hbooks as (Hw & Hl & Hu).
  { apply filter_none. intros bet Hin. apply filter_In in Hin as [Hin Hq].
    apply Nat.eqb_eq in Hq.
    apply list_elem_of_In, list_elem_of_lookup in Hin as (i & Hi).
    destruct (checkBetWinning bet r) eqn:Hwin; [|reflexivity]. exfalso.
    apply checkBetWinning_needs_field in Hwin as [Hfield|[_ Hempty]].
    - apply Hfield. destruct (betType bet); reflexivity.
    - exact (Hnum i bet Hi Hq Hempty). }
  split; [exact Hw|]. split; [exact Hl|]. split; [exact Hu|].
  eexists. rewrite Hgames. cbn [db1 games withGames]. rewrite lookup_insert_eq.
  split; [reflexivity|]. split; reflexivity.
Qed.

Lemma generic_result_has_no_winner_witness :
  let req := {| reqGameId := 1; reqDeclaredResult := "62"; reqJodiResult := "";
                reqHarufResult := ""; reqCrossingResult := "" |} in
  let db := withBets Sample.settledDb
              [Sample.bet 7 1 jodi "62" 10 950 Sample.noData pending] in
  exists processed db',
    declare db req = (Declared processed, db')
    /\ procTotalBets processed = 1 /\ procWinningBets processed = 0.
Proof.
  cbv zeta. eexists _, _. split; [vm_compute; reflexivity|].
  split; [reflexivity|].
  eapply (generic_result_has_no_winner
            (withBets Sample.settledDb
               [Sample.bet 7 1 jodi "62" 10 950 Sample.noData pending])
            {| reqGameId := 1; reqDeclaredResult := "62"; reqJodiResult := "";
               reqHarufResult := ""; reqCrossingResult := "" |}).
  - reflexivity.
  - reflexivity.
  - reflexivity.
  - intros i bet Hi _. destruct i as [|i]; [|destruct i; discriminate Hi].
    injection Hi as <-. discriminate.
  - vm_compute. reflexivity.
Defined.

End ResultsRouteBooks.

(** ** Paging *)

Section PagingProperties.
Import Paging.
Context {A : Type}.

Lemma totalPages_above page limit total :
  1 <= limit -> (page < totalPages total limit <-> page * limit < total).
Proof.
  intros Hlimit. unfold totalPages.
  pose proof (Nat.div_mod (total + limit - 1) limit ltac:(lia)) as Hdiv.
  pose proof (Nat.mod_upper_bound (total + limit - 1) limit ltac:(lia)) as Hmod.
  set (q := (total + limit - 1) / limit) in *.
  set (r := (total + limit - 1) mod limit) in *.
  split; intros H; nia.
Qed.

Lemma length_pageOf (found : list A) page limit :
  length (pageOf found page limit) = Nat.min limit (length found - (page - 1) * limit).
Proof. unfold pageOf. rewrite length_take, length_drop. reflexivity. Qed.

Lemma pageOf_next (found : list A) page limit :
  1 <= page -> pageOf found (S page) limit = pageOf (drop limit found) page limit.
Proof.
  intros Hpage. unfold pageOf. rewrite drop_drop. f_equal. f_equal.
  cbn [Nat.sub]. rewrite Nat.sub_0_r. nia.
Qed.

Lemma pages_concat limit : forall n (found : list A),
  1 <= limit -> length found <= n * limit ->
  concat (map (fun page => pageOf found page limit) (seq 1 n)) = found.
Proof.
  induction n as [|n IH]; intros found Hlimit Hlen.
  - cbn. destruct found; [reflexivity | cbn in Hlen; lia].
  - cbn [seq map concat]. rewrite <- seq_shift, map_map.
    rewrite (map_ext_in _ (fun page => pageOf (drop limit found) page limit)).
    + rewrite IH; [|exact Hlimit|rewrite length_drop; lia].
      unfold pageOf. cbn. apply take_drop.
    + intros page Hin. apply in_seq in Hin. apply pageOf_next. lia.
Qed.

(** X21: for a limit of at least one, the pages a list handler serves tile
    the documents found: every page holds at most [limit] of them, the
    pages 1 to [totalPages] are exactly the non-empty ones and put
    together give the documents in order; [hasNext] is true exactly when
    the next page is not empty, and the test on [page * limit] of
    [getUserBets] and [getGameResults] agrees with the test on
    [totalPages] of the history route. *)
Theorem pages_tile_the_documents :
  forall (found : list A) (limit : nat),
    1 <= limit ->
    let total := length found in
    (forall page, 1 <= page ->
       length (pageOf found page limit) <= limit
       /\ (pageOf found page limit <> [] <-> page <= totalPages total limit)
       /\ (hasNext (pagination page limit total) = true
           <-> pageOf found (S page) limit <> [])
       /\ hasNext (historyPagination page limit total)
          = hasNext (pagination page limit total))
    /\ concat (map (fun page => pageOf found page limit)
                   (seq 1 (totalPages total limit))) = found.
Proof.
  intros found limit Hlimit total.
  assert (Hnonempty : forall page, 1 <= page ->
             (pageOf found page limit <> [] <-> (page - 1) * limit < total)).
  { intros page Hpage. rewrite <- length_zero_iff_nil, length_pageOf. fold total. lia. }
  split.
  - intros page Hpage. split; [rewrite length_pageOf; lia|].
    split; [|split].
    + rewrite (Hnonempty page Hpage), <- totalPages_above by exact Hlimit. lia.
    + cbn [hasNext pagination]. rewrite Nat.ltb_lt, (Hnonempty (S page)) by lia.
      cbn [Nat.sub]. rewrite Nat.sub_0_r. reflexivity.
    + cbn [hasNext pagination historyPagination].
      destruct (Nat.ltb_spec (page * limit) total) as [H|H].
      * apply Nat.ltb_lt. apply totalPages_above; assumption.
      * apply Nat.ltb_ge. destruct (Nat.le_gt_cases (totalPages total limit) page)
          as [Hle|Hgt]; [exact Hle|].
        apply totalPages_above in Hgt; [lia | exact Hlimit].
  - apply pages_concat; [exact Hlimit|]. fold total.
    destruct (Nat.le_gt_cases total (totalPages total limit * limit)) as [H|H];
      [exact H|].
    apply totalPages_above in H; [lia | exact Hlimit].
Qed.

End PagingProperties.

Lemma pages_tile_the_documents_witness :
  concat (map (fun page => Paging.pageOf [1; 2; 3; 4; 5] page 2)
              (seq 1 (Paging.totalPages 5 2))) = [1; 2; 3; 4; 5].
Proof.
  apply (pages_tile_the_documents [1; 2; 3; 4; 5] 2). lia.
Defined.

(** ** The auto-result schedule *)

Section ScheduleProperties.
Import JS Schedule.

Lemma ceilDiv_positive a b : (0 < a)%Z -> (0 < b)%Z -> (1 <= ceilDiv a b)%Z.
Proof.
  intros Ha Hb. unfold ceilDiv.
  assert ((- a) / b < 0)%Z by (apply Z.div_lt_upper_bound; lia). lia.
Qed.

(** X22: the schedule of [/pending] is never overdue.  The auto-result
    time is the end time of the game on the day of the request plus 24
    hours, so for every game whose end time is read as a time of day the
    time lies after the request: [isOverdue] is false, at least one hour
    is reported until the auto result, and [overdueCount] is 0. *)
Theorem pending_schedule_is_never_overdue :
  forall (now today localMidnight : Z) (pendingGames : list Game),
    (now <= today)%Z ->
    (localMidnight <= today < localMidnight + Settlement.day_ms)%Z ->
    Forall (fun game => Clock.timeToMinutes (endTime game) <> None) pendingGames ->
    let entries := gamesWithSchedule now localMidnight pendingGames in
    overdueCount entries = 0
    /\ Forall (fun entry =>
                 isOverdue entry = false
                 /\ exists minutes auto hours,
                      Clock.timeToMinutes (endTime (entryGame entry)) = Some minutes
                      /\ autoResultScheduled entry = Some auto
                      /\ auto = (localMidnight + Z.of_nat minutes * minute_ms
                                 + Settlement.day_ms)%Z
                      /\ hoursUntilAutoResult entry = Some hours
                      /\ (1 <= hours)%Z)
              entries.
Proof.
  intros now today localMidnight pendingGames Hnow Hday Hparsed entries.
  assert (Hall : Forall (fun entry =>
                 isOverdue entry = false
                 /\ exists minutes auto hours,
                      Clock.timeToMinutes (endTime (entryGame entry)) = Some minutes
                      /\ autoResultScheduled entry = Some auto
                      /\ auto = (localMidnight + Z.of_nat minutes * minute_ms
                                 + Settlement.day_ms)%Z
                      /\ hoursUntilAutoResult entry = Some hours
                      /\ (1 <= hours)%Z) entries).
  { subst entries. unfold gamesWithSchedule.
    induction Hparsed as [|game l Hgame _ IH]; cbn [map]; constructor; [|exact IH].
    unfold withSchedule, autoScheduleTime, Clock.timeToMinutes in *.
    cbn [entryGame isOverdue autoResultScheduled hoursUntilAutoResult].
    destruct (map Number (split ":" (endTime game))) as [|[h|] [|[m|] rest]];
      try contradiction.
    cbn [fmap option_fmap option_map].
    assert (Hauto : (now < localMidnight + Z.of_nat h * hour_ms
                          + Z.of_nat m * minute_ms + 24 * 60 * 60 * 1000)%Z)
      by (unfold Settlement.day_ms, hour_ms, minute_ms in *; lia).
    split; [apply Z.ltb_ge; lia|].
    eexists _, _, _. split; [reflexivity|]. split; [reflexivity|].
    split; [unfold Settlement.day_ms, hour_ms, minute_ms; lia|].
    split; [reflexivity|].
    pose proof (ceilDiv_positive
                  (localMidnight + Z.of_nat h * hour_ms + Z.of_nat m * minute_ms
                   + 24 * 60 * 60 * 1000 - now) hour_ms
                  ltac:(lia) ltac:(unfold hour_ms; lia)).
    lia. }
  split; [|exact Hall].
  unfold overdueCount. induction Hall as [|entry l [Hover _] _ IH]; [reflexivity|].
  cbn [List.filter]. rewrite Hover. exact IH.
Qed.

Lemma pending_schedule_is_never_overdue_witness :
  overdueCount (gamesWithSchedule 86399999 0 [Sample.closedGame; Sample.lateResultGame])
  = 0.
Proof.
  apply (pending_schedule_is_never_overdue 86399999 86399999 0
           [Sample.closedGame; Sample.lateResultGame]).
  - lia.
  - unfold Settlement.day_ms. lia.
  - repeat constructor; discriminate.
Defined.

End ScheduleProperties.

(** ** The admin middleware *)

Section AuthProperties.
Import JS Auth.
Variable verify : string -> option nat.

(** X23: the two middlewares differ for active admins only.  On every
    request [superAdminAuth] and [adminAuth] give the same outcome, except
    that a request [adminAuth] passes for an active user of role admin is
    answered 403 by [superAdminAuth]; so whatever passes [superAdminAuth]
    passes [adminAuth] with the same user, and what either passes carries
    a token that verifies to an existing, active user. *)
Theorem superAdminAuth_is_the_stricter :
  forall (accounts : gmap nat Account) (authorization : option string),
    let strict := superAdminAuth verify accounts authorization in
    let lax := adminAuth verify accounts authorization in
    (strict = lax
     \/ exists userId user,
          lax = Next userId user /\ accRole user = "admin" /\ strict = Forbidden)
    /\ (forall userId user,
          strict = Next userId user ->
          lax = Next userId user /\ accRole user = "superadmin")
    /\ (forall userId user,
          lax = Next userId user ->
          accounts !! userId = Some user /\ accIsActive user = true
          /\ (accRole user = "admin" \/ accRole user = "superadmin")
          /\ exists header token,
               authorization = Some header
               /\ token = removeFirst "Bearer " header
               /\ token <> "" /\ verify token = Some userId).
Proof.
  intros accounts authorization. cbv zeta.
  unfold superAdminAuth, adminAuth, authenticate.
  destruct authorization as [header|]; cbn [fmap option_fmap option_map];
    [|split; [left; reflexivity|split; discriminate]].
  destruct (truthy (removeFirst "Bearer " header)) eqn:Htoken; cbn [negb];
    [|split; [left; reflexivity|split; discriminate]].
  destruct (verify (removeFirst "Bearer " header)) as [userId|] eqn:Hverify;
    [|split; [left; reflexivity|split; discriminate]].
  destruct (accounts !! userId) as [user|] eqn:Huser;
    [|split; [left; reflexivity|split; discriminate]].
  destruct (accIsActive user) eqn:Hactive; cbn [negb];
    [|split; [left; reflexivity|split; discriminate]].
  apply truthy_true in Htoken.
  destruct (String.eqb_spec (accRole user) "superadmin") as [Hsuper|Hsuper];
    destruct (String.eqb_spec (accRole user) "admin") as [Hadmin|Hadmin];
    cbn [negb andb]; try congruence.
  - split; [left; reflexivity|]. split.
    + intros ? ? [= <- <-]. auto.
    + intros ? ? [= <- <-]. split; [exact Huser|]. split; [exact Hactive|].
      split; [right; exact Hsuper|]. eauto 6.
  - split; [right; eauto|]. split; [discriminate|].
    intros ? ? [= <- <-]. split; [exact Huser|]. split; [exact Hactive|].
    split; [left; exact Hadmin|]. eauto 6.
  - split; [left; reflexivity|]. split; discriminate.
Qed.

End AuthProperties.

(** ** Updating the limits of a game *)

Section UpdateProperties.
Import JS Update.

(** X25: [updateGame] compares the limits of the body with each other and
    never with the limits stored in the game.  An update that carries both
    limits and is accepted leaves [minBet <= maxBet] and [minBet <= 5000];
    an update that carries only a [maxBet] of at least 1 below the stored
    [minBet] is accepted as well, and from then on [placeBet] rejects every
    bet on that game. *)
Theorem updateGame_checks_only_the_body :
  forall (db : Db) (gameId : nat) (game : Game),
    games db !! gameId = Some game ->
    (forall newMin newMax active updated db',
       updateGame db gameId {| bodyMinBet := Some newMin; bodyMaxBet := Some newMax;
                               bodyIsActive := active |}
       = (GameUpdated updated, db') ->
       (minBet updated <= maxBet updated)%Q /\ (minBet updated <= 5000)%Q
       /\ (1 <= minBet updated)%Q
       /\ games db' !! gameId = Some updated)
    /\ (forall newMax,
          (1 <= newMax)%Q -> (newMax < minBet game)%Q ->
          exists updated db',
            updateGame db gameId {| bodyMinBet := None; bodyMaxBet := Some newMax;
                                    bodyIsActive := None |}
            = (GameUpdated updated, db')
            /\ games db' !! gameId = Some updated
            /\ (maxBet updated < minBet updated)%Q
            /\ forall newWallet currentTime bet,
                 Placement.reqGameId bet = Some gameId ->
                 Placement.rejected
                   (fst (Placement.placeBet newWallet currentTime db' bet))).
Proof.
  intros db gameId game Hgame. split.
  - intros newMin newMax active updated db'. unfold updateGame, validBody.
    cbn [bodyMinBet bodyMaxBet bodyIsActive]. rewrite Hgame.
    destruct (Placement.Qlt_bool newMin 1) eqn:Hmin1; cbn [negb andb].
    { destruct (nonZero newMin && Placement.Qlt_bool 5000 newMin); [discriminate|].
      destruct (nonZero newMin && nonZero newMax && Placement.Qlt_bool newMax newMin);
        discriminate. }
    destruct (Placement.Qlt_bool newMax 1) eqn:Hmax1; cbn [negb andb].
    { destruct (nonZero newMin && Placement.Qlt_bool 5000 newMin); [discriminate|].
      destruct (nonZero newMin && nonZero newMax && Placement.Qlt_bool newMax newMin);
        discriminate. }
    apply Qlt_bool_false in Hmin1, Hmax1.
    assert (Hnz : forall x, (1 <= x)%Q -> nonZero x = true).
    { intros x Hx. unfold nonZero. destruct (Qeq_bool x 0) eqn:E; [|reflexivity].
      apply Qeq_bool_iff in E. rewrite E in Hx. exfalso.
      apply (Qlt_not_le 0 1); [reflexivity | exact Hx]. }
    rewrite (Hnz _ Hmin1), (Hnz _ Hmax1). cbn [andb].
    destruct (Placement.Qlt_bool 5000 newMin) eqn:H5; [discriminate|].
    destruct (Placement.Qlt_bool newMax newMin) eqn:Hord; [discriminate|].
    apply Qlt_bool_false in H5, Hord.
    intros [= <- <-]. cbn [minBet maxBet applyBody default games withGames].
    split; [exact Hord|]. split; [exact H5|]. split; [exact Hmin1|].
    apply lookup_insert_eq.
  - intros newMax Hone Hbelow. unfold updateGame, validBody.
    cbn [bodyMinBet bodyMaxBet bodyIsActive andb]. rewrite Hgame.
    apply Qlt_bool_false in Hone. rewrite Hone. cbn [negb].
    eexists _, _. split; [reflexivity|]. cbn [games withGames].
    split; [apply lookup_insert_eq|]. split; [exact Hbelow|].
    intros newWallet now bet Hid.
    match goal with |- Placement.rejected (fst ?out) =>
      destruct (fst out) eqn:E; try exact I;
      assert (Hacc : ~ Placement.rejected (fst out)) by (rewrite E; cbn; tauto)
    end.
    apply placeBet_accepted_inv in Hacc
      as (gameId' & game' & t & (Hid' & _ & _ & _ & Hg' & _ & _ & Hmin & Hmax) & _).
    assert (gameId' = gameId) by congruence. subst gameId'.
    cbn [games withGames] in Hg'. rewrite lookup_insert_eq in Hg'.
    injection Hg' as <-. cbn [minBet maxBet applyBody default bodyMinBet bodyMaxBet] in *.
    apply (Qlt_not_le _ _ Hbelow). eapply Qle_trans; eassumption.
Qed.

Lemma updateGame_checks_only_the_body_witness :
  exists updated db',
    updateGame Sample.shop 1 {| bodyMinBet := None; bodyMaxBet := Some 5%Q;
                                bodyIsActive := None |}
    = (GameUpdated updated, db')
    /\ (maxBet updated < minBet updated)%Q.
Proof.
  destruct (updateGame_checks_only_the_body Sample.shop 1 Sample.dayGame eq_refl)
    as [_ H].
  destruct (H 5%Q) as (updated & db' & Hup & _ & Hinv & _).
  - discriminate.
  - reflexivity.
  - exists updated, db'. split; [exact Hup | exact Hinv].
Defined.

End UpdateProperties.
